(** * VncConnection: a shallow embedding of the connection engine

    The development follows [VncConnection.cpp]: the host-address parser of
    [setHost], the control-flag bitset, the framebuffer and its scaled copy,
    the quality profile, the codec callbacks ([hook...]), the event queue and
    the two loops of the driver thread ([establishConnection] and
    [handleConnection]).

    Conventions.  A C++ [int] is a [Z]; where the source computes in an
    unsigned 32-bit type the wrap-around is written out ([wrap32]), and so
    is the reduction of an [int] product to 32 bits ([wrapInt]).  Qt
    strings are [string]s.  The members of the class are the fields of the
    record [VncConnection]; a member function is a function from the record
    to the record (and a result, when it has one).  Everything the code
    does to the outside (signals, requests handed to the codec, wake-ups of
    the sleeper, waits) is appended to the field [trace]; lines written to
    the log are not part of the model. *)

From Stdlib Require Import ZArith List String Ascii Bool Lia.
Import ListNotations.
Local Open Scope string_scope.
Local Open Scope list_scope.
Local Open Scope Z_scope.

(** ** Regular expressions of the host parser *)

Module Regex.

(** One character position of a pattern. [ADot] is PCRE's dot (no newline),
    [ADigit] is [\d] (ASCII digits: the Unicode-properties option is off),
    [ASet neg ranges] is a bracket expression. *)
Inductive atom : Type :=
| AChar (c : ascii)
| ADot
| ADigit
| ASet (neg : bool) (ranges : list (ascii * ascii)).

Inductive regex : Type :=
| Bol
| Eol
| Atom (a : atom)
| Cat (r1 r2 : regex)
| Rep (a : atom) (lo : nat) (hi : option nat) (greedy : bool)
| Grp (n : nat) (r : regex).

Definition in_range (c : ascii) (r : ascii * ascii) : bool :=
  ((nat_of_ascii (fst r) <=? nat_of_ascii c)%nat
   && (nat_of_ascii c <=? nat_of_ascii (snd r))%nat)%bool.

Definition is_digit (c : ascii) : bool := in_range c ("0"%char, "9"%char).

Definition newline : ascii := "010"%char.

Definition amatch (a : atom) (c : ascii) : bool :=
  match a with
  | AChar d => Ascii.eqb c d
  | ADot => negb (Ascii.eqb c newline)
  | ADigit => is_digit c
  | ASet neg rs => xorb neg (existsb (in_range c) rs)
  end.

(** Captured substrings, by group number. *)
Definition captures := list (nat * list ascii).

Fixpoint lookup_cap (n : nat) (cs : captures) : option (list ascii) :=
  match cs with
  | [] => None
  | (m, s) :: cs' => if Nat.eqb n m then Some s else lookup_cap n cs'
  end.

Definition cont := nat -> list ascii -> captures -> option captures.

(** A quantified atom.  The greedy form takes as many characters as it can
    and gives them back one at a time; the lazy form (every quantifier of a
    pattern compiled with [InvertedGreedinessOption]) takes as few as it
    can. *)
Fixpoint rep (a : atom) (lo : nat) (hi : option nat) (greedy : bool)
         (pos : nat) (s : list ascii) (cs : captures) (k : cont)
  : option captures :=
  let more :=
    match hi with
    | Some O => None
    | _ =>
      match s with
      | c :: s' =>
        if amatch a c
        then rep a (Nat.pred lo) (option_map Nat.pred hi) greedy (S pos) s' cs k
        else None
      | [] => None
      end
    end in
  match lo with
  | S _ => more
  | O =>
    if greedy
    then match more with Some r => Some r | None => k pos s cs end
    else match k pos s cs with Some r => Some r | None => more end
  end.

(** [$] without the multiline and dollar-end-only options: the end of the
    subject, or just before a newline that ends it. *)
Definition at_end (s : list ascii) : bool :=
  match s with
  | [] => true
  | [c] => Ascii.eqb c newline
  | _ => false
  end.

(** Backtracking matcher in continuation style; [pos] is the offset of [s]
    in the subject. *)
Fixpoint rmatch (r : regex) (pos : nat) (s : list ascii) (cs : captures)
         (k : cont) : option captures :=
  match r with
  | Bol => if Nat.eqb pos 0%nat then k pos s cs else None
  | Eol => if at_end s then k pos s cs else None
  | Atom a =>
    match s with
    | c :: s' => if amatch a c then k (S pos) s' cs else None
    | [] => None
    end
  | Cat r1 r2 => rmatch r1 pos s cs (fun p' s' cs' => rmatch r2 p' s' cs' k)
  | Rep a lo hi g => rep a lo hi g pos s cs k
  | Grp n r1 =>
    rmatch r1 pos s cs
           (fun p' s' cs' => k p' s' ((n, firstn (p' - pos) s) :: cs'))
  end.

(** [QRegularExpression::match]: the leftmost match, tried at every offset
    of the subject. *)
Fixpoint search (r : regex) (pos : nat) (s : list ascii) : option captures :=
  match rmatch r pos s [] (fun _ _ cs => Some cs) with
  | Some cs => Some cs
  | None =>
    match s with
    | [] => None
    | _ :: s' => search r (S pos) s'
    end
  end.

Definition qmatch (r : regex) (subject : string) : option captures :=
  search r 0%nat (list_ascii_of_string subject).

(** [QRegularExpressionMatch::captured(n)]: the text of group [n], the null
    string when the group took no part in the match. *)
Definition captured (m : captures) (n : nat) : string :=
  match lookup_cap n m with
  | Some s => string_of_list_ascii s
  | None => EmptyString
  end.

Fixpoint cat_all (rs : list regex) (last : regex) : regex :=
  match rs with
  | [] => last
  | r :: rs' => Cat r (cat_all rs' last)
  end.

Definition lit (c : ascii) : regex := Atom (AChar c).
Definition plus (a : atom) : regex := Rep a 1%nat None true.

End Regex.

(** ** Qt helpers *)

Definition INT_MAX : Z := 2147483647.

Fixpoint digits_value (acc : Z) (s : list ascii) : option Z :=
  match s with
  | [] => Some acc
  | c :: s' =>
    if Regex.is_digit c
    then digits_value (10 * acc + (Z.of_nat (nat_of_ascii c) - 48)) s'
    else None
  end.

(** [QString::toInt()] on the strings the parser hands it (a run of decimal
    digits, or the null string): the value, and 0 when the conversion
    fails, which includes the empty string and a value beyond [INT_MAX]. *)
Definition toInt (s : string) : Z :=
  match list_ascii_of_string s with
  | [] => 0
  | l =>
    match digits_value 0 l with
    | Some v => if (v <=? INT_MAX)%Z then v else 0
    | None => 0
    end
  end.

Definition isEmptyString (s : string) : bool :=
  match s with EmptyString => true | _ => false end.

(** ** The data of a connection *)

(** [VncConnection::State], [FramebufferState] and [Quality]. *)
Inductive State : Type :=
| Disconnected | Connecting | Connected
| HostOffline | ServerNotRunning | AuthenticationFailed | ConnectionFailed.

Inductive FramebufferState : Type := Invalid | Initialized | Valid.

Inductive Quality : Type := Highest | High | Medium | Low | Lowest.

Inductive ControlFlag : Type :=
| ScaledFramebufferNeedsUpdate
| ServerReachable
| TerminateThread
| RestartConnection
| DeleteAfterFinished
| SkipHostPing
| RequiresManualUpdateRateControl
| TriggerFramebufferUpdate.

Definition State_eqb (a b : State) : bool :=
  match a, b with
  | Disconnected, Disconnected | Connecting, Connecting | Connected, Connected
  | HostOffline, HostOffline | ServerNotRunning, ServerNotRunning
  | AuthenticationFailed, AuthenticationFailed
  | ConnectionFailed, ConnectionFailed => true
  | _, _ => false
  end.

Definition FramebufferState_eqb (a b : FramebufferState) : bool :=
  match a, b with
  | Invalid, Invalid | Initialized, Initialized | Valid, Valid => true
  | _, _ => false
  end.

Definition Quality_eqb (a b : Quality) : bool :=
  match a, b with
  | Highest, Highest | High, High | Medium, Medium | Low, Low
  | Lowest, Lowest => true
  | _, _ => false
  end.

(** Modelled from the spec: the enumerator values of [ControlFlag] are
    declared in VncConnection.h, which is not among the sources.  The spec
    describes the flags as a bitset of eight cross-thread signals combined
    with bitwise or, so each flag is one bit of its own. *)
Definition flagValue (f : ControlFlag) : Z :=
  match f with
  | ScaledFramebufferNeedsUpdate => 0x01
  | ServerReachable => 0x02
  | TerminateThread => 0x04
  | RestartConnection => 0x08
  | DeleteAfterFinished => 0x10
  | SkipHostPing => 0x20
  | RequiresManualUpdateRateControl => 0x40
  | TriggerFramebufferUpdate => 0x80
  end.

(** Modelled from the spec: [RfbBitsPerSample] and [RfbBytesPerPixel] are
    constants of VncConnection.h; the spec fixes the pixel layout to 32 bits
    per pixel made of 8-bit channels, so a pixel is four bytes of eight
    bits. *)
Definition RfbBitsPerSample : Z := 8.
Definition RfbSamplesPerPixel : Z := 3.
Definition RfbBytesPerPixel : Z := 4.

Definition wrap32 (z : Z) : Z := z mod 2 ^ 32.

(** The value of an [int] expression whose exact result is [z], as the
    compiled code computes it: reduced to 32 bits, two's complement. *)
Definition wrapInt (z : Z) : Z := (z + 2 ^ 31) mod 2 ^ 32 - 2 ^ 31.

(** *** Sizes and images (Qt) *)

Record QSize : Type := mkQSize { width : Z; height : Z }.

(** [QSize()] is the invalid size (-1, -1). *)
Definition QSize_default : QSize := mkQSize (-1) (-1).

Definition QSize_eqb (a b : QSize) : bool :=
  ((width a =? width b) && (height a =? height b))%bool.

Definition QSize_isNull (s : QSize) : bool :=
  ((width s =? 0) && (height s =? 0))%bool.

Definition QSize_isEmpty (s : QSize) : bool :=
  ((width s <? 1) || (height s <? 1))%bool.

Definition QSize_isValid (s : QSize) : bool :=
  ((0 <=? width s) && (0 <=? height s))%bool.

(** An image is the null image, a view of a pixel array of the given
    extent, or the outcome of a smooth rescaling of another image.  The
    resampled pixel values are floating-point arithmetic of Qt and stay
    symbolic: [ImgSmooth src w h] stands for [src] resampled to [w] x
    [h].  As in Qt, an image that is not null has a positive extent. *)
Inductive QImage : Type :=
| ImgNull
| ImgWrap (w h : positive) (pixels : list Z)
| ImgSmooth (src : QImage) (w h : positive).

Definition QImage_size (i : QImage) : QSize :=
  match i with
  | ImgNull => mkQSize 0 0
  | ImgWrap w h _ => mkQSize (Z.pos w) (Z.pos h)
  | ImgSmooth _ w h => mkQSize (Z.pos w) (Z.pos h)
  end.

Definition QImage_isNull (i : QImage) : bool :=
  match i with ImgNull => true | _ => false end.

(** [QImage(data, w, h, format, cleanup, info)]: a view of [data]; Qt
    yields the null image for an extent that is not positive. *)
Definition QImage_fromData (data : list Z) (w h : Z) : QImage :=
  if ((w <=? 0) || (h <=? 0))%bool then ImgNull
  else ImgWrap (Z.to_pos w) (Z.to_pos h) data.

(** [QImage::scaled(s, Qt::IgnoreAspectRatio, Qt::SmoothTransformation)]:
    null for a null image or an empty target size, the image itself when
    the target is its own size, a resampled copy of exactly the target size
    otherwise. *)
Definition QImage_scaled (i : QImage) (s : QSize) : QImage :=
  if QImage_isNull i then ImgNull
  else if QSize_isEmpty s then ImgNull
  else if QSize_eqb s (QImage_size i) then i
  else ImgSmooth i (Z.to_pos (width s)) (Z.to_pos (height s)).

(** *** The codec's client structure *)

Record rfbPixelFormat : Type := mkFormat {
  bitsPerPixel : Z;
  redShift : Z; greenShift : Z; blueShift : Z;
  redMax : Z; greenMax : Z; blueMax : Z
}.

Record AppData : Type := mkAppData {
  encodingsString : string;
  compressLevel : Z;
  qualityLevel : Z;
  enableJPEG : bool;
  useRemoteCursor : bool;
  useBGR233 : bool
}.

(** The fields of [rfbClient] the connection reads or writes.  [clientId]
    stands for the address of the structure: two clients are the same
    object when their ids agree.  [ownerSlot] is the client-data entry
    under [VncConnectionTag]: [setClientData] stores there either the
    pointer to this connection ([true]) or the null pointer ([false]). *)
Record rfbClient : Type := mkClient {
  clientId : nat;
  cl_width : Z;
  cl_height : Z;
  format : rfbPixelFormat;
  appData : AppData;
  frameBuffer : list Z;
  serverPort : Z;
  serverHost : string;
  connectTimeout : Z;
  readTimeout : Z;
  rcSource : list Z;
  rcMask : list Z;
  ownerSlot : bool
}.

Definition set_format (v : rfbPixelFormat) (c : rfbClient) : rfbClient :=
  let 'mkClient a b c0 _ e f g h i j k l m := c in
  mkClient a b c0 v e f g h i j k l m.
Definition set_appData (v : AppData) (c : rfbClient) : rfbClient :=
  let 'mkClient a b c0 d _ f g h i j k l m := c in
  mkClient a b c0 d v f g h i j k l m.
Definition set_frameBuffer (v : list Z) (c : rfbClient) : rfbClient :=
  let 'mkClient a b c0 d e _ g h i j k l m := c in
  mkClient a b c0 d e v g h i j k l m.
Definition set_serverPort (v : Z) (c : rfbClient) : rfbClient :=
  let 'mkClient a b c0 d e f _ h i j k l m := c in
  mkClient a b c0 d e f v h i j k l m.
Definition set_serverHost (v : string) (c : rfbClient) : rfbClient :=
  let 'mkClient a b c0 d e f g _ i j k l m := c in
  mkClient a b c0 d e f g v i j k l m.
Definition set_connectTimeout (v : Z) (c : rfbClient) : rfbClient :=
  let 'mkClient a b c0 d e f g h _ j k l m := c in
  mkClient a b c0 d e f g h v j k l m.
Definition set_readTimeout (v : Z) (c : rfbClient) : rfbClient :=
  let 'mkClient a b c0 d e f g h i _ k l m := c in
  mkClient a b c0 d e f g h i v k l m.
Definition set_ownerSlot (v : bool) (c : rfbClient) : rfbClient :=
  let 'mkClient a b c0 d e f g h i j k l _ := c in
  mkClient a b c0 d e f g h i j k l v.
Definition set_geometry (w h : Z) (c : rfbClient) : rfbClient :=
  let 'mkClient a _ _ d e f g h0 i j k l m := c in
  mkClient a w h d e f g h0 i j k l m.
Definition set_cursor (source mask : list Z) (c : rfbClient) : rfbClient :=
  let 'mkClient a b c0 d e f g h i j _ _ m := c in
  mkClient a b c0 d e f g h i j source mask m.

(** *** Events, signals and the trace *)

Inductive VncEvent : Type :=
| VncPointerEvent (x y buttonMask : Z)
| VncKeyEvent (key : Z) (pressed : bool)
| VncClientCutEvent (text : string)
| VncUpdateFormatAndEncodingsEvent.

Record CursorShape : Type := mkCursorShape {
  cs_source : list Z; cs_mask : list Z; cs_width : Z; cs_height : Z
}.

Inductive Signal : Type :=
| connectionPrepared
| stateChanged
| framebufferSizeChanged (w h : Z)
| imageUpdated (x y w h : Z)
| framebufferUpdateComplete
| cursorPosChanged (x y : Z)
| cursorShapeUpdated (shape : CursorShape) (xh yh : Z)
| gotCut (text : string).

(** What the connection does to the outside, in the order it does it. *)
Inductive Effect : Type :=
| Emit (s : Signal)
| SendFramebufferUpdateRequest (x y w h : Z) (incremental : bool)
| SendIncrementalFramebufferUpdateRequest
| Fire (e : VncEvent)
| ConfigureSocketKeepalive (idle interval count : Z)
| ClientCleanup (id : nat)
| WaitForMessage (usecs : Z)
| WakeAll
| SleeperWait (ms : Z)
| DeleteLater.

(** The configuration-supplied timings; never written after
    construction. *)
Record Tunables : Type := mkTunables {
  m_threadTerminationTimeout : Z;
  m_connectTimeout : Z;
  m_readTimeout : Z;
  m_connectionRetryInterval : Z;
  m_messageWaitTimeout : Z;
  m_fastFramebufferUpdateInterval : Z;
  m_framebufferUpdateWatchdogTimeout : Z;
  m_socketKeepaliveIdleTime : Z;
  m_socketKeepaliveInterval : Z;
  m_socketKeepaliveCount : Z
}.

(** The members of the class.  [m_framebufferUpdateWatchdog] is the time
    stamp of the last [restart()] of the elapsed timer; [clock] is the
    monotonic clock it is read against; [trace] collects the effects. *)
Record VncConnection : Type := mkConn {
  m_state : State;
  m_framebufferState : FramebufferState;
  m_controlFlags : Z;
  m_client : option rfbClient;
  m_quality : Quality;
  m_host : string;
  m_port : Z;
  m_defaultPort : Z;
  m_useRemoteCursor : bool;
  m_scaledSize : QSize;
  m_scaledFramebuffer : QImage;
  m_image : QImage;
  m_framebufferUpdateInterval : Z;
  m_framebufferUpdateWatchdog : Z;
  m_eventQueue : list VncEvent;
  tunables : Tunables;
  clock : Z;
  trace : list Effect
}.

Definition set_m_state (v : State) (k : VncConnection) :=
  let 'mkConn _ b c d e f g h i j l m n o p q r s := k in
  mkConn v b c d e f g h i j l m n o p q r s.
Definition set_m_framebufferState (v : FramebufferState) (k : VncConnection) :=
  let 'mkConn a _ c d e f g h i j l m n o p q r s := k in
  mkConn a v c d e f g h i j l m n o p q r s.
Definition set_m_controlFlags (v : Z) (k : VncConnection) :=
  let 'mkConn a b _ d e f g h i j l m n o p q r s := k in
  mkConn a b v d e f g h i j l m n o p q r s.
Definition set_m_client (v : option rfbClient) (k : VncConnection) :=
  let 'mkConn a b c _ e f g h i j l m n o p q r s := k in
  mkConn a b c v e f g h i j l m n o p q r s.
Definition set_m_quality (v : Quality) (k : VncConnection) :=
  let 'mkConn a b c d _ f g h i j l m n o p q r s := k in
  mkConn a b c d v f g h i j l m n o p q r s.
Definition set_m_host (v : string) (k : VncConnection) :=
  let 'mkConn a b c d e _ g h i j l m n o p q r s := k in
  mkConn a b c d e v g h i j l m n o p q r s.
Definition set_m_port (v : Z) (k : VncConnection) :=
  let 'mkConn a b c d e f _ h i j l m n o p q r s := k in
  mkConn a b c d e f v h i j l m n o p q r s.
Definition set_m_useRemoteCursor (v : bool) (k : VncConnection) :=
  let 'mkConn a b c d e f g h _ j l m n o p q r s := k in
  mkConn a b c d e f g h v j l m n o p q r s.
Definition set_m_scaledSize (v : QSize) (k : VncConnection) :=
  let 'mkConn a b c d e f g h i _ l m n o p q r s := k in
  mkConn a b c d e f g h i v l m n o p q r s.
Definition set_m_scaledFramebuffer (v : QImage) (k : VncConnection) :=
  let 'mkConn a b c d e f g h i j _ m n o p q r s := k in
  mkConn a b c d e f g h i j v m n o p q r s.
Definition set_m_image (v : QImage) (k : VncConnection) :=
  let 'mkConn a b c d e f g h i j l _ n o p q r s := k in
  mkConn a b c d e f g h i j l v n o p q r s.
Definition set_m_framebufferUpdateInterval (v : Z) (k : VncConnection) :=
  let 'mkConn a b c d e f g h i j l m _ o p q r s := k in
  mkConn a b c d e f g h i j l m v o p q r s.
Definition set_m_framebufferUpdateWatchdog (v : Z) (k : VncConnection) :=
  let 'mkConn a b c d e f g h i j l m n _ p q r s := k in
  mkConn a b c d e f g h i j l m n v p q r s.
Definition set_m_eventQueue (v : list VncEvent) (k : VncConnection) :=
  let 'mkConn a b c d e f g h i j l m n o _ q r s := k in
  mkConn a b c d e f g h i j l m n o v q r s.
Definition set_clock (v : Z) (k : VncConnection) :=
  let 'mkConn a b c d e f g h i j l m n o p q _ s := k in
  mkConn a b c d e f g h i j l m n o p q v s.
Definition set_trace (v : list Effect) (k : VncConnection) :=
  let 'mkConn a b c d e f g h i j l m n o p q r _ := k in
  mkConn a b c d e f g h i j l m n o p q r v.

Definition record (e : Effect) (k : VncConnection) : VncConnection :=
  set_trace (trace k ++ [e]) k.

Definition emit (s : Signal) : VncConnection -> VncConnection :=
  record (Emit s).

(** ** Control flags and state *)

(** [m_controlFlags |= flag] and [m_controlFlags &= ~flag]. *)
Definition setControlFlag (flag : ControlFlag) (on : bool)
           (k : VncConnection) : VncConnection :=
  if on
  then set_m_controlFlags (Z.lor (m_controlFlags k) (flagValue flag)) k
  else set_m_controlFlags
         (Z.land (m_controlFlags k) (Z.lnot (flagValue flag))) k.

(** [return m_controlFlags & flag], converted to [bool]. *)
Definition isControlFlagSet (flag : ControlFlag) (k : VncConnection) : bool :=
  negb (Z.land (m_controlFlags k) (flagValue flag) =? 0).

(** The state is exchanged; the signal is sent when the value changed. *)
Definition setState (s : State) (k : VncConnection) : VncConnection :=
  let old := m_state k in
  let k1 := set_m_state s k in
  if State_eqb old s then k1 else emit stateChanged k1.

Definition state (k : VncConnection) : State := m_state k.

(** Modelled from the spec: [hasValidFramebuffer] is an inline member of
    VncConnection.h.  The spec's framebuffer state is Valid "after the
    first complete update", and a valid framebuffer is one in that
    state. *)
Definition hasValidFramebuffer (k : VncConnection) : bool :=
  FramebufferState_eqb (m_framebufferState k) Valid.

(** The object as the constructor leaves it. *)
Definition construct (defaultPort : Z) (t : Tunables) : VncConnection :=
  mkConn Disconnected Invalid 0 None High EmptyString (-1) defaultPort
         false QSize_default ImgNull ImgNull 0 0 [] t 0 [].

(** ** The host parser *)

Module HostPatterns.
Import Regex.

Definition fF : atom := ASet false [("f", "f"); ("F", "F")]%char.
Definition hexColon : atom :=
  ASet false [("0", "9"); ("a", "f"); ("A", "F"); (":", ":")]%char.
Definition notColon : atom := ASet true [(":", ":")]%char.

(** [\d+.\d+.\d+.\d+]: the dots of the source are not escaped and stand for
    any character. *)
Definition dottedQuad : regex :=
  cat_all [plus ADigit; Atom ADot; plus ADigit; Atom ADot;
           plus ADigit; Atom ADot] (plus ADigit).

Definition mappedPrefix : list regex :=
  [lit ":"; lit ":"; Rep fF 4%nat (Some 4%nat) true; lit ":"]%char.

(** [^::[fF]{4}:(\d+.\d+.\d+.\d+)$] *)
Definition mappedV4 : regex :=
  cat_all ([Bol] ++ mappedPrefix ++ [Grp 1%nat dottedQuad]) Eol.

(** [^::[fF]{4}:(\d+.\d+.\d+.\d+):(\d+)$] *)
Definition mappedV4Port : regex :=
  cat_all ([Bol] ++ mappedPrefix
           ++ [Grp 1%nat dottedQuad; lit ":"%char; Grp 2%nat (plus ADigit)]) Eol.

(** [^\[::[fF]{4}:(\d+.\d+.\d+.\d+)\]:(\d+)$] *)
Definition bracketedMappedV4Port : regex :=
  cat_all ([Bol; lit "["%char] ++ mappedPrefix
           ++ [Grp 1%nat dottedQuad; lit "]"%char; lit ":"%char;
               Grp 2%nat (plus ADigit)]) Eol.

(** [^\[([0-9a-fA-F:]+)\]:(\d+)$] *)
Definition bracketedV6Port : regex :=
  cat_all [Bol; lit "["%char; Grp 1%nat (plus hexColon); lit "]"%char;
           lit ":"%char; Grp 2%nat (plus ADigit)] Eol.

(** [^([0-9a-fA-F:]+):(\d{5})$] with [InvertedGreedinessOption]: both
    quantifiers are lazy. *)
Definition irregularV6Port : regex :=
  cat_all [Bol; Grp 1%nat (Rep hexColon 1%nat None false); lit ":"%char;
           Grp 2%nat (Rep ADigit 5%nat (Some 5%nat) false)] Eol.

(** [^([^:]+):(\d+)$] *)
Definition hostPort : regex :=
  cat_all [Bol; Grp 1%nat (plus notColon); lit ":"%char;
           Grp 2%nat (plus ADigit)] Eol.

(** The alternatives of the condition, in the order [||] tries them. *)
Definition all : list regex :=
  [mappedV4; mappedV4Port; bracketedMappedV4Port; bracketedV6Port;
   irregularV6Port; hostPort].

End HostPatterns.

(** The condition of [setHost]: [match] is assigned by each alternative
    in turn and the first that has a match ends the evaluation. *)
Fixpoint firstMatch (rs : list Regex.regex) (subject : string)
  : option Regex.captures :=
  match rs with
  | [] => None
  | r :: rs' =>
    match Regex.qmatch r subject with
    | Some m => Some m
    | None => firstMatch rs' subject
    end
  end.

Definition setHost (host : string) (k : VncConnection) : VncConnection :=
  let k1 := set_m_host host k in
  match firstMatch HostPatterns.all (m_host k1) with
  | Some m =>
    let matchedHost := Regex.captured m 1%nat in
    let k2 := if isEmptyString matchedHost then k1
              else set_m_host matchedHost k1 in
    let port := toInt (Regex.captured m 2%nat) in
    if 0 <? port then set_m_port port k2 else k2
  | None => k1
  end.

Definition setPort (port : Z) (k : VncConnection) : VncConnection :=
  if 0 <=? port then set_m_port port k else k.

(** ** Quality profile *)

Definition qualityLevelOf (q : Quality) : Z :=
  match q with
  | Highest => 9 | High => 7 | Medium => 5 | Low => 3 | Lowest => 0
  end.

Definition encodingsOf (q : Quality) : string :=
  if Quality_eqb q Highest
  then "zrle ultra copyrect hextile zlib corre rre raw"
  else "tight zywrle zrle ultra".

(** Writes the four encoding settings of [m_client->appData]; the callers
    hold a client. *)
Definition updateEncodingSettingsFromQuality (k : VncConnection)
  : VncConnection :=
  match m_client k with
  | None => k
  | Some c =>
    let a := appData c in
    let a' := mkAppData (encodingsOf (m_quality k)) 9
                        (qualityLevelOf (m_quality k))
                        (negb (Quality_eqb (m_quality k) Highest))
                        (useRemoteCursor a) (useBGR233 a) in
    set_m_client (Some (set_appData a' c)) k
  end.

(** ** Event queue *)

Definition wakeAll : VncConnection -> VncConnection := record WakeAll.

Definition enqueueEvent (e : VncEvent) (k : VncConnection) : VncConnection :=
  if negb (State_eqb (state k) Connected) then k
  else wakeAll (set_m_eventQueue (m_eventQueue k ++ [e]) k).

Definition isEventQueueEmpty (k : VncConnection) : bool :=
  match m_eventQueue k with [] => true | _ => false end.

Definition mouseEvent (x y buttonMask : Z) : VncConnection -> VncConnection :=
  enqueueEvent (VncPointerEvent x y buttonMask).

Definition keyEvent (key : Z) (pressed : bool)
  : VncConnection -> VncConnection :=
  enqueueEvent (VncKeyEvent key pressed).

Definition clientCut (text : string) : VncConnection -> VncConnection :=
  enqueueEvent (VncClientCutEvent text).

(** The loop of [sendEvents]: every queued event is taken off the queue
    and fired unless the thread is to terminate. *)
Fixpoint drainQueue (q : list VncEvent) (k : VncConnection) : VncConnection :=
  match q with
  | [] => k
  | e :: q' =>
    let k1 := set_m_eventQueue q' k in
    let k2 := if isControlFlagSet TerminateThread k1 then k1
              else record (Fire e) k1 in
    drainQueue q' k2
  end.

Definition sendEvents (k : VncConnection) : VncConnection :=
  drainQueue (m_eventQueue k) k.

(** ** Setters *)

Definition setQuality (q : Quality) (k : VncConnection) : VncConnection :=
  let k1 := set_m_quality q k in
  match m_client k1 with
  | Some _ =>
    enqueueEvent VncUpdateFormatAndEncodingsEvent
                 (updateEncodingSettingsFromQuality k1)
  | None => k1
  end.

Definition setUseRemoteCursor (enabled : bool) (k : VncConnection)
  : VncConnection :=
  let k1 := set_m_useRemoteCursor enabled k in
  match m_client k1 with
  | Some c =>
    let a := appData c in
    let a' := mkAppData (encodingsString a) (compressLevel a)
                        (qualityLevel a) (enableJPEG a) enabled
                        (useBGR233 a) in
    enqueueEvent VncUpdateFormatAndEncodingsEvent
                 (set_m_client (Some (set_appData a' c)) k1)
  | None => k1
  end.

Definition setServerReachable : VncConnection -> VncConnection :=
  setControlFlag ServerReachable true.

Definition restart : VncConnection -> VncConnection :=
  setControlFlag RestartConnection true.

Definition setScaledSize (s : QSize) (k : VncConnection) : VncConnection :=
  if negb (QSize_eqb (m_scaledSize k) s)
  then setControlFlag ScaledFramebufferNeedsUpdate true (set_m_scaledSize s k)
  else k.

Definition setFramebufferUpdateInterval (interval : Z) (k : VncConnection)
  : VncConnection :=
  let k1 := set_m_framebufferUpdateInterval interval k in
  let k2 := if m_framebufferUpdateInterval k1 <=? 0
            then setControlFlag TriggerFramebufferUpdate true k1
            else k1 in
  wakeAll k2.

(** ** Framebuffer *)

Definition rescaleFramebuffer (k : VncConnection) : VncConnection :=
  if (negb (hasValidFramebuffer k) || QSize_isNull (m_scaledSize k))%bool
  then set_m_scaledFramebuffer ImgNull k
  else if negb (isControlFlagSet ScaledFramebufferNeedsUpdate k) then k
  else if negb (QSize_isValid (QImage_size (m_image k))) then k
  else
    setControlFlag ScaledFramebufferNeedsUpdate false
      (set_m_scaledFramebuffer
         (QImage_scaled (m_image k) (m_scaledSize k)) k).

Definition scaledFramebuffer (k : VncConnection) : VncConnection * QImage :=
  let k1 := rescaleFramebuffer k in
  (k1, m_scaledFramebuffer k1).

Definition image (k : VncConnection) : QImage := m_image k.

(** [setClientData(VncConnectionTag, data)]: stores into the slot of
    [m_client] when there is a client; [data] is [this] or the null
    pointer. *)
Definition setClientData (owner : bool) (k : VncConnection) : VncConnection :=
  match m_client k with
  | Some c => set_m_client (Some (set_ownerSlot owner c)) k
  | None => k
  end.

Definition stop (k : VncConnection) : VncConnection :=
  let k1 := setClientData false k in
  let k2 := set_m_scaledFramebuffer ImgNull k1 in
  let k3 := setControlFlag TerminateThread true k2 in
  wakeAll k3.

(** [new RfbPixel[n]]: [n] pixels of whatever the allocator hands out. *)
Definition newPixels (heap : nat -> Z) (n : Z) : list Z :=
  map heap (seq 0%nat (Z.to_nat n)).

(** [memset(buffer, 0, nbytes)] on a pixel array: the pixels the byte count
    covers are cleared ([nbytes] is a multiple of the pixel size here). *)
Definition memsetZero (buf : list Z) (nbytes : Z) : list Z :=
  let n := Z.to_nat (nbytes / RfbBytesPerPixel) in
  repeat 0 (Nat.min n (List.length buf)) ++ skipn n buf.

Definition restartWatchdog (k : VncConnection) : VncConnection :=
  set_m_framebufferUpdateWatchdog (clock k) k.

Definition watchdogElapsed (k : VncConnection) : Z :=
  clock k - m_framebufferUpdateWatchdog k.

(** [initFrameBuffer]; [heap] is the content of the memory [new] returns.
    The product and the byte count are computed in [uint32_t].  The
    function reads [m_client]: its one caller has checked it. *)
Definition initFrameBuffer (heap : nat -> Z) (k : VncConnection)
  : VncConnection * bool :=
  match m_client k with
  | None => (k, false)
  | Some c =>
    if negb (bitsPerPixel (format c) =? RfbBitsPerSample * RfbBytesPerPixel)
    then (k, false)
    else
      let pixelCount := wrap32 (wrap32 (cl_width c) * wrap32 (cl_height c)) in
      let fb := memsetZero (newPixels heap pixelCount)
                           (wrap32 (pixelCount * RfbBytesPerPixel)) in
      let c1 := set_frameBuffer fb c in
      let img := QImage_fromData fb (cl_width c) (cl_height c) in
      let c2 := set_format
                  (mkFormat (bitsPerPixel (format c1)) 16 8 0 0xff 0xff 0xff)
                  c1 in
      let a := appData c2 in
      let c3 := set_appData
                  (mkAppData (encodingsString a) (compressLevel a)
                             (qualityLevel a) (enableJPEG a)
                             (m_useRemoteCursor k) false) c2 in
      let k1 := set_m_client (Some c3) (set_m_image img k) in
      let k2 := updateEncodingSettingsFromQuality k1 in
      let k3 := set_m_framebufferState Initialized k2 in
      (emit (framebufferSizeChanged (cl_width c) (cl_height c)) k3, true)
  end.

Definition finishFrameBufferUpdate (k : VncConnection) : VncConnection :=
  let k1 := restartWatchdog k in
  let k2 := set_m_framebufferState Valid k1 in
  let k3 := setControlFlag ScaledFramebufferNeedsUpdate true k2 in
  emit framebufferUpdateComplete k3.

(** ** Codec callbacks *)

(** [clientData(client, VncConnectionTag)]: the owner registered in the
    slot of [client]; no owner for the null client. *)
Definition clientData (client : option rfbClient) : bool :=
  match client with
  | Some c => ownerSlot c
  | None => false
  end.

(** [connection->m_client == client], a comparison of pointers. *)
Definition sameClient (a b : option rfbClient) : bool :=
  match a, b with
  | Some x, Some y => Nat.eqb (clientId x) (clientId y)
  | None, None => true
  | _, _ => false
  end.

Definition hookInitFrameBuffer (heap : nat -> Z) (client : option rfbClient)
           (k : VncConnection) : VncConnection * bool :=
  if (clientData client && sameClient (m_client k) client)%bool
  then initFrameBuffer heap k
  else (k, false).

Definition hookUpdateFB (client : option rfbClient) (x y w h : Z)
           (k : VncConnection) : VncConnection :=
  if clientData client then emit (imageUpdated x y w h) k else k.

Definition hookFinishFrameBufferUpdate (client : option rfbClient)
           (k : VncConnection) : VncConnection :=
  if clientData client then finishFrameBufferUpdate k else k.

Definition hookHandleCursorPos (client : option rfbClient) (x y : Z)
           (k : VncConnection) : VncConnection * bool :=
  (if clientData client then emit (cursorPosChanged x y) k else k, true).

(** The shape is built from the cursor source and mask of the client
    before the owner is looked up: the callback reads through [client]
    without a test, so it is given a client, not a pointer that may be
    null. *)
Definition hookCursorShape (client : rfbClient) (xh yh w h bpp : Z)
           (k : VncConnection) : VncConnection :=
  if negb (bpp =? 4) then k
  else
    let cursorShape := mkCursorShape (rcSource client) (rcMask client) w h in
    if clientData (Some client)
    then emit (cursorShapeUpdated cursorShape xh yh) k
    else k.

(** [QString::fromUtf8(text, textlen)]: the first [textlen] bytes, the whole
    text for a negative length. *)
Definition fromUtf8 (text : string) (textlen : Z) : string :=
  if textlen <? 0 then text else substring 0%nat (Z.to_nat textlen) text.

Definition hookCutText (client : option rfbClient) (text : string)
           (textlen : Z) (k : VncConnection) : VncConnection :=
  let cutText := fromUtf8 text textlen in
  if (clientData client && negb (isEmptyString cutText))%bool
  then emit (gotCut cutText) k
  else k.

(** ** The codec seen from the driver *)

(** What the codec may do to the connection while it initialises a client
    or handles one server message: write the geometry, depth or cursor
    data it received into the client, and call the registered callbacks.
    [ServerReachableNotice] is the call of [setServerReachable()] that the
    authentication layer makes once the server has answered. *)
Inductive CodecAction : Type :=
| CodecSetGeometry (w h : Z)
| CodecSetBitsPerPixel (bpp : Z)
| CodecSetCursor (source mask : list Z)
| MallocFrameBuffer (heap : nat -> Z)
| GotFrameBufferUpdate (x y w h : Z)
| FinishedFrameBufferUpdate
| HandleCursorPos (x y : Z)
| GotCursorShape (xh yh w h bpp : Z)
| GotXCutText (text : string) (textlen : Z)
| ServerReachableNotice.

Definition onClient (f : rfbClient -> rfbClient) (k : VncConnection)
  : VncConnection :=
  match m_client k with
  | Some c => set_m_client (Some (f c)) k
  | None => k
  end.

(** One action; the callbacks receive the client the codec works on, which
    is [m_client].  The cursor-shape callback needs that client to exist:
    a connection without a client has no codec at work that could
    announce a cursor. *)
Definition codecStep (a : CodecAction) (k : VncConnection) : VncConnection :=
  match a with
  | CodecSetGeometry w h => onClient (set_geometry w h) k
  | CodecSetBitsPerPixel bpp =>
    onClient (fun c =>
                let f := format c in
                set_format (mkFormat bpp (redShift f) (greenShift f)
                                     (blueShift f) (redMax f) (greenMax f)
                                     (blueMax f)) c) k
  | CodecSetCursor src mask => onClient (set_cursor src mask) k
  | MallocFrameBuffer heap => fst (hookInitFrameBuffer heap (m_client k) k)
  | GotFrameBufferUpdate x y w h => hookUpdateFB (m_client k) x y w h k
  | FinishedFrameBufferUpdate => hookFinishFrameBufferUpdate (m_client k) k
  | HandleCursorPos x y => fst (hookHandleCursorPos (m_client k) x y k)
  | GotCursorShape xh yh w h bpp =>
    match m_client k with
    | Some c => hookCursorShape c xh yh w h bpp k
    | None => k
    end
  | GotXCutText text textlen => hookCutText (m_client k) text textlen k
  | ServerReachableNotice => setServerReachable k
  end.

Definition runCodec (acts : list CodecAction) (k : VncConnection)
  : VncConnection :=
  fold_left (fun k' a => codecStep a k') acts k.

Definition advance (dt : N) (k : VncConnection) : VncConnection :=
  set_clock (clock k + Z.of_N dt) k.

(** One server message: what the codec does with it, whether
    [HandleRFBServerMessage] reports success, and how long it took. *)
Record ServerMessage : Type := mkServerMessage {
  sm_actions : list CodecAction;
  sm_ok : bool;
  sm_time : N
}.

Definition HandleRFBServerMessage (m : ServerMessage) (k : VncConnection)
  : VncConnection * bool :=
  (advance (sm_time m) (runCodec (sm_actions m) k), sm_ok m).

(** The do-while of the pump: the first message is handled, then every
    further message [WaitForMessage(m_client, 0)] reports, until one
    fails. *)
Fixpoint handleMessages (m : ServerMessage) (more : list ServerMessage)
         (k : VncConnection) : VncConnection * bool :=
  let (k1, handledOkay) := HandleRFBServerMessage m k in
  if handledOkay
  then let k2 := record (WaitForMessage 0) k1 in
       match more with
       | [] => (k2, true)
       | m' :: more' => handleMessages m' more' k2
       end
  else (k1, false).

(** ** The message pump *)

(** What one iteration of the pump gets from outside: the result of
    [WaitForMessage] and the time spent in it, the messages that are ready
    when the result is positive, and the time spent in the sleeper. *)
Record PumpInput : Type := mkPumpInput {
  waitResult : Z;
  waitTime : N;
  firstMessage : ServerMessage;
  moreMessages : list ServerMessage;
  sleepTime : N
}.

Definition handleConnectionGuard (k : VncConnection) : bool :=
  (State_eqb (state k) Connected
   && negb (isControlFlagSet TerminateThread k)
   && negb (isControlFlagSet RestartConnection k))%bool.

(** The chain of [else if] after the wait returned 0.  The request for the
    whole surface reads the extent from [m_client].  The product
    [2*m_framebufferUpdateInterval] is an [int] product, widened to 64 bits
    only afterwards. *)
Definition idleBranch (k : VncConnection) : VncConnection :=
  let t := tunables k in
  if Z.max (wrapInt (2 * m_framebufferUpdateInterval k))
           (m_framebufferUpdateWatchdogTimeout t) <=? watchdogElapsed k
  then
    match m_client k with
    | Some c =>
      restartWatchdog
        (record (SendFramebufferUpdateRequest
                   0 0 (cl_width c) (cl_height c) false) k)
    | None => restartWatchdog k
    end
  else if ((0 <? m_framebufferUpdateInterval k)
           && (m_framebufferUpdateInterval k <? watchdogElapsed k))%bool
  then restartWatchdog (record SendIncrementalFramebufferUpdateRequest k)
  else if isControlFlagSet TriggerFramebufferUpdate k
  then record SendIncrementalFramebufferUpdateRequest
              (setControlFlag TriggerFramebufferUpdate false k)
  else k.

(** The end of an iteration: the wait for the rest of the update interval
    (servers that need manual rate control), then [sendEvents]. *)
Definition pumpTail (loopStart : Z) (slept : N) (k : VncConnection)
  : VncConnection :=
  let remainingUpdateInterval :=
      m_framebufferUpdateInterval k - (clock k - loopStart) in
  let k1 :=
      if ((0 <? remainingUpdateInterval)
          && isControlFlagSet RequiresManualUpdateRateControl k
          && negb (isControlFlagSet TerminateThread k))%bool
      then advance slept (record (SleeperWait remainingUpdateInterval) k)
      else k in
  sendEvents k1.

(** The body of the loop of [handleConnection]; [false] is [break]. *)
Definition pumpIteration (inp : PumpInput) (k : VncConnection)
  : VncConnection * bool :=
  let loopStart := clock k in
  let t := tunables k in
  let usecs := if 0 <? m_framebufferUpdateInterval k
               then wrapInt (m_messageWaitTimeout t * 100)
               else m_messageWaitTimeout t in
  let k1 := advance (waitTime inp) (record (WaitForMessage usecs) k) in
  let i := waitResult inp in
  if (isControlFlagSet TerminateThread k1 || (i <? 0))%bool then (k1, false)
  else if negb (i =? 0)
  then
    let (k2, handledOkay) :=
        handleMessages (firstMessage inp) (moreMessages inp) k1 in
    if handledOkay
    then (pumpTail loopStart (sleepTime inp) k2, true)
    else (k2, false)
  else (pumpTail loopStart (sleepTime inp) (idleBranch k1), true).

Fixpoint handleConnection (inputs : list PumpInput) (k : VncConnection)
  : VncConnection :=
  match inputs with
  | [] => k
  | inp :: rest =>
    if handleConnectionGuard k
    then let (k1, again) := pumpIteration inp k in
         if again then handleConnection rest k1 else k1
    else k
  end.

Definition closeConnection (k : VncConnection) : VncConnection :=
  let k1 := match m_client k with
            | Some c => set_m_client None (record (ClientCleanup (clientId c)) k)
            | None => k
            end in
  setState Disconnected k1.

(** ** Establishing the connection *)

(** What one attempt gets from outside: the client [rfbGetClient] returns,
    what [rfbInitClient] does and answers and how long it takes, the
    answer of the ping, and the time spent waiting for the retry. *)
Record ConnectAttempt : Type := mkAttempt {
  freshClient : rfbClient;
  initActions : list CodecAction;
  clientInitialized : bool;
  initTime : N;
  pingResult : bool;
  retryTime : N
}.

(** The first half of the body of the loop of [establishConnection]: the
    client is created and configured, and [rfbInitClient] has returned (it
    releases the client itself when it fails). *)
Definition attemptInit (a : ConnectAttempt) (k : VncConnection)
  : VncConnection :=
  let t := tunables k in
  let c := set_readTimeout (Z.quot (m_readTimeout t) 1000)
             (set_connectTimeout (Z.quot (m_connectTimeout t) 1000)
                                 (freshClient a)) in
  let k1 := setClientData true (set_m_client (Some c) k) in
  let k2 := emit connectionPrepared k1 in
  let port := if m_port k2 <? 0 then m_defaultPort k2 else m_port k2 in
  let k3 := onClient (fun c' => set_serverHost (m_host k2)
                                               (set_serverPort port c')) k2 in
  let k4 := setControlFlag ServerReachable false k3 in
  let k5 := advance (initTime a) (runCodec (initActions a) k4) in
  if clientInitialized a then k5 else set_m_client None k5.

(** The body of the loop of [establishConnection]; [false] is the
    [return] taken when the thread is to terminate. *)
Definition connectAttempt (a : ConnectAttempt) (k : VncConnection)
  : VncConnection * bool :=
  let t := tunables k in
  let k6 := attemptInit a k in
  if isControlFlagSet TerminateThread k6 then (k6, false)
  else if clientInitialized a
  then
    let k7 := restartWatchdog k6 in
    let k8 := record (ConfigureSocketKeepalive
                        (m_socketKeepaliveIdleTime t)
                        (m_socketKeepaliveInterval t)
                        (m_socketKeepaliveCount t)) k7 in
    (setState Connected k8, true)
  else
    let k7 :=
        if negb (isControlFlagSet ServerReachable k6)
        then
          if (isControlFlagSet SkipHostPing k6 || negb (pingResult a))%bool
          then setState HostOffline k6
          else setState ServerNotRunning k6
        else if FramebufferState_eqb (m_framebufferState k6) Invalid
        then setState AuthenticationFailed k6
        else setState ConnectionFailed k6 in
    let ms := if 0 <? m_framebufferUpdateInterval k7
              then m_framebufferUpdateInterval k7
              else m_connectionRetryInterval t in
    (advance (retryTime a) (record (SleeperWait ms) k7), true).

Definition establishPrologue (k : VncConnection) : VncConnection :=
  set_m_framebufferState Invalid
    (setControlFlag RestartConnection false (setState Connecting k)).

Fixpoint establishLoop (attempts : list ConnectAttempt) (k : VncConnection)
  : VncConnection :=
  match attempts with
  | [] => k
  | a :: rest =>
    if (negb (isControlFlagSet TerminateThread k)
        && negb (State_eqb (state k) Connected))%bool
    then let (k1, again) := connectAttempt a k in
         if again then establishLoop rest k1 else k1
    else k
  end.

Definition establishConnection (attempts : list ConnectAttempt)
           (k : VncConnection) : VncConnection :=
  establishLoop attempts (establishPrologue k).

(** [run]: establish, handle, close, until the thread is to terminate. *)
Fixpoint run (rounds : list (list ConnectAttempt * list PumpInput))
         (k : VncConnection) : VncConnection :=
  if isControlFlagSet TerminateThread k
  then if isControlFlagSet DeleteAfterFinished k then record DeleteLater k
       else k
  else
    match rounds with
    | [] => k
    | (attempts, inputs) :: rest =>
      run rest (closeConnection
                  (handleConnection inputs
                     (establishConnection attempts k)))
    end.

(** ** Auxiliary definitions for the statements *)

Definition ControlFlag_eqb (f g : ControlFlag) : bool :=
  flagValue f =? flagValue g.

(** Sample values: a set of tunables, a client as [rfbGetClient] might
    return it, and the connection the constructor builds from them. *)
Definition sampleTunables : Tunables :=
  mkTunables 30000 10000 30000 1000 500 100 10000 1000 500 5.

Definition sampleClient (id : nat) : rfbClient :=
  mkClient id 0 0 (mkFormat 32 0 0 0 0 0 0)
           (mkAppData EmptyString 0 0 false false false)
           [] 0 EmptyString 0 0 [] [] false.

Definition sampleConnection : VncConnection :=
  construct 11100 sampleTunables.

(** Effects that ask the server for a framebuffer update. *)
Definition isUpdateRequest (e : Effect) : bool :=
  match e with
  | SendFramebufferUpdateRequest _ _ _ _ _ => true
  | SendIncrementalFramebufferUpdateRequest => true
  | _ => false
  end.

(** The effects of [k'] that were not yet in the trace of [k]. *)
Definition effectsSince (k k' : VncConnection) : list Effect :=
  skipn (List.length (trace k)) (trace k').

Definition isServerReachableNotice (a : CodecAction) : bool :=
  match a with ServerReachableNotice => true | _ => false end.

(** Two images of the same extent: both null, or both of the same size. *)
Definition sameExtent (a b : QImage) : Prop :=
  QImage_isNull a = QImage_isNull b /\ QImage_size a = QImage_size b.

(** The stored scaled image is up to date: when nothing asks for a
    recomputation (valid framebuffer, target size not null, scaled-dirty
    clear) it has the extent a rescaling would produce now. *)
Definition scaledCacheCoherent (k : VncConnection) : Prop :=
  isControlFlagSet ScaledFramebufferNeedsUpdate k = false ->
  hasValidFramebuffer k = true ->
  QSize_isNull (m_scaledSize k) = false ->
  sameExtent (m_scaledFramebuffer k)
             (QImage_scaled (m_image k) (m_scaledSize k)).

(** A sample session: the server answers, announces a 4 x 3 surface of 32
    bits per pixel, and the first update completes; a viewer asks for a
    2 x 2 rendition. *)
Definition sampleHeap : nat -> Z := fun n => 0xABCD + Z.of_nat n.

Definition sampleAttempt : ConnectAttempt :=
  mkAttempt (sampleClient 1)
            [ServerReachableNotice; CodecSetGeometry 4 3;
             CodecSetBitsPerPixel 32; MallocFrameBuffer sampleHeap]
            true 20 true 0.

Definition sampleFrame : ServerMessage :=
  mkServerMessage [GotFrameBufferUpdate 0 0 4 3; FinishedFrameBufferUpdate]
                  true 5.

Definition connectedSample : VncConnection :=
  establishConnection [sampleAttempt] sampleConnection.

Definition streamingSample : VncConnection :=
  fst (pumpIteration (mkPumpInput 1 10 sampleFrame [] 0) connectedSample).

Definition viewedSample : VncConnection :=
  fst (scaledFramebuffer (setScaledSize (mkQSize 2 2) streamingSample)).

(** The viewed session after the connection was lost and a new attempt
    began, and after [stop()]. *)
Definition reconnectingSample : VncConnection :=
  establishPrologue (closeConnection viewedSample).

Definition stoppedSample : VncConnection := stop viewedSample.

(** A client other than the one the connected sample session holds, whose
    slot names the connection as its owner. *)
Definition staleClient : rfbClient := set_ownerSlot true (sampleClient 7).

(** A connection holding a client for which the server announced a 4 x 3
    surface of [bpp] bits per pixel. *)
Definition announcedClient (bpp : Z) : rfbClient :=
  mkClient 1 4 3 (mkFormat bpp 0 0 0 0 0 0)
           (mkAppData EmptyString 0 0 false false false)
           [] 0 EmptyString 0 0 [] [] true.

Definition announcedConnection (bpp : Z) : VncConnection :=
  set_m_client (Some (announcedClient bpp)) sampleConnection.

(** The connected sample session with periodic updates every 100 ms and a
    pending trigger, and an iteration of its pump that waits out the
    watchdog timeout without a message. *)
Definition periodicSample : VncConnection :=
  setFramebufferUpdateInterval
    100 (setFramebufferUpdateInterval 0 connectedSample).

Definition silentInput : PumpInput := mkPumpInput 0 10000 sampleFrame [] 0.

(** An attempt in which [rfbInitClient] fails after the given actions. *)
Definition failedAttempt (acts : list CodecAction) (ping : bool)
  : ConnectAttempt :=
  mkAttempt (sampleClient 2) acts false 50 ping 1000.

(** The client a connection holds (a fresh one when it holds none). *)
Definition clientOf (k : VncConnection) : rfbClient :=
  match m_client k with
  | Some c => c
  | None => sampleClient 0
  end.

(** What the rescaling logic looks at. *)
Definition scalingView (k : VncConnection)
  : bool * bool * QSize * QImage * QImage :=
  (isControlFlagSet ScaledFramebufferNeedsUpdate k, hasValidFramebuffer k,
   m_scaledSize k, m_scaledFramebuffer k, m_image k).

(** One step of the life of a connection on which [stop()] is not called:
    a call of the public interface, or a step of the driver thread. *)
Inductive step : VncConnection -> VncConnection -> Prop :=
| step_setHost h k : step k (setHost h k)
| step_setPort p k : step k (setPort p k)
| step_setQuality q k : step k (setQuality q k)
| step_setUseRemoteCursor b k : step k (setUseRemoteCursor b k)
| step_setServerReachable k : step k (setServerReachable k)
| step_restart k : step k (restart k)
| step_setScaledSize s k : step k (setScaledSize s k)
| step_scaledFramebuffer k : step k (fst (scaledFramebuffer k))
| step_setFramebufferUpdateInterval i k :
    step k (setFramebufferUpdateInterval i k)
| step_enqueueEvent e k : step k (enqueueEvent e k)
| step_establishPrologue k : step k (establishPrologue k)
| step_connectAttempt a k : step k (fst (connectAttempt a k))
| step_pumpIteration inp k : step k (fst (pumpIteration inp k))
| step_closeConnection k : step k (closeConnection k).

Inductive reachableWithoutStop : VncConnection -> Prop :=
| reach_construct port t : reachableWithoutStop (construct port t)
| reach_step k k' :
    reachableWithoutStop k -> step k k' -> reachableWithoutStop k'.

(** A session with a server that announces a surface without pixels. *)
Definition emptySurfaceSample : VncConnection :=
  fst (pumpIteration
         (mkPumpInput 1 10 sampleFrame [] 0)
         (establishConnection
            [mkAttempt (sampleClient 1)
                       [ServerReachableNotice; CodecSetGeometry 0 0;
                        CodecSetBitsPerPixel 32; MallocFrameBuffer sampleHeap]
                       true 20 true 0]
            sampleConnection)).

(** ** Auxiliary definitions for the further properties *)

(** The character [c] occurs in [s]. *)
Definition mentions (c : ascii) (s : list ascii) : bool :=
  existsb (Ascii.eqb c) s.

(** A pattern that cannot match without consuming the character [c]: it
    has, outside every optional part, a position that accepts only [c]. *)
Fixpoint requiresChar (c : ascii) (r : Regex.regex) : bool :=
  match r with
  | Regex.Atom (Regex.AChar d) => Ascii.eqb d c
  | Regex.Cat r1 r2 => (requiresChar c r1 || requiresChar c r2)%bool
  | Regex.Grp _ r1 => requiresChar c r1
  | Regex.Rep (Regex.AChar d) (S _) _ _ => Ascii.eqb d c
  | _ => false
  end.

(** A continuation that fails on every input free of [c]. *)
Definition failsWithout (c : ascii) (k : Regex.cont) : Prop :=
  forall p s cs, mentions c s = false -> k p s cs = None.

Definition colon : ascii := ":"%char.

(** Host names the fifth pattern cannot take for an IPv6 address: some
    character is neither a hexadecimal digit nor a colon. *)
Definition hasNonHex (s : list ascii) : bool :=
  existsb (fun x => negb (Regex.amatch HostPatterns.hexColon x)) s.

Definition startsWith (c : ascii) (s : list ascii) : bool :=
  match s with
  | x :: _ => Ascii.eqb x c
  | [] => false
  end.

Definition allDigits (s : list ascii) : bool := forallb Regex.is_digit s.

(** What the users of the connection configure and hand over: none of it
    is for the codec or for the connection handling to change. *)
Definition settingsView (k : VncConnection)
  : Quality * string * Z * Z * bool * QSize * QImage * Z * list VncEvent
    * Tunables :=
  (m_quality k, m_host k, m_port k, m_defaultPort k, m_useRemoteCursor k,
   m_scaledSize k, m_scaledFramebuffer k, m_framebufferUpdateInterval k,
   m_eventQueue k, tunables k).

(** The signals the codec callbacks emit. *)
Definition isHookSignal (e : Effect) : bool :=
  match e with
  | Emit (framebufferSizeChanged _ _) | Emit (imageUpdated _ _ _ _)
  | Emit framebufferUpdateComplete | Emit (cursorPosChanged _ _)
  | Emit (cursorShapeUpdated _ _ _) | Emit (gotCut _) => true
  | _ => false
  end.

Definition isStateChanged (e : Effect) : bool :=
  match e with Emit stateChanged => true | _ => false end.

Definition isFire (e : Effect) : bool :=
  match e with Fire _ => true | _ => false end.

(** Any step of the life of a connection, [stop()] included. *)
Inductive transition : VncConnection -> VncConnection -> Prop :=
| transition_step k k' : step k k' -> transition k k'
| transition_stop k : transition k (stop k).

Definition isSleeperWait (e : Effect) : bool :=
  match e with SleeperWait _ => true | _ => false end.


(** The connected sample session asked for an update interval whose double
    does not fit an [int]. *)
Definition overflowingSample : VncConnection :=
  setFramebufferUpdateInterval (-1073741825) connectedSample.

(** A connection holding a client for which the server announced a
    32768 x 32768 surface of 32 bits per pixel. *)
Definition largeClient : rfbClient :=
  mkClient 1 32768 32768 (mkFormat 32 0 0 0 0 0 0)
           (mkAppData EmptyString 0 0 false false false)
           [] 0 EmptyString 0 0 [] [] true.

Definition largeConnection : VncConnection :=
  set_m_client (Some largeClient) sampleConnection.

(** The pixel array of the client a connection holds. *)
Definition clientPixels (k : VncConnection) : list Z :=
  match m_client k with
  | Some c => frameBuffer c
  | None => []
  end.

(** The connected sample session viewed at a null size. *)
Definition unscaledSample : VncConnection :=
  setScaledSize (mkQSize 0 0) viewedSample.

(** * Properties *)

(** ** Control flags *)

Lemma m_controlFlags_set (v : Z) (k : VncConnection) :
  m_controlFlags (set_m_controlFlags v k) = v.
Proof. destruct k; reflexivity. Qed.

Lemma flagValue_pos (f : ControlFlag) : 0 < flagValue f.
Proof. destruct f; reflexivity. Qed.

Lemma flagValue_disjoint (f g : ControlFlag) :
  Z.land (flagValue g) (flagValue f)
  = if ControlFlag_eqb f g then flagValue f else 0.
Proof. destruct f, g; reflexivity. Qed.

Lemma flagValue_masked (f g : ControlFlag) :
  Z.land (Z.lnot (flagValue g)) (flagValue f)
  = if ControlFlag_eqb f g then 0 else flagValue f.
Proof. destruct f, g; reflexivity. Qed.

(** Reading a flag after a write: the written value for the flag written,
    the old value for every other flag. *)
Lemma isControlFlagSet_setControlFlag
      (f g : ControlFlag) (on : bool) (k : VncConnection) :
  isControlFlagSet f (setControlFlag g on k)
  = if ControlFlag_eqb f g then on else isControlFlagSet f k.
Proof.
  unfold isControlFlagSet, setControlFlag.
  destruct on; rewrite m_controlFlags_set.
  - rewrite Z.land_lor_distr_l, flagValue_disjoint.
    destruct (ControlFlag_eqb f g).
    + destruct (Z.eqb_spec (Z.lor (Z.land (m_controlFlags k) (flagValue f))
                                  (flagValue f)) 0) as [E|E]; [|reflexivity].
      apply Z.lor_eq_0_iff in E. pose proof (flagValue_pos f). lia.
    + now rewrite Z.lor_0_r.
  - rewrite <- Z.land_assoc, flagValue_masked.
    destruct (ControlFlag_eqb f g); [|reflexivity].
    now rewrite Z.land_0_r.
Qed.

Lemma ControlFlag_eqb_refl (f : ControlFlag) : ControlFlag_eqb f f = true.
Proof. apply Z.eqb_refl. Qed.

(** ** Host parser *)

(** C1.  [setHost] on the three sample inputs of the spec: a bracketed IPv6
    address with port yields host "2001:db8::1" and port 5901; an
    IPv4-mapped address with port yields host "10.0.0.5" and port 5900; a
    bare host name is stored as it is and the port keeps its value.  In all
    three no other member changes. *)
Theorem setHost_spec_examples (k : VncConnection) :
  setHost "[2001:db8::1]:5901" k
  = set_m_port 5901 (set_m_host "2001:db8::1" k)
  /\ setHost "::ffff:10.0.0.5:5900" k
     = set_m_port 5900 (set_m_host "10.0.0.5" k)
  /\ setHost "example.local" k = set_m_host "example.local" k
  /\ m_host (setHost "example.local" k) = "example.local"
  /\ m_port (setHost "example.local" k) = m_port k.
Proof.
  destruct k; repeat split; vm_compute; reflexivity.
Qed.

(** ** Quality profile *)

(** C4.  Applying a quality level to a connection that holds a client
    sets the compression level to 9, enables JPEG exactly for the levels
    other than Highest, sets the quality level to 9, 7, 5, 3, 0 for Highest,
    High, Medium, Low, Lowest, and selects the lossless encodings for
    Highest and the tight ones otherwise; the cursor and BGR233 settings of
    the client stay as they are. *)
Theorem quality_profile (q : Quality) (k : VncConnection) (c : rfbClient) :
  m_client k = Some c ->
  exists c',
    m_client (setQuality q k) = Some c'
    /\ m_client (updateEncodingSettingsFromQuality (set_m_quality q k))
       = Some c'
    /\ compressLevel (appData c') = 9
    /\ enableJPEG (appData c')
       = match q with Highest => false | _ => true end
    /\ qualityLevel (appData c')
       = match q with
         | Highest => 9 | High => 7 | Medium => 5 | Low => 3 | Lowest => 0
         end
    /\ encodingsString (appData c')
       = match q with
         | Highest => "zrle ultra copyrect hextile zlib corre rre raw"
         | _ => "tight zywrle zrle ultra"
         end
    /\ useRemoteCursor (appData c') = useRemoteCursor (appData c)
    /\ useBGR233 (appData c') = useBGR233 (appData c)
    /\ c' = set_appData (appData c') c.
Proof.
  intros Hc. destruct k; cbn in Hc; subst.
  unfold setQuality, updateEncodingSettingsFromQuality, enqueueEvent.
  cbn [set_m_quality m_client m_quality].
  eexists; split.
  - destruct (negb _); cbn; reflexivity.
  - destruct c, q; cbn; repeat split; reflexivity.
Qed.

Lemma quality_profile_witness :
  exists c',
    m_client (setQuality Low
                (set_m_client (Some (sampleClient 1))
                              (construct 11100 sampleTunables))) = Some c'
    /\ compressLevel (appData c') = 9
    /\ enableJPEG (appData c') = true
    /\ qualityLevel (appData c') = 3.
Proof.
  destruct (quality_profile
              Low (set_m_client (Some (sampleClient 1))
                                (construct 11100 sampleTunables))
              (sampleClient 1) eq_refl)
    as (c' & H1 & _ & H2 & H3 & H4 & _).
  exists c'. repeat split; assumption.
Defined.

(** ** Event queue *)

Lemma enqueueEvent_not_connected (e : VncEvent) (k : VncConnection) :
  state k <> Connected -> enqueueEvent e k = k.
Proof.
  intros H. unfold enqueueEvent.
  destruct (state k); try reflexivity. now elim H.
Qed.

Lemma enqueueEvent_connected (e : VncEvent) (k : VncConnection) :
  state k = Connected ->
  enqueueEvent e k = wakeAll (set_m_eventQueue (m_eventQueue k ++ [e]) k).
Proof. intros H. unfold enqueueEvent. now rewrite H. Qed.

(** C9.  Outside the state Connected every event operation leaves the
    connection as it is: the pointer, key and cut-text operations change
    nothing at all, and so does the enqueueing of the refresh event; the
    quality and cursor setters, which enqueue it, leave the queue and the
    trace untouched.  In the state Connected the event is appended at the
    end of the queue and the sleeper is woken; hence the queue only ever
    grows in that state. *)
Theorem events_only_while_connected (k : VncConnection) :
  (state k <> Connected ->
   (forall x y m, mouseEvent x y m k = k)
   /\ (forall key pressed, keyEvent key pressed k = k)
   /\ (forall text, clientCut text k = k)
   /\ enqueueEvent VncUpdateFormatAndEncodingsEvent k = k
   /\ (forall q, m_eventQueue (setQuality q k) = m_eventQueue k
                 /\ trace (setQuality q k) = trace k)
   /\ (forall b, m_eventQueue (setUseRemoteCursor b k) = m_eventQueue k
                 /\ trace (setUseRemoteCursor b k) = trace k))
  /\ (state k = Connected ->
      forall e, m_eventQueue (enqueueEvent e k) = m_eventQueue k ++ [e]
                /\ trace (enqueueEvent e k) = trace k ++ [WakeAll])
  /\ (forall e, m_eventQueue (enqueueEvent e k) <> m_eventQueue k ->
                state k = Connected).
Proof.
  split; [|split].
  - intros H. repeat split; intros;
      try (apply enqueueEvent_not_connected; assumption).
    + unfold setQuality. destruct (m_client (set_m_quality q k)) eqn:E.
      * rewrite enqueueEvent_not_connected.
        -- unfold updateEncodingSettingsFromQuality. rewrite E.
           destruct k; reflexivity.
        -- unfold updateEncodingSettingsFromQuality. rewrite E.
           destruct k; exact H.
      * destruct k; reflexivity.
    + unfold setQuality. destruct (m_client (set_m_quality q k)) eqn:E.
      * rewrite enqueueEvent_not_connected.
        -- unfold updateEncodingSettingsFromQuality. rewrite E.
           destruct k; reflexivity.
        -- unfold updateEncodingSettingsFromQuality. rewrite E.
           destruct k; exact H.
      * destruct k; reflexivity.
    + unfold setUseRemoteCursor.
      destruct (m_client (set_m_useRemoteCursor b k)) eqn:E.
      * rewrite enqueueEvent_not_connected; destruct k; [reflexivity|exact H].
      * destruct k; reflexivity.
    + unfold setUseRemoteCursor.
      destruct (m_client (set_m_useRemoteCursor b k)) eqn:E.
      * rewrite enqueueEvent_not_connected; destruct k; [reflexivity|exact H].
      * destruct k; reflexivity.
  - intros H e. rewrite (enqueueEvent_connected e k H).
    destruct k; split; reflexivity.
  - intros e H. destruct (state k) eqn:E; try reflexivity;
      exfalso; apply H; rewrite enqueueEvent_not_connected;
        try reflexivity; rewrite E; discriminate.
Qed.

Lemma events_only_while_connected_witness :
  mouseEvent 10 20 1 sampleConnection = sampleConnection
  /\ m_eventQueue (keyEvent 65 true (set_m_state Connected sampleConnection))
     = [VncKeyEvent 65 true].
Proof.
  destruct (events_only_while_connected sampleConnection) as [Hd _].
  destruct (events_only_while_connected
              (set_m_state Connected sampleConnection)) as (_ & Hc & _).
  split.
  - apply Hd. discriminate.
  - apply (Hc eq_refl (VncKeyEvent 65 true)).
Defined.

(** ** Frame lemmas *)

Lemma trace_record (e : Effect) (k : VncConnection) :
  trace (record e k) = trace k ++ [e].
Proof. destruct k; reflexivity. Qed.

Lemma m_controlFlags_record (e : Effect) (k : VncConnection) :
  m_controlFlags (record e k) = m_controlFlags k.
Proof. destruct k; reflexivity. Qed.

Lemma isControlFlagSet_record (f : ControlFlag) (e : Effect)
      (k : VncConnection) :
  isControlFlagSet f (record e k) = isControlFlagSet f k.
Proof. unfold isControlFlagSet. now rewrite m_controlFlags_record. Qed.

Lemma trace_setControlFlag (f : ControlFlag) (on : bool) (k : VncConnection) :
  trace (setControlFlag f on k) = trace k.
Proof. destruct on, k; reflexivity. Qed.

Lemma ControlFlag_eqb_neq (f g : ControlFlag) :
  f <> g -> ControlFlag_eqb f g = false.
Proof. destruct f, g; intros H; try reflexivity; now elim H. Qed.

Lemma effectsSince_app (k k' : VncConnection) (l : list Effect) :
  trace k' = trace k ++ l -> effectsSince k k' = l.
Proof.
  intros H. unfold effectsSince. rewrite H.
  rewrite skipn_app, skipn_all, Nat.sub_diag. reflexivity.
Qed.

(** ** Update interval *)

(** An [int] product that fits 32 bits is exact. *)
Lemma wrapInt_exact (z : Z) : - 2 ^ 31 <= z < 2 ^ 31 -> wrapInt z = z.
Proof.
  intros H. unfold wrapInt. rewrite Z.mod_small by lia. lia.
Qed.

(** Doubling an interval that is not positive never comes out below the
    exact product. *)
Lemma wrapInt_double_nonpositive (i : Z) : i <= 0 -> 2 * i <= wrapInt (2 * i).
Proof.
  intros Hi. destruct (Z_le_gt_dec (- 2 ^ 31) (2 * i)) as [H|H].
  - rewrite wrapInt_exact by lia. lia.
  - unfold wrapInt.
    pose proof (Z.mod_pos_bound (2 * i + 2 ^ 31) (2 ^ 32) eq_refl). lia.
Qed.

(** C10.  [setFramebufferUpdateInterval i] stores [i] and wakes the
    sleeper; for [i <= 0] it also sets the TriggerFramebufferUpdate flag
    and leaves the other flags alone, for [i > 0] it leaves every flag as
    it was.  With the flag set and the interval not positive, the next idle
    iteration of the pump whose watchdog has not expired sends one
    incremental request and clears the flag. *)
Theorem setFramebufferUpdateInterval_spec (i : Z) (k : VncConnection) :
  let k' := setFramebufferUpdateInterval i k in
  m_framebufferUpdateInterval k' = i
  /\ trace k' = trace k ++ [WakeAll]
  /\ (i <= 0 ->
      isControlFlagSet TriggerFramebufferUpdate k' = true
      /\ (forall f, f <> TriggerFramebufferUpdate ->
                    isControlFlagSet f k' = isControlFlagSet f k)
      /\ (watchdogElapsed k'
          < Z.max (2 * i) (m_framebufferUpdateWatchdogTimeout (tunables k')) ->
          effectsSince k' (idleBranch k')
          = [SendIncrementalFramebufferUpdateRequest]
          /\ isControlFlagSet TriggerFramebufferUpdate (idleBranch k')
             = false))
  /\ (0 < i -> m_controlFlags k' = m_controlFlags k).
Proof.
  intros k'. subst k'. unfold setFramebufferUpdateInterval.
  assert (Hi : m_framebufferUpdateInterval
                 (set_m_framebufferUpdateInterval i k) = i)
    by (destruct k; reflexivity).
  rewrite Hi.
  destruct (Z.leb_spec i 0) as [Hle|Hgt].
  - split; [destruct k; reflexivity|].
    split; [destruct k; reflexivity|].
    split; [|lia]. intros _.
    unfold wakeAll.
    split; [|split].
    + now rewrite isControlFlagSet_record, isControlFlagSet_setControlFlag.
    + intros f Hf.
      rewrite isControlFlagSet_record, isControlFlagSet_setControlFlag.
      rewrite (ControlFlag_eqb_neq _ _ Hf).
      destruct k; reflexivity.
    + intros Hwd.
      set (k2 := record WakeAll _) in *.
      assert (Hk2 : m_framebufferUpdateInterval k2 = i)
        by (destruct k; reflexivity).
      assert (Ht : isControlFlagSet TriggerFramebufferUpdate k2 = true).
      { unfold k2.
        now rewrite isControlFlagSet_record, isControlFlagSet_setControlFlag. }
      unfold idleBranch. rewrite Hk2, Ht.
      pose proof (wrapInt_double_nonpositive i Hle) as Hw.
      destruct (Z.leb_spec
                  (Z.max (wrapInt (2 * i))
                         (m_framebufferUpdateWatchdogTimeout (tunables k2)))
                  (watchdogElapsed k2)) as [H|_]; [lia|].
      destruct (Z.ltb_spec 0 i) as [H|_]; [lia|].
      cbn [andb]. split.
      * apply effectsSince_app.
        now rewrite trace_record, trace_setControlFlag.
      * now rewrite isControlFlagSet_record, isControlFlagSet_setControlFlag.
  - split; [destruct k; reflexivity|].
    split; [destruct k; reflexivity|].
    split; [lia|]. intros _. destruct k; reflexivity.
Qed.

Lemma setFramebufferUpdateInterval_spec_witness :
  isControlFlagSet TriggerFramebufferUpdate
                   (setFramebufferUpdateInterval 0 sampleConnection) = true
  /\ m_controlFlags (setFramebufferUpdateInterval 250 sampleConnection)
     = m_controlFlags sampleConnection.
Proof.
  split.
  - apply (setFramebufferUpdateInterval_spec 0 sampleConnection). lia.
  - apply (setFramebufferUpdateInterval_spec 250 sampleConnection). lia.
Defined.

(** ** Scaled framebuffer *)

Example viewedSample_scaled :
  m_framebufferState viewedSample = Valid
  /\ QImage_size (m_image viewedSample) = mkQSize 4 3
  /\ QImage_size (m_scaledFramebuffer viewedSample) = mkQSize 2 2
  /\ isControlFlagSet ScaledFramebufferNeedsUpdate viewedSample = false
  /\ m_state viewedSample = Connected.
Proof. vm_compute. repeat split. Qed.

Lemma QSize_eqb_eq (a b : QSize) : QSize_eqb a b = true -> a = b.
Proof.
  destruct a, b. unfold QSize_eqb. cbn [width height].
  intros H. apply andb_true_iff in H. destruct H as [H1 H2].
  apply Z.eqb_eq in H1, H2. now subst.
Qed.

Lemma QSize_eqb_refl (a : QSize) : QSize_eqb a a = true.
Proof. unfold QSize_eqb. now rewrite !Z.eqb_refl. Qed.

Lemma QSize_isNull_isEmpty (s : QSize) :
  QSize_isNull s = true -> QSize_isEmpty s = true.
Proof.
  unfold QSize_isNull, QSize_isEmpty. intros H.
  apply andb_true_iff in H. destruct H as [H _]. apply Z.eqb_eq in H.
  rewrite H. reflexivity.
Qed.

(** The size of an image is never negative, so the test of
    [m_image.size().isValid()] always succeeds. *)
Lemma QImage_size_isValid (i : QImage) :
  QSize_isValid (QImage_size i) = true.
Proof. destruct i; reflexivity. Qed.

Lemma QImage_scaled_empty (i : QImage) (s : QSize) :
  QSize_isEmpty s = true -> QImage_scaled i s = ImgNull.
Proof.
  intros H. unfold QImage_scaled. rewrite H. now destruct (QImage_isNull i).
Qed.

(** A rescaling of an image that is not null to a size that is not empty
    has exactly that size. *)
Lemma QImage_scaled_size (i : QImage) (s : QSize) :
  QImage_isNull i = false -> QSize_isEmpty s = false ->
  QImage_size (QImage_scaled i s) = s.
Proof.
  intros Hi Hs. unfold QImage_scaled. rewrite Hi, Hs.
  destruct (QSize_eqb s (QImage_size i)) eqn:E.
  - symmetry. now apply QSize_eqb_eq.
  - destruct s as [w h]. unfold QSize_isEmpty in Hs. cbn in *.
    apply orb_false_iff in Hs. destruct Hs as [Hw Hh].
    apply Z.ltb_ge in Hw, Hh.
    rewrite !Z2Pos.id by lia. reflexivity.
Qed.

(** C2 (counterexample).  In the sample session that lost its connection
    there is no valid framebuffer, yet [rescaleFramebuffer] changes the
    connection: the stored 2 x 2 image is replaced by the null image. *)
Lemma rescaleFramebuffer_not_noop :
  hasValidFramebuffer reconnectingSample = false
  /\ QImage_size (m_scaledFramebuffer reconnectingSample) = mkQSize 2 2
  /\ m_scaledFramebuffer (rescaleFramebuffer reconnectingSample) = ImgNull
  /\ rescaleFramebuffer reconnectingSample <> reconnectingSample.
Proof.
  repeat split; try (vm_compute; reflexivity).
  intros H. apply (f_equal (fun k => QImage_isNull (m_scaledFramebuffer k))) in H.
  vm_compute in H. discriminate.
Qed.

(** The three cases of [rescaleFramebuffer], shared by the results below. *)
Lemma rescaleFramebuffer_cases (k : VncConnection) :
  ((hasValidFramebuffer k = false \/ QSize_isNull (m_scaledSize k) = true) ->
   rescaleFramebuffer k = set_m_scaledFramebuffer ImgNull k)
  /\ (hasValidFramebuffer k = true ->
      QSize_isNull (m_scaledSize k) = false ->
      (isControlFlagSet ScaledFramebufferNeedsUpdate k = false ->
       rescaleFramebuffer k = k)
      /\ (isControlFlagSet ScaledFramebufferNeedsUpdate k = true ->
          let k' := rescaleFramebuffer k in
          k' = setControlFlag ScaledFramebufferNeedsUpdate false
                 (set_m_scaledFramebuffer
                    (QImage_scaled (m_image k) (m_scaledSize k)) k)
          /\ m_scaledFramebuffer k'
             = QImage_scaled (m_image k) (m_scaledSize k)
          /\ isControlFlagSet ScaledFramebufferNeedsUpdate k' = false
          /\ (QImage_isNull (m_image k) = false ->
              QSize_isEmpty (m_scaledSize k) = false ->
              QImage_size (m_scaledFramebuffer k') = m_scaledSize k))).
Proof.
  unfold rescaleFramebuffer. split.
  - intros [H|H]; rewrite H; [reflexivity|].
    now rewrite orb_true_r.
  - intros Hv Hn. rewrite Hv, Hn. cbn [negb orb].
    split; intros Hd; rewrite Hd; cbn [negb]; [reflexivity|].
    rewrite QImage_size_isValid. cbn [negb].
    assert (Hs : m_scaledFramebuffer
                   (setControlFlag ScaledFramebufferNeedsUpdate false
                      (set_m_scaledFramebuffer
                         (QImage_scaled (m_image k) (m_scaledSize k)) k))
                 = QImage_scaled (m_image k) (m_scaledSize k))
      by (destruct k; reflexivity).
    repeat split.
    + exact Hs.
    + now rewrite isControlFlagSet_setControlFlag, ControlFlag_eqb_refl.
    + intros Hi He. rewrite Hs. now apply QImage_scaled_size.
Qed.

(** C2 (amended).  Without a valid framebuffer, or with a null scaled size
    (0 x 0), [rescaleFramebuffer] replaces the stored scaled image by the
    null image and changes nothing else.  With a valid framebuffer and a
    scaled size that is not null it is a no-op when scaled-dirty is clear;
    when scaled-dirty is set it stores the smooth, aspect-ignoring
    rescaling of the pixel image to the scaled size (of exactly that size
    when the image is not null and the size not empty), clears scaled-dirty
    and changes nothing else. *)
Theorem rescaleFramebuffer_spec (k : VncConnection) :
  ((hasValidFramebuffer k = false \/ QSize_isNull (m_scaledSize k) = true) ->
   rescaleFramebuffer k = set_m_scaledFramebuffer ImgNull k)
  /\ (hasValidFramebuffer k = true ->
      QSize_isNull (m_scaledSize k) = false ->
      (isControlFlagSet ScaledFramebufferNeedsUpdate k = false ->
       rescaleFramebuffer k = k)
      /\ (isControlFlagSet ScaledFramebufferNeedsUpdate k = true ->
          let k' := rescaleFramebuffer k in
          k' = setControlFlag ScaledFramebufferNeedsUpdate false
                 (set_m_scaledFramebuffer
                    (QImage_scaled (m_image k) (m_scaledSize k)) k)
          /\ m_scaledFramebuffer k'
             = QImage_scaled (m_image k) (m_scaledSize k)
          /\ isControlFlagSet ScaledFramebufferNeedsUpdate k' = false
          /\ (QImage_isNull (m_image k) = false ->
              QSize_isEmpty (m_scaledSize k) = false ->
              QImage_size (m_scaledFramebuffer k') = m_scaledSize k))).
Proof.
  destruct (rescaleFramebuffer_cases k) as [Hnull Hlive].
  split.
  - intros H. now apply Hnull.
  - intros Hv Hn. destruct (Hlive Hv Hn) as [Hclean Hdirty].
    split; [exact Hclean|].
    intros Hd. destruct (Hdirty Hd) as (H1 & H2 & H3 & H4).
    repeat split; assumption.
Qed.

Lemma rescaleFramebuffer_spec_witness :
  rescaleFramebuffer reconnectingSample
  = set_m_scaledFramebuffer ImgNull reconnectingSample
  /\ rescaleFramebuffer viewedSample = viewedSample
  /\ QImage_size
       (m_scaledFramebuffer
          (rescaleFramebuffer (setScaledSize (mkQSize 2 2) streamingSample)))
     = mkQSize 2 2.
Proof.
  split; [|split].
  - apply (proj1 (rescaleFramebuffer_spec reconnectingSample)).
    left. reflexivity.
  - apply (proj1 (proj2 (rescaleFramebuffer_spec viewedSample)
                        eq_refl eq_refl)).
    reflexivity.
  - apply (proj2 (proj2 (rescaleFramebuffer_spec
                           (setScaledSize (mkQSize 2 2) streamingSample))
                        eq_refl eq_refl) eq_refl); reflexivity.
Defined.

(** C5 (counterexample).  After [stop()] the sample session still has a
    valid framebuffer of 4 x 3 pixels, and 2 x 2 is not empty; yet
    [setScaledSize] with that size followed by [scaledFramebuffer] returns
    the null image: [stop()] dropped the stored image without marking it
    for recomputation, and the size did not change. *)
Lemma scaledFramebuffer_after_stop :
  hasValidFramebuffer stoppedSample = true
  /\ QImage_isNull (m_image stoppedSample) = false
  /\ QSize_isEmpty (mkQSize 2 2) = false
  /\ snd (scaledFramebuffer (setScaledSize (mkQSize 2 2) stoppedSample))
     = ImgNull
  /\ QImage_size
       (snd (scaledFramebuffer (setScaledSize (mkQSize 2 2) stoppedSample)))
     <> mkQSize 2 2.
Proof.
  repeat split; try (vm_compute; reflexivity).
  vm_compute. discriminate.
Qed.

(** The pixel image matters as well: with a server whose surface has no
    pixels the framebuffer becomes valid, the pixel image is null, and the
    rescaling is the null image for every size. *)
Example scaledFramebuffer_of_empty_surface :
  reachableWithoutStop emptySurfaceSample
  /\ hasValidFramebuffer emptySurfaceSample = true
  /\ QImage_isNull (m_image emptySurfaceSample) = true
  /\ snd (scaledFramebuffer (setScaledSize (mkQSize 2 2) emptySurfaceSample))
     = ImgNull.
Proof.
  split; [|repeat split; vm_compute; reflexivity].
  unfold emptySurfaceSample, establishConnection.
  eapply reach_step; [|apply step_pumpIteration].
  cbn [establishLoop].
  match goal with
  | |- context [establishPrologue ?k] =>
    assert (Hp : reachableWithoutStop (establishPrologue k))
      by (eapply reach_step;
          [apply reach_construct|apply step_establishPrologue])
  end.
  match goal with
  | |- context [connectAttempt ?a ?k] =>
    assert (Ha : reachableWithoutStop (fst (connectAttempt a k)))
      by (eapply reach_step; [exact Hp|apply step_connectAttempt])
  end.
  exact Ha.
Qed.

Lemma setScaledSize_fields (s : QSize) (k : VncConnection) :
  let k' := setScaledSize s k in
  m_scaledSize k' = s
  /\ hasValidFramebuffer k' = hasValidFramebuffer k
  /\ m_image k' = m_image k
  /\ m_scaledFramebuffer k' = m_scaledFramebuffer k
  /\ isControlFlagSet ScaledFramebufferNeedsUpdate k'
     = (negb (QSize_eqb (m_scaledSize k) s)
        || isControlFlagSet ScaledFramebufferNeedsUpdate k)%bool.
Proof.
  unfold setScaledSize.
  destruct (QSize_eqb (m_scaledSize k) s) eqn:E; cbn [negb orb].
  - apply QSize_eqb_eq in E. repeat split; auto.
  - rewrite isControlFlagSet_setControlFlag, ControlFlag_eqb_refl.
    destruct k; repeat split; reflexivity.
Qed.

(** C5 (amended).  When the stored scaled image is up to date
    ([scaledCacheCoherent]: it was not dropped by [stop()] since it was
    computed), [setScaledSize s] followed by [scaledFramebuffer] returns an
    image of size [s] whenever there is a valid framebuffer whose pixel
    image is not null and [s] is not empty, and returns the null image
    when there is no valid framebuffer or [s] is empty. *)
Theorem setScaledSize_scaledFramebuffer (s : QSize) (k : VncConnection) :
  scaledCacheCoherent k ->
  let r := snd (scaledFramebuffer (setScaledSize s k)) in
  (hasValidFramebuffer k = true ->
   QImage_isNull (m_image k) = false ->
   QSize_isEmpty s = false ->
   QImage_size r = s)
  /\ (hasValidFramebuffer k = false \/ QSize_isEmpty s = true ->
      QImage_isNull r = true).
Proof.
  intros Hc r. subst r. unfold scaledFramebuffer. cbn [snd].
  destruct (setScaledSize_fields s k) as (Hs & Hv & Hi & Hf & Hd).
  set (k1 := setScaledSize s k) in *.
  destruct (rescaleFramebuffer_cases k1) as [Hnull Hlive].
  destruct (hasValidFramebuffer k) eqn:Ev.
  - destruct (QSize_isNull s) eqn:En.
    + (* a null size is empty: the null image *)
      rewrite Hnull by (right; now rewrite Hs).
      split.
      * intros _ _ He. apply QSize_isNull_isEmpty in En. congruence.
      * intros _. destruct k1; reflexivity.
    + rewrite Hs in Hlive. specialize (Hlive Hv En).
      destruct Hlive as [Hclean Hdirty].
      destruct (isControlFlagSet ScaledFramebufferNeedsUpdate k1) eqn:Ed.
      * destruct (Hdirty eq_refl) as (_ & Hr & _ & Hsz).
        rewrite Hi in Hr, Hsz. split.
        -- intros _ Hn He. now apply Hsz.
        -- intros [H|He]; [discriminate|].
           rewrite Hr, QImage_scaled_empty by exact He. reflexivity.
      * (* nothing to recompute: the stored image is returned *)
        rewrite (Hclean eq_refl), Hf.
        symmetry in Hd. apply orb_false_iff in Hd. destruct Hd as [Hq Hk].
        apply negb_false_iff, QSize_eqb_eq in Hq.
        destruct (Hc Hk Ev) as [Hn Hsz]; [now rewrite Hq|].
        rewrite Hq in Hn, Hsz. split.
        -- intros _ Hin He. rewrite Hsz. now apply QImage_scaled_size.
        -- intros [H|He]; [discriminate|].
           rewrite Hn, QImage_scaled_empty by exact He. reflexivity.
  - rewrite Hnull by (left; exact Hv). split.
    + discriminate.
    + intros _. destruct k1; reflexivity.
Qed.

Lemma setScaledSize_scaledFramebuffer_witness :
  QImage_size
    (snd (scaledFramebuffer (setScaledSize (mkQSize 2 2) viewedSample)))
  = mkQSize 2 2
  /\ QImage_isNull
       (snd (scaledFramebuffer (setScaledSize (mkQSize 0 7) viewedSample)))
     = true.
Proof.
  assert (Hc : scaledCacheCoherent viewedSample)
    by (intros _ _ _; split; reflexivity).
  split.
  - apply (proj1 (setScaledSize_scaledFramebuffer
                    (mkQSize 2 2) viewedSample Hc)); reflexivity.
  - apply (proj2 (setScaledSize_scaledFramebuffer
                    (mkQSize 0 7) viewedSample Hc)).
    right. reflexivity.
Defined.

(** *** The stored image stays up to date

    The constructor establishes [scaledCacheCoherent]; the operations on
    the scaled image and everything the codec does preserve it.  [stop()]
    does not ([scaledFramebuffer_after_stop]). *)

Lemma scaledCacheCoherent_frame (k k' : VncConnection) :
  (isControlFlagSet ScaledFramebufferNeedsUpdate k' = false ->
   isControlFlagSet ScaledFramebufferNeedsUpdate k = false) ->
  (hasValidFramebuffer k' = true -> hasValidFramebuffer k = true) ->
  m_scaledSize k' = m_scaledSize k ->
  m_scaledFramebuffer k' = m_scaledFramebuffer k ->
  m_image k' = m_image k ->
  scaledCacheCoherent k -> scaledCacheCoherent k'.
Proof.
  intros Hd Hv Hs Hf Hi Hc Hd' Hv' Hn'.
  rewrite Hs in Hn'. rewrite Hs, Hf, Hi. auto.
Qed.

Lemma scaledCacheCoherent_construct (port : Z) (t : Tunables) :
  scaledCacheCoherent (construct port t).
Proof. intros _ H. discriminate. Qed.

Lemma scaledCacheCoherent_setScaledSize (s : QSize) (k : VncConnection) :
  scaledCacheCoherent k -> scaledCacheCoherent (setScaledSize s k).
Proof.
  intros Hc. destruct (setScaledSize_fields s k) as (Hs & Hv & Hi & Hf & Hd).
  intros Hd' Hv' Hn'. rewrite Hd in Hd'.
  apply orb_false_iff in Hd'. destruct Hd' as [Hq Hk].
  apply negb_false_iff, QSize_eqb_eq in Hq.
  rewrite Hs in *. rewrite Hf, Hi. rewrite <- Hq in *.
  apply Hc; congruence.
Qed.

Lemma scaledCacheCoherent_rescaleFramebuffer (k : VncConnection) :
  scaledCacheCoherent k -> scaledCacheCoherent (rescaleFramebuffer k).
Proof.
  intros Hc. destruct (rescaleFramebuffer_cases k) as [Hnull Hlive].
  destruct (hasValidFramebuffer k) eqn:Ev.
  - destruct (QSize_isNull (m_scaledSize k)) eqn:En.
    + rewrite Hnull by now right.
      intros _ _ Hn.
      replace (m_scaledSize (set_m_scaledFramebuffer ImgNull k))
        with (m_scaledSize k) in Hn by (destruct k; reflexivity).
      congruence.
    + destruct (Hlive eq_refl eq_refl) as [Hclean Hdirty].
      destruct (isControlFlagSet ScaledFramebufferNeedsUpdate k) eqn:Ed.
      * destruct (Hdirty eq_refl) as (Hk & Hr & _).
        intros _ _ _. rewrite Hr. rewrite Hk.
        destruct k; split; reflexivity.
      * now rewrite Hclean.
  - rewrite Hnull by now left.
    intros _ Hv.
    replace (hasValidFramebuffer (set_m_scaledFramebuffer ImgNull k))
      with (hasValidFramebuffer k) in Hv by (destruct k; reflexivity).
    congruence.
Qed.

Lemma scaledCacheCoherent_emit (s : Signal) (k : VncConnection) :
  scaledCacheCoherent k -> scaledCacheCoherent (emit s k).
Proof.
  apply scaledCacheCoherent_frame; try (destruct k; reflexivity);
    unfold emit; rewrite ?isControlFlagSet_record; auto.
  destruct k; auto.
Qed.

Lemma scaledCacheCoherent_onClient (f : rfbClient -> rfbClient)
      (k : VncConnection) :
  scaledCacheCoherent k -> scaledCacheCoherent (onClient f k).
Proof.
  unfold onClient. destruct (m_client k); [|auto].
  apply scaledCacheCoherent_frame; destruct k; auto.
Qed.

Lemma hasValidFramebuffer_initFrameBuffer (heap : nat -> Z)
      (k : VncConnection) :
  snd (initFrameBuffer heap k) = true ->
  hasValidFramebuffer (fst (initFrameBuffer heap k)) = false.
Proof.
  unfold initFrameBuffer. destruct (m_client k) as [c|] eqn:E;
    [|discriminate].
  destruct (negb _); [discriminate|]. intros _. cbn [fst].
  unfold updateEncodingSettingsFromQuality.
  destruct k; cbn in *. reflexivity.
Qed.

Lemma initFrameBuffer_failure (heap : nat -> Z) (k : VncConnection) :
  snd (initFrameBuffer heap k) = false -> fst (initFrameBuffer heap k) = k.
Proof.
  unfold initFrameBuffer. destruct (m_client k) as [c|]; [|reflexivity].
  destruct (negb _); [reflexivity|discriminate].
Qed.

Lemma scaledCacheCoherent_codecStep (a : CodecAction) (k : VncConnection) :
  scaledCacheCoherent k -> scaledCacheCoherent (codecStep a k).
Proof.
  intros Hc. destruct a; cbn [codecStep];
    try (now apply scaledCacheCoherent_onClient).
  - unfold hookInitFrameBuffer. destruct (_ && _)%bool; [|exact Hc].
    destruct (snd (initFrameBuffer heap k)) eqn:E.
    + intros _ Hv.
      rewrite (hasValidFramebuffer_initFrameBuffer heap k E) in Hv.
      discriminate.
    + now rewrite (initFrameBuffer_failure heap k E).
  - unfold hookUpdateFB. destruct (clientData _); [|exact Hc].
    now apply scaledCacheCoherent_emit.
  - unfold hookFinishFrameBufferUpdate.
    destruct (clientData _); [|exact Hc].
    unfold finishFrameBufferUpdate. intros Hd. exfalso.
    unfold emit in Hd.
    rewrite isControlFlagSet_record, isControlFlagSet_setControlFlag in Hd.
    discriminate.
  - unfold hookHandleCursorPos. cbn [fst].
    destruct (clientData _); [|exact Hc].
    now apply scaledCacheCoherent_emit.
  - destruct (m_client k); [|exact Hc].
    unfold hookCursorShape. destruct (negb _); [exact Hc|].
    destruct (clientData _); [|exact Hc].
    now apply scaledCacheCoherent_emit.
  - unfold hookCutText. destruct (_ && _)%bool; [|exact Hc].
    now apply scaledCacheCoherent_emit.
  - unfold setServerReachable. revert Hc.
    apply scaledCacheCoherent_frame; try (destruct k; reflexivity).
    + now rewrite isControlFlagSet_setControlFlag.
    + destruct k; auto.
Qed.

Lemma scaledCacheCoherent_runCodec (acts : list CodecAction)
      (k : VncConnection) :
  scaledCacheCoherent k -> scaledCacheCoherent (runCodec acts k).
Proof.
  unfold runCodec. revert k.
  induction acts as [|a acts IH]; intros k Hc; cbn [fold_left]; [exact Hc|].
  apply IH. now apply scaledCacheCoherent_codecStep.
Qed.

(** *** Every state reached without [stop()] is coherent *)

Lemma scaledCacheCoherent_view (k k' : VncConnection) :
  scalingView k' = scalingView k ->
  scaledCacheCoherent k -> scaledCacheCoherent k'.
Proof.
  unfold scalingView. intros H. injection H as Hd Hv Hs Hf Hi.
  apply scaledCacheCoherent_frame; congruence.
Qed.

Lemma scalingView_ext (k k' : VncConnection) :
  m_controlFlags k' = m_controlFlags k ->
  m_framebufferState k' = m_framebufferState k ->
  m_scaledSize k' = m_scaledSize k ->
  m_scaledFramebuffer k' = m_scaledFramebuffer k ->
  m_image k' = m_image k ->
  scalingView k' = scalingView k.
Proof.
  intros Hc Hs Hz Hf Hi.
  unfold scalingView, hasValidFramebuffer, isControlFlagSet. congruence.
Qed.

Ltac same_fields :=
  apply scalingView_ext;
  match goal with |- _ ?k' = _ ?k => destruct k; reflexivity end.

Lemma scalingView_record (e : Effect) (k : VncConnection) :
  scalingView (record e k) = scalingView k.
Proof. same_fields. Qed.

Lemma scalingView_advance (dt : N) (k : VncConnection) :
  scalingView (advance dt k) = scalingView k.
Proof. same_fields. Qed.

Lemma scalingView_set_m_client (c : option rfbClient) (k : VncConnection) :
  scalingView (set_m_client c k) = scalingView k.
Proof. same_fields. Qed.

Lemma scalingView_setState (s : State) (k : VncConnection) :
  scalingView (setState s k) = scalingView k.
Proof.
  unfold setState. destruct (State_eqb (m_state k) s); same_fields.
Qed.

Lemma scalingView_setControlFlag (f : ControlFlag) (on : bool)
      (k : VncConnection) :
  f <> ScaledFramebufferNeedsUpdate ->
  scalingView (setControlFlag f on k) = scalingView k.
Proof.
  intros Hf. unfold scalingView.
  rewrite isControlFlagSet_setControlFlag.
  rewrite ControlFlag_eqb_neq by congruence.
  destruct on, k; reflexivity.
Qed.

Lemma scalingView_enqueueEvent (e : VncEvent) (k : VncConnection) :
  scalingView (enqueueEvent e k) = scalingView k.
Proof.
  unfold enqueueEvent. destruct (negb _); [reflexivity|].
  unfold wakeAll. rewrite scalingView_record. same_fields.
Qed.

Lemma scalingView_updateEncodingSettingsFromQuality (k : VncConnection) :
  scalingView (updateEncodingSettingsFromQuality k) = scalingView k.
Proof.
  unfold updateEncodingSettingsFromQuality.
  destruct (m_client k); [apply scalingView_set_m_client|reflexivity].
Qed.

Lemma scalingView_drainQueue (q : list VncEvent) (k : VncConnection) :
  scalingView (drainQueue q k) = scalingView k.
Proof.
  revert k. induction q as [|e q IH]; intros k; cbn [drainQueue];
    [reflexivity|].
  rewrite IH. destruct (isControlFlagSet _ _);
    [|rewrite scalingView_record]; same_fields.
Qed.

Lemma scaledCacheCoherent_handleMessages (m : ServerMessage)
      (more : list ServerMessage) (k : VncConnection) :
  scaledCacheCoherent k ->
  scaledCacheCoherent (fst (handleMessages m more k)).
Proof.
  revert m k. induction more as [|m' more IH]; intros m k Hc;
    cbn [handleMessages HandleRFBServerMessage];
    destruct (sm_ok m); cbn [fst];
      try apply IH;
      repeat first [ apply (scaledCacheCoherent_view _ _
                              (scalingView_record _ _))
                   | apply (scaledCacheCoherent_view _ _
                              (scalingView_advance _ _)) ];
      now apply scaledCacheCoherent_runCodec.
Qed.

Lemma scalingView_idleBranch (k : VncConnection) :
  scalingView (idleBranch k) = scalingView k.
Proof.
  unfold idleBranch, restartWatchdog.
  destruct (_ <=? _).
  - destruct (m_client k); [|same_fields].
    rewrite <- (scalingView_record
                  (SendFramebufferUpdateRequest 0 0 (cl_width r)
                                                (cl_height r) false) k).
    same_fields.
  - destruct (_ && _)%bool.
    + rewrite <- (scalingView_record
                    SendIncrementalFramebufferUpdateRequest k).
      same_fields.
    + destruct (isControlFlagSet TriggerFramebufferUpdate k);
        [|reflexivity].
      rewrite scalingView_record.
      now apply scalingView_setControlFlag.
Qed.

Lemma scalingView_pumpTail (loopStart : Z) (slept : N) (k : VncConnection) :
  scalingView (pumpTail loopStart slept k) = scalingView k.
Proof.
  unfold pumpTail, sendEvents. rewrite scalingView_drainQueue.
  destruct (_ && _ && _)%bool; [|reflexivity].
  now rewrite scalingView_advance, scalingView_record.
Qed.

Lemma scaledCacheCoherent_pumpIteration (inp : PumpInput)
      (k : VncConnection) :
  scaledCacheCoherent k ->
  scaledCacheCoherent (fst (pumpIteration inp k)).
Proof.
  intros Hc. unfold pumpIteration.
  set (k1 := advance _ _).
  assert (H1 : scaledCacheCoherent k1).
  { apply (scaledCacheCoherent_view k); [|exact Hc].
    subst k1. now rewrite scalingView_advance, scalingView_record. }
  destruct (_ || _)%bool; [exact H1|].
  destruct (negb _).
  - pose proof (scaledCacheCoherent_handleMessages
                  (firstMessage inp) (moreMessages inp) k1 H1) as H2.
    destruct (handleMessages _ _ k1) as [k2 ok]. cbn [fst] in *.
    destruct ok; [|exact H2]. cbn [fst].
    apply (scaledCacheCoherent_view k2); [|exact H2].
    apply scalingView_pumpTail.
  - cbn [fst]. apply (scaledCacheCoherent_view k1); [|exact H1].
    now rewrite scalingView_pumpTail, scalingView_idleBranch.
Qed.

Lemma scaledCacheCoherent_attemptInit (a : ConnectAttempt)
      (k : VncConnection) :
  scaledCacheCoherent k -> scaledCacheCoherent (attemptInit a k).
Proof.
  intros Hc. unfold attemptInit.
  set (k4 := setControlFlag ServerReachable false _).
  assert (H4 : scaledCacheCoherent k4).
  { apply (scaledCacheCoherent_view k); [|exact Hc]. subst k4.
    rewrite scalingView_setControlFlag by discriminate.
    unfold onClient, emit, setClientData.
    repeat first [ rewrite scalingView_record
                 | rewrite scalingView_set_m_client
                 | match goal with
                   | |- context [match m_client ?x with _ => _ end] =>
                     destruct (m_client x)
                   end ];
      reflexivity. }
  assert (H5 : scaledCacheCoherent
                 (advance (initTime a) (runCodec (initActions a) k4))).
  { apply (scaledCacheCoherent_view _ _ (scalingView_advance _ _)).
    now apply scaledCacheCoherent_runCodec. }
  destruct (clientInitialized a); [exact H5|].
  apply (scaledCacheCoherent_view _ _ (scalingView_set_m_client _ _)).
  exact H5.
Qed.

Lemma scaledCacheCoherent_connectAttempt (a : ConnectAttempt)
      (k : VncConnection) :
  scaledCacheCoherent k ->
  scaledCacheCoherent (fst (connectAttempt a k)).
Proof.
  intros Hc. pose proof (scaledCacheCoherent_attemptInit a k Hc) as H6.
  unfold connectAttempt. set (k6 := attemptInit a k) in *.
  destruct (isControlFlagSet TerminateThread k6); [exact H6|].
  destruct (clientInitialized a); cbn [fst].
  - apply (scaledCacheCoherent_view k6); [|exact H6].
    rewrite scalingView_setState, scalingView_record.
    unfold restartWatchdog. same_fields.
  - apply (scaledCacheCoherent_view k6); [|exact H6].
    rewrite scalingView_advance, scalingView_record.
    destruct (negb _);
      [destruct (_ || _)%bool|destruct (FramebufferState_eqb _ _)];
      apply scalingView_setState.
Qed.

(** The invariant of the scaled image: it holds in every state reached
    from the constructor by calls of the public interface other than
    [stop()] and by steps of the driver thread. *)
Lemma reachableWithoutStop_coherent (k : VncConnection) :
  reachableWithoutStop k -> scaledCacheCoherent k.
Proof.
  induction 1 as [port t|k k' _ IH Hstep];
    [apply scaledCacheCoherent_construct|].
  destruct Hstep.
  - apply (scaledCacheCoherent_view k); [|exact IH].
    unfold setHost.
    destruct (firstMatch _ _); [|same_fields].
    destruct (0 <? _), (isEmptyString _); same_fields.
  - apply (scaledCacheCoherent_view k); [|exact IH].
    unfold setPort. destruct (0 <=? p); [same_fields|reflexivity].
  - apply (scaledCacheCoherent_view k); [|exact IH].
    unfold setQuality. destruct (m_client _); [|same_fields].
    rewrite scalingView_enqueueEvent,
      scalingView_updateEncodingSettingsFromQuality.
    same_fields.
  - apply (scaledCacheCoherent_view k); [|exact IH].
    unfold setUseRemoteCursor. destruct (m_client _); [|same_fields].
    rewrite scalingView_enqueueEvent, scalingView_set_m_client.
    same_fields.
  - apply (scaledCacheCoherent_view k); [|exact IH].
    now apply scalingView_setControlFlag.
  - apply (scaledCacheCoherent_view k); [|exact IH].
    now apply scalingView_setControlFlag.
  - now apply scaledCacheCoherent_setScaledSize.
  - now apply scaledCacheCoherent_rescaleFramebuffer.
  - apply (scaledCacheCoherent_view k); [|exact IH].
    unfold setFramebufferUpdateInterval, wakeAll.
    rewrite scalingView_record.
    destruct (_ <=? 0);
      [rewrite scalingView_setControlFlag by discriminate|]; same_fields.
  - apply (scaledCacheCoherent_view k); [|exact IH].
    apply scalingView_enqueueEvent.
  - intros _ Hv. exfalso. revert Hv.
    unfold establishPrologue, hasValidFramebuffer.
    destruct (setControlFlag _ _ _). discriminate.
  - now apply scaledCacheCoherent_connectAttempt.
  - now apply scaledCacheCoherent_pumpIteration.
  - apply (scaledCacheCoherent_view k); [|exact IH].
    unfold closeConnection. rewrite scalingView_setState.
    destruct (m_client k); [|reflexivity].
    now rewrite scalingView_set_m_client, scalingView_record.
Qed.

(** ** Codec callbacks *)

(** C3 (counterexample).  The connected sample session holds client 1; a
    callback from client 7, whose slot names the connection, finds an owner
    that does not match the invoking client.  The update callback still
    emits image-updated, and the finish callback still marks the
    framebuffer valid and emits framebuffer-update-complete. *)
Lemma callbacks_act_on_mismatched_owner :
  clientData (Some staleClient) = true
  /\ sameClient (m_client connectedSample) (Some staleClient) = false
  /\ trace (hookUpdateFB (Some staleClient) 0 0 4 3 connectedSample)
     = trace connectedSample ++ [Emit (imageUpdated 0 0 4 3)]
  /\ hookUpdateFB (Some staleClient) 0 0 4 3 connectedSample
     <> connectedSample
  /\ m_framebufferState connectedSample = Initialized
  /\ m_framebufferState
       (hookFinishFrameBufferUpdate (Some staleClient) connectedSample)
     = Valid.
Proof.
  repeat split; try (vm_compute; reflexivity).
  intros H. apply (f_equal (fun k => List.length (trace k))) in H.
  vm_compute in H. discriminate.
Qed.

(** C3 (amended).  Every callback that finds no owner in the slot of the
    invoking client is a no-op: the connection is unchanged, which
    includes its trace, so no signal is emitted; the init callback reports
    failure and the cursor-position callback reports success.  For the
    init, update, finish, cursor-position and cut-text callbacks this
    includes the invocation without a client; the cursor-shape callback
    reads the client before it looks up the owner and is covered for the
    clients that exist.  The init callback is a no-op also when the
    owner's client is not the invoking client. *)
Theorem callbacks_without_owner (client : option rfbClient)
        (k : VncConnection) :
  (clientData client = false ->
   (forall heap, hookInitFrameBuffer heap client k = (k, false))
   /\ (forall x y w h, hookUpdateFB client x y w h k = k)
   /\ hookFinishFrameBufferUpdate client k = k
   /\ (forall x y, hookHandleCursorPos client x y k = (k, true))
   /\ (forall c, client = Some c ->
                 forall xh yh w h bpp, hookCursorShape c xh yh w h bpp k = k)
   /\ (forall text textlen, hookCutText client text textlen k = k))
  /\ (sameClient (m_client k) client = false ->
      forall heap, hookInitFrameBuffer heap client k = (k, false)).
Proof.
  split.
  - intros H.
    unfold hookInitFrameBuffer, hookUpdateFB, hookFinishFrameBufferUpdate,
      hookHandleCursorPos, hookCutText.
    rewrite H. cbn [andb]. repeat split; try reflexivity.
    intros c Hc xh yh w h bpp. unfold hookCursorShape.
    rewrite <- Hc, H. now destruct (negb (bpp =? 4)).
  - intros H heap. unfold hookInitFrameBuffer. rewrite H.
    now rewrite andb_false_r.
Qed.

Lemma callbacks_without_owner_witness :
  hookUpdateFB (Some (sampleClient 7)) 0 0 4 3 connectedSample
  = connectedSample
  /\ hookCursorShape (sampleClient 7) 0 0 16 16 4 connectedSample
     = connectedSample
  /\ hookInitFrameBuffer sampleHeap (Some staleClient) connectedSample
     = (connectedSample, false).
Proof.
  destruct (callbacks_without_owner (Some (sampleClient 7)) connectedSample)
    as [Hmissing _].
  destruct (Hmissing eq_refl) as (_ & Hupd & _ & _ & Hshape & _).
  split; [apply Hupd|]. split; [now apply Hshape|].
  apply (proj2 (callbacks_without_owner
                  (Some staleClient) connectedSample)).
  reflexivity.
Defined.

(** ** Framebuffer allocation *)

Lemma newPixels_length (heap : nat -> Z) (n : Z) :
  List.length (newPixels heap n) = Z.to_nat n.
Proof. unfold newPixels. now rewrite length_map, length_seq. Qed.

(** Clearing exactly the bytes of the array leaves an array of zeros,
    whatever the memory held. *)
Lemma memsetZero_all (heap : nat -> Z) (n : Z) :
  0 <= n ->
  memsetZero (newPixels heap n) (n * RfbBytesPerPixel)
  = repeat 0 (Z.to_nat n).
Proof.
  intros Hn. unfold memsetZero.
  rewrite Z.div_mul by discriminate.
  rewrite newPixels_length, Nat.min_id.
  rewrite skipn_all2 by (rewrite newPixels_length; lia).
  apply app_nil_r.
Qed.

Lemma wrap32_small (z : Z) : 0 <= z < 2 ^ 32 -> wrap32 z = z.
Proof. intros H. unfold wrap32. now apply Z.mod_small. Qed.

Lemma pixelCount_exact (w h : Z) :
  0 <= w -> 0 <= h -> w * h < 2 ^ 30 ->
  wrap32 (wrap32 w * wrap32 h) = w * h
  /\ wrap32 (w * h * RfbBytesPerPixel) = w * h * RfbBytesPerPixel.
Proof.
  intros Hw Hh Hwh. unfold wrap32 at 1 2 3.
  rewrite <- Z.mul_mod by discriminate.
  assert (0 <= w * h) by now apply Z.mul_nonneg_nonneg.
  split; [apply Z.mod_small|apply wrap32_small];
    unfold RfbBytesPerPixel; lia.
Qed.

(** X19.  With a client whose extent [w] x [h] is not negative and below
    2^30 pixels, [initFrameBuffer] returns false exactly when the depth of
    the server's pixel format is not 32 bits, and then changes nothing.
    Otherwise it gives the client a new array of [w * h] pixels that are all
    zero whatever the allocated memory held, publishes it as the pixel
    image, sets the format to maxima 0xFF at shifts 16, 8, 0, moves the
    framebuffer state to Initialized, emits framebuffer-size-changed with
    [w] and [h], and returns true.  The callback registered with the codec
    is this function when the owner is registered and its client is the
    invoking one. *)
Theorem initFrameBuffer_spec (heap : nat -> Z) (k : VncConnection)
        (c : rfbClient) :
  m_client k = Some c ->
  0 <= cl_width c -> 0 <= cl_height c -> cl_width c * cl_height c < 2 ^ 30 ->
  let w := cl_width c in
  let h := cl_height c in
  let k' := fst (initFrameBuffer heap k) in
  (snd (initFrameBuffer heap k) = false <-> bitsPerPixel (format c) <> 32)
  /\ (bitsPerPixel (format c) <> 32 -> k' = k)
  /\ (bitsPerPixel (format c) = 32 ->
      snd (initFrameBuffer heap k) = true
      /\ exists c',
        m_client k' = Some c'
        /\ frameBuffer c' = repeat 0 (Z.to_nat (w * h))
        /\ Z.of_nat (List.length (frameBuffer c')) = w * h
        /\ format c' = mkFormat 32 16 8 0 0xff 0xff 0xff
        /\ cl_width c' = w /\ cl_height c' = h
        /\ m_image k' = QImage_fromData (frameBuffer c') w h
        /\ m_framebufferState k' = Initialized
        /\ trace k' = trace k ++ [Emit (framebufferSizeChanged w h)])
  /\ (ownerSlot c = true ->
      hookInitFrameBuffer heap (Some c) k = initFrameBuffer heap k).
Proof.
  intros Hc Hw Hh Hwh w h k'. subst k' w h.
  assert (Hhook : ownerSlot c = true ->
                  hookInitFrameBuffer heap (Some c) k
                  = initFrameBuffer heap k).
  { intros Ho. unfold hookInitFrameBuffer, clientData, sameClient.
    now rewrite Ho, Hc, Nat.eqb_refl. }
  destruct (pixelCount_exact _ _ Hw Hh Hwh) as [Hcount Hbytes].
  assert (Hnn : 0 <= cl_width c * cl_height c)
    by now apply Z.mul_nonneg_nonneg.
  revert Hhook. unfold initFrameBuffer. rewrite Hc.
  change (RfbBitsPerSample * RfbBytesPerPixel) with 32.
  rewrite Hcount, Hbytes, memsetZero_all by exact Hnn.
  intros Hhook.
  destruct (Z.eqb_spec (bitsPerPixel (format c)) 32) as [E|E]; cbn [negb].
  - split; [split; [discriminate|congruence]|].
    split; [congruence|]. split; [|exact Hhook].
    intros _. split; [reflexivity|]. cbn [fst].
    unfold updateEncodingSettingsFromQuality.
    destruct k, c; cbn in *. eexists. split; [reflexivity|].
    cbn. rewrite repeat_length, Z2Nat.id by exact Hnn.
    rewrite E. repeat split; reflexivity.
  - split; [split; [auto|reflexivity]|].
    split; [reflexivity|]. split; [contradiction|exact Hhook].
Qed.

Lemma initFrameBuffer_spec_witness :
  snd (initFrameBuffer sampleHeap (announcedConnection 16)) = false
  /\ fst (initFrameBuffer sampleHeap (announcedConnection 16))
     = announcedConnection 16
  /\ exists c',
      m_client (fst (initFrameBuffer sampleHeap (announcedConnection 32)))
      = Some c'
      /\ frameBuffer c' = repeat 0 12%nat.
Proof.
  assert (Hw : 0 <= 4) by lia.
  assert (Hh : 0 <= 3) by lia.
  assert (Hwh : 4 * 3 < 2 ^ 30) by reflexivity.
  destruct (initFrameBuffer_spec sampleHeap (announcedConnection 16)
                                 (announcedClient 16) eq_refl Hw Hh Hwh)
    as (Hiff & Hfail & _).
  destruct (initFrameBuffer_spec sampleHeap (announcedConnection 32)
                                 (announcedClient 32) eq_refl Hw Hh Hwh)
    as (_ & _ & Hok & _).
  split; [|split].
  - apply Hiff. discriminate.
  - apply Hfail. discriminate.
  - destruct (Hok eq_refl) as (_ & c' & Hc & Hfb & _).
    exists c'. split; [exact Hc|exact Hfb].
Defined.

(** A byte count of zero clears nothing. *)
Lemma memsetZero_nothing (buf : list Z) : memsetZero buf 0 = buf.
Proof. reflexivity. Qed.

(** The pixel array after a successful [initFrameBuffer], with the pixel
    count and the byte count as the source computes them. *)
Lemma initFrameBuffer_pixels (heap : nat -> Z) (k : VncConnection)
      (c : rfbClient) :
  m_client k = Some c ->
  bitsPerPixel (format c) = 32 ->
  let pixelCount := wrap32 (wrap32 (cl_width c) * wrap32 (cl_height c)) in
  snd (initFrameBuffer heap k) = true
  /\ clientPixels (fst (initFrameBuffer heap k))
     = memsetZero (newPixels heap pixelCount)
                  (wrap32 (pixelCount * RfbBytesPerPixel)).
Proof.
  intros Hc E pixelCount. unfold initFrameBuffer. rewrite Hc.
  change (RfbBitsPerSample * RfbBytesPerPixel) with 32.
  rewrite E. cbn [Z.eqb Pos.eqb negb fst snd].
  split; [reflexivity|].
  unfold clientPixels, updateEncodingSettingsFromQuality.
  destruct k, c; reflexivity.
Qed.

(** C8.  A successful [initFrameBuffer] does not always leave a zeroed
    array.  The server announces a surface of 32768 x 32768 pixels at 32
    bits per pixel.  The pixel count, 2^30, fits [uint32_t], and the array
    has that many pixels; the byte count passed to [memset] is the product
    2^30 * 4 reduced to 32 bits, which is 0.  Nothing is cleared: the
    function succeeds and the array holds what the allocated memory held,
    here 0xABCD in its first pixel. *)
Theorem initFrameBuffer_large_surface_not_cleared :
  let r := initFrameBuffer sampleHeap largeConnection in
  snd r = true
  /\ wrap32 (wrap32 32768 * wrap32 32768) = 1073741824
  /\ wrap32 (1073741824 * RfbBytesPerPixel) = 0
  /\ clientPixels (fst r) = newPixels sampleHeap 1073741824
  /\ Z.of_nat (List.length (clientPixels (fst r))) = 1073741824
  /\ hd 0 (clientPixels (fst r)) = 0xABCD.
Proof.
  intros r. subst r.
  destruct (initFrameBuffer_pixels sampleHeap largeConnection largeClient
                                   eq_refl eq_refl) as [Hs Hp].
  assert (Hcount : wrap32 (wrap32 32768 * wrap32 32768) = 1073741824)
    by reflexivity.
  assert (Hbytes : wrap32 (1073741824 * RfbBytesPerPixel) = 0)
    by reflexivity.
  change (cl_width largeClient) with 32768 in Hp.
  change (cl_height largeClient) with 32768 in Hp.
  rewrite Hcount, Hbytes, memsetZero_nothing in Hp.
  split; [exact Hs|]. split; [exact Hcount|]. split; [exact Hbytes|].
  split; [exact Hp|]. rewrite Hp. split.
  - rewrite newPixels_length. apply Z2Nat.id. discriminate.
  - unfold newPixels.
    replace 1073741824 with (Z.succ 1073741823) by reflexivity.
    rewrite Z2Nat.inj_succ by discriminate.
    rewrite <- cons_seq. cbn [map hd]. reflexivity.
Qed.

(** ** The message pump *)

Lemma drainQueue_trace (q : list VncEvent) (k : VncConnection) :
  isControlFlagSet TerminateThread k = false ->
  trace (drainQueue q k) = trace k ++ map Fire q.
Proof.
  revert k. induction q as [|e q IH]; intros k Ht; cbn [drainQueue map].
  - now rewrite app_nil_r.
  - assert (Hq : isControlFlagSet TerminateThread (set_m_eventQueue q k)
                 = false) by (destruct k; exact Ht).
    rewrite Hq, IH by now rewrite isControlFlagSet_record.
    rewrite trace_record, <- app_assoc.
    destruct k; reflexivity.
Qed.

Lemma drainQueue_frame (q : list VncEvent) (k : VncConnection) :
  m_controlFlags (drainQueue q k) = m_controlFlags k
  /\ m_framebufferUpdateWatchdog (drainQueue q k)
     = m_framebufferUpdateWatchdog k
  /\ clock (drainQueue q k) = clock k.
Proof.
  revert k. induction q as [|e q IH]; intros k; cbn [drainQueue]; [auto|].
  destruct (IH (if isControlFlagSet TerminateThread (set_m_eventQueue q k)
                then set_m_eventQueue q k
                else record (Fire e) (set_m_eventQueue q k)))
    as (H1 & H2 & H3).
  rewrite H1, H2, H3.
  destruct (isControlFlagSet _ _); destruct k; auto.
Qed.

Lemma fired_events_no_request (q : list VncEvent) :
  filter isUpdateRequest (map Fire q) = [].
Proof. induction q as [|e q IH]; [reflexivity|exact IH]. Qed.

(** The end of an iteration adds no update request, and leaves the flags
    and the watchdog alone. *)
Lemma pumpTail_frame (loopStart : Z) (slept : N) (k : VncConnection) :
  isControlFlagSet TerminateThread k = false ->
  filter isUpdateRequest (effectsSince k (pumpTail loopStart slept k)) = []
  /\ (exists l, trace (pumpTail loopStart slept k) = trace k ++ l)
  /\ m_controlFlags (pumpTail loopStart slept k) = m_controlFlags k
  /\ m_framebufferUpdateWatchdog (pumpTail loopStart slept k)
     = m_framebufferUpdateWatchdog k.
Proof.
  intros Ht. unfold pumpTail, sendEvents.
  set (k1 := if (_ && _ && _)%bool then _ else k).
  assert (H1 : exists l, trace k1 = trace k ++ l
                         /\ filter isUpdateRequest l = []
                         /\ m_controlFlags k1 = m_controlFlags k
                         /\ m_framebufferUpdateWatchdog k1
                            = m_framebufferUpdateWatchdog k).
  { subst k1. destruct (_ && _ && _)%bool.
    - eexists [_]. destruct k; repeat split; reflexivity.
    - exists []. rewrite app_nil_r. auto. }
  destruct H1 as (l & Hl & Hf & Hfl & Hwd).
  assert (Ht1 : isControlFlagSet TerminateThread k1 = false)
    by (unfold isControlFlagSet in *; now rewrite Hfl).
  destruct (drainQueue_frame (m_eventQueue k1) k1) as (D1 & D2 & _).
  assert (Htr : trace (drainQueue (m_eventQueue k1) k1)
                = trace k ++ (l ++ map Fire (m_eventQueue k1))).
  { rewrite drainQueue_trace, Hl, app_assoc by exact Ht1. reflexivity. }
  repeat split.
  - rewrite (effectsSince_app _ _ _ Htr), filter_app, Hf. cbn [app].
    apply fired_events_no_request.
  - eexists. exact Htr.
  - congruence.
  - congruence.
Qed.

(** X18.  Where twice the update interval fits an [int] (the interval
    lies in -2^30 .. 2^30 - 1), the watchdog branch is as the spec
    describes it.  In an iteration of the pump in which the thread is not
    asked to terminate, the wait reports no message, and the watchdog, read
    when the wait returns, has run for at least the larger of twice the
    update interval and the watchdog timeout: the iteration goes on to the
    next one, the only update request it issues is one non-incremental
    request for the rectangle (0, 0, width, height) of the client, and the
    watchdog is restarted at that moment.  The two later branches are not
    taken, whatever the trigger flag is: no incremental request is sent and
    the control flags are as before. *)
Theorem watchdog_full_update (inp : PumpInput) (k : VncConnection)
        (c : rfbClient) :
  m_client k = Some c ->
  isControlFlagSet TerminateThread k = false ->
  waitResult inp = 0 ->
  - 2 ^ 30 <= m_framebufferUpdateInterval k < 2 ^ 30 ->
  Z.max (2 * m_framebufferUpdateInterval k)
        (m_framebufferUpdateWatchdogTimeout (tunables k))
  <= clock k + Z.of_N (waitTime inp) - m_framebufferUpdateWatchdog k ->
  let k' := fst (pumpIteration inp k) in
  snd (pumpIteration inp k) = true
  /\ filter isUpdateRequest (effectsSince k k')
     = [SendFramebufferUpdateRequest 0 0 (cl_width c) (cl_height c) false]
  /\ m_framebufferUpdateWatchdog k' = clock k + Z.of_N (waitTime inp)
  /\ m_controlFlags k' = m_controlFlags k.
Proof.
  intros Hc Ht Hi Hrange Hwd k'. subst k'. unfold pumpIteration.
  set (usecs := if 0 <? m_framebufferUpdateInterval k then _ else _).
  set (k1 := advance (waitTime inp) (record (WaitForMessage usecs) k)).
  assert (F1 : m_controlFlags k1 = m_controlFlags k)
    by (destruct k; reflexivity).
  assert (F2 : m_framebufferUpdateInterval k1 = m_framebufferUpdateInterval k)
    by (destruct k; reflexivity).
  assert (F3 : tunables k1 = tunables k) by (destruct k; reflexivity).
  assert (F4 : watchdogElapsed k1
               = clock k + Z.of_N (waitTime inp)
                 - m_framebufferUpdateWatchdog k)
    by (destruct k; reflexivity).
  assert (F5 : m_client k1 = Some c) by (destruct k; exact Hc).
  assert (F6 : trace k1 = trace k ++ [WaitForMessage usecs])
    by (destruct k; reflexivity).
  assert (F7 : clock k1 = clock k + Z.of_N (waitTime inp))
    by (destruct k; reflexivity).
  assert (Ht1 : isControlFlagSet TerminateThread k1 = false)
    by (unfold isControlFlagSet in *; now rewrite F1).
  rewrite Ht1, Hi. cbn [orb Z.ltb Z.compare Z.eqb negb].
  unfold idleBranch. rewrite F2, F3, F4, F5.
  rewrite (wrapInt_exact (2 * m_framebufferUpdateInterval k)) by lia.
  destruct (Z.leb_spec
              (Z.max (2 * m_framebufferUpdateInterval k)
                     (m_framebufferUpdateWatchdogTimeout (tunables k)))
              (clock k + Z.of_N (waitTime inp)
               - m_framebufferUpdateWatchdog k)) as [_|H]; [|lia].
  cbn [fst snd].
  set (req := SendFramebufferUpdateRequest 0 0 (cl_width c) (cl_height c)
                                           false).
  set (k2 := restartWatchdog (record req k1)).
  assert (G1 : m_controlFlags k2 = m_controlFlags k1)
    by (destruct k1; reflexivity).
  assert (G2 : trace k2 = trace k1 ++ [req]) by (destruct k1; reflexivity).
  assert (G3 : m_framebufferUpdateWatchdog k2 = clock k1)
    by (destruct k1; reflexivity).
  assert (Ht2 : isControlFlagSet TerminateThread k2 = false)
    by (unfold isControlFlagSet in *; now rewrite G1).
  destruct (pumpTail_frame (clock k) (sleepTime inp) k2 Ht2)
    as (T1 & (l & T2) & T3 & T4).
  split; [reflexivity|]. split; [|split].
  - rewrite (effectsSince_app _ _ _ T2) in T1.
    assert (Htr : trace (pumpTail (clock k) (sleepTime inp) k2)
                  = trace k ++ ([WaitForMessage usecs; req] ++ l)).
    { rewrite T2, G2, F6, <- !app_assoc. reflexivity. }
    rewrite (effectsSince_app _ _ _ Htr), filter_app, T1.
    reflexivity.
  - congruence.
  - congruence.
Qed.

Lemma watchdog_full_update_witness :
  isControlFlagSet TriggerFramebufferUpdate periodicSample = true
  /\ filter isUpdateRequest
            (effectsSince periodicSample
                          (fst (pumpIteration silentInput periodicSample)))
     = [SendFramebufferUpdateRequest 0 0 4 3 false].
Proof.
  split; [reflexivity|].
  assert (Hwd : Z.max (2 * m_framebufferUpdateInterval periodicSample)
                      (m_framebufferUpdateWatchdogTimeout
                         (tunables periodicSample))
                <= clock periodicSample + Z.of_N (waitTime silentInput)
                   - m_framebufferUpdateWatchdog periodicSample)
    by (vm_compute; discriminate).
  assert (Hrange : - 2 ^ 30 <= m_framebufferUpdateInterval periodicSample
                   < 2 ^ 30)
    by (vm_compute; split; [discriminate | reflexivity]).
  apply (watchdog_full_update silentInput periodicSample
                              (clientOf periodicSample)
                              eq_refl eq_refl eq_refl Hrange Hwd).
Defined.

(** C6.  The watchdog branch is not taken in every iteration in which the
    watchdog has run for max(2 x interval, timeout).  The session was asked
    for the update interval -1073741825; the iteration waits 10000 ms
    without a message and is not asked to terminate.  Twice the interval is
    -2147483650, so the larger of it and the watchdog timeout is the
    timeout, 10000 ms, and the watchdog has run for exactly that.  The
    source doubles the interval in [int], where the product is
    2147483646: the comparison fails, the iteration falls through to the
    trigger branch, sends an incremental request, clears the trigger flag
    and does not restart the watchdog.  No full request is sent. *)
Theorem watchdog_overflow_skips_full_update :
  let k := overflowingSample in
  let k' := fst (pumpIteration silentInput k) in
  m_framebufferUpdateInterval k = -1073741825
  /\ isControlFlagSet TerminateThread k = false
  /\ waitResult silentInput = 0
  /\ Z.max (2 * m_framebufferUpdateInterval k)
           (m_framebufferUpdateWatchdogTimeout (tunables k)) = 10000
  /\ clock k + Z.of_N (waitTime silentInput) - m_framebufferUpdateWatchdog k
     = 10000
  /\ wrapInt (2 * m_framebufferUpdateInterval k) = 2147483646
  /\ filter isUpdateRequest (effectsSince k k')
     = [SendIncrementalFramebufferUpdateRequest]
  /\ isControlFlagSet TriggerFramebufferUpdate k = true
  /\ isControlFlagSet TriggerFramebufferUpdate k' = false
  /\ m_framebufferUpdateWatchdog k' = m_framebufferUpdateWatchdog k.
Proof.
  intros k k'. subst k k'.
  split; [reflexivity|]. split; [reflexivity|]. split; [reflexivity|].
  repeat split; vm_compute; reflexivity.
Qed.

(** ** Failure classification *)

Lemma m_controlFlags_onClient (f : rfbClient -> rfbClient)
      (k : VncConnection) :
  m_controlFlags (onClient f k) = m_controlFlags k.
Proof. unfold onClient. destruct (m_client k); destruct k; reflexivity. Qed.

Lemma m_controlFlags_initFrameBuffer (heap : nat -> Z) (k : VncConnection) :
  m_controlFlags (fst (initFrameBuffer heap k)) = m_controlFlags k.
Proof.
  unfold initFrameBuffer. destruct (m_client k) as [c|]; [|reflexivity].
  destruct (negb _); [reflexivity|]. cbn [fst].
  unfold updateEncodingSettingsFromQuality. destruct k; reflexivity.
Qed.

Lemma m_controlFlags_emit (s : Signal) (k : VncConnection) :
  m_controlFlags (emit s k) = m_controlFlags k.
Proof. destruct k; reflexivity. Qed.

Lemma m_controlFlags_advance (dt : N) (k : VncConnection) :
  m_controlFlags (advance dt k) = m_controlFlags k.
Proof. destruct k; reflexivity. Qed.

Lemma isControlFlagSet_ext (f : ControlFlag) (k k' : VncConnection) :
  m_controlFlags k' = m_controlFlags k ->
  isControlFlagSet f k' = isControlFlagSet f k.
Proof. intros H. unfold isControlFlagSet. now rewrite H. Qed.

(** A step of the codec sets ServerReachable when it is the notice that
    the server answered; a finished update marks the scaled image; no other
    flag changes. *)
Lemma isControlFlagSet_codecStep (f : ControlFlag) (a : CodecAction)
      (k : VncConnection) :
  f <> ScaledFramebufferNeedsUpdate ->
  isControlFlagSet f (codecStep a k)
  = (isServerReachableNotice a && ControlFlag_eqb f ServerReachable
     || isControlFlagSet f k)%bool.
Proof.
  intros Hf.
  destruct a; cbn [codecStep isServerReachableNotice andb orb];
    try (apply isControlFlagSet_ext; apply m_controlFlags_onClient).
  - apply isControlFlagSet_ext. unfold hookInitFrameBuffer.
    destruct (_ && _)%bool; [apply m_controlFlags_initFrameBuffer|].
    reflexivity.
  - unfold hookUpdateFB. destruct (clientData _); [|reflexivity].
    apply isControlFlagSet_ext, m_controlFlags_emit.
  - unfold hookFinishFrameBufferUpdate.
    destruct (clientData _); [|reflexivity].
    unfold finishFrameBufferUpdate, emit.
    rewrite isControlFlagSet_record, isControlFlagSet_setControlFlag.
    rewrite (ControlFlag_eqb_neq _ _ Hf).
    apply isControlFlagSet_ext. destruct k; reflexivity.
  - unfold hookHandleCursorPos. cbn [fst].
    destruct (clientData _); [|reflexivity].
    apply isControlFlagSet_ext, m_controlFlags_emit.
  - destruct (m_client k); [|reflexivity].
    unfold hookCursorShape. destruct (negb _); [reflexivity|].
    destruct (clientData _); [|reflexivity].
    apply isControlFlagSet_ext, m_controlFlags_emit.
  - unfold hookCutText. destruct (_ && _)%bool; [|reflexivity].
    apply isControlFlagSet_ext, m_controlFlags_emit.
  - unfold setServerReachable. rewrite isControlFlagSet_setControlFlag.
    now destruct (ControlFlag_eqb f ServerReachable).
Qed.

Lemma isControlFlagSet_runCodec (f : ControlFlag) (acts : list CodecAction)
      (k : VncConnection) :
  f <> ScaledFramebufferNeedsUpdate ->
  isControlFlagSet f (runCodec acts k)
  = (existsb isServerReachableNotice acts && ControlFlag_eqb f ServerReachable
     || isControlFlagSet f k)%bool.
Proof.
  intros Hf. unfold runCodec. revert k.
  induction acts as [|a acts IH]; intros k; cbn [fold_left existsb];
    [reflexivity|].
  rewrite IH, (isControlFlagSet_codecStep f a k Hf).
  destruct (isServerReachableNotice a), (existsb _ acts),
    (ControlFlag_eqb f ServerReachable), (isControlFlagSet f k); reflexivity.
Qed.

(** The flags when [rfbInitClient] has returned: ServerReachable tells
    whether the notice came during this attempt, the flags other than the
    scaled-image mark are those from before the attempt. *)
Lemma isControlFlagSet_attemptInit (f : ControlFlag) (a : ConnectAttempt)
      (k : VncConnection) :
  f <> ScaledFramebufferNeedsUpdate ->
  isControlFlagSet f (attemptInit a k)
  = if ControlFlag_eqb f ServerReachable
    then existsb isServerReachableNotice (initActions a)
    else isControlFlagSet f k.
Proof.
  intros Hf. unfold attemptInit.
  set (k3 := onClient _ _).
  assert (H3 : m_controlFlags k3 = m_controlFlags k).
  { subst k3. rewrite m_controlFlags_onClient, m_controlFlags_emit.
    unfold setClientData. destruct k; reflexivity. }
  set (k5 := advance _ _).
  assert (H5 : isControlFlagSet f k5
               = if ControlFlag_eqb f ServerReachable
                 then existsb isServerReachableNotice (initActions a)
                 else isControlFlagSet f k).
  { subst k5.
    rewrite (isControlFlagSet_ext f _ _ (m_controlFlags_advance _ _)).
    rewrite isControlFlagSet_runCodec, isControlFlagSet_setControlFlag
      by exact Hf.
    rewrite (isControlFlagSet_ext f k k3 H3).
    destruct (ControlFlag_eqb f ServerReachable);
      [now rewrite andb_true_r, orb_false_r|now rewrite andb_false_r]. }
  destruct (clientInitialized a); [exact H5|].
  rewrite <- H5. apply isControlFlagSet_ext. destruct k5; reflexivity.
Qed.

Lemma m_state_setState (s : State) (k : VncConnection) :
  m_state (setState s k) = s.
Proof.
  unfold setState. destruct (State_eqb (m_state k) s); destruct k; reflexivity.
Qed.

Lemma m_state_wait (dt : N) (ms : Z) (k : VncConnection) :
  m_state (advance dt (record (SleeperWait ms) k)) = m_state k.
Proof. destruct k; reflexivity. Qed.

(** C7.  An attempt in which the thread is not asked to terminate and
    [rfbInitClient] fails ends in a failure state chosen in this order:
    HostOffline when the ServerReachable flag was not set during the
    attempt and either SkipHostPing is set or the ping fails;
    ServerNotRunning when the flag was not set otherwise;
    AuthenticationFailed when the framebuffer state is still Invalid;
    ConnectionFailed in every other case.  The flag is set exactly when
    the notice that the server answered came while the client was
    initialised.  The loop then goes on to wait and retry. *)
Theorem failure_classification (a : ConnectAttempt) (k : VncConnection) :
  clientInitialized a = false ->
  isControlFlagSet TerminateThread k = false ->
  let reachable := isControlFlagSet ServerReachable (attemptInit a k) in
  let k' := fst (connectAttempt a k) in
  reachable = existsb isServerReachableNotice (initActions a)
  /\ snd (connectAttempt a k) = true
  /\ m_state k'
     = (if (negb reachable
            && (isControlFlagSet SkipHostPing k || negb (pingResult a)))%bool
        then HostOffline
        else if negb reachable then ServerNotRunning
        else if FramebufferState_eqb
                  (m_framebufferState (attemptInit a k)) Invalid
        then AuthenticationFailed
        else ConnectionFailed).
Proof.
  intros Hinit Hterm reachable k'. subst reachable k'.
  assert (Ht : isControlFlagSet TerminateThread (attemptInit a k) = false).
  { rewrite isControlFlagSet_attemptInit by discriminate. exact Hterm. }
  assert (Hs : isControlFlagSet SkipHostPing (attemptInit a k)
               = isControlFlagSet SkipHostPing k).
  { now rewrite isControlFlagSet_attemptInit by discriminate. }
  split.
  - now rewrite isControlFlagSet_attemptInit by discriminate.
  - unfold connectAttempt. rewrite Ht, Hinit, Hs.
    split; [reflexivity|]. cbn [fst]. rewrite m_state_wait.
    destruct (isControlFlagSet ServerReachable (attemptInit a k));
      cbn [negb andb].
    + destruct (FramebufferState_eqb _ Invalid); apply m_state_setState.
    + destruct (isControlFlagSet SkipHostPing k || negb (pingResult a))%bool;
        apply m_state_setState.
Qed.

Lemma failure_classification_witness :
  m_state (fst (connectAttempt (failedAttempt [] true) sampleConnection))
  = ServerNotRunning
  /\ m_state (fst (connectAttempt (failedAttempt [] false) sampleConnection))
     = HostOffline
  /\ m_state (fst (connectAttempt (failedAttempt [ServerReachableNotice] true)
                                  sampleConnection))
     = AuthenticationFailed
  /\ m_state (fst (connectAttempt
                     (failedAttempt
                        [ServerReachableNotice; CodecSetBitsPerPixel 32;
                         MallocFrameBuffer sampleHeap] true)
                     sampleConnection))
     = ConnectionFailed.
Proof.
  split; [|split; [|split]].
  - apply (failure_classification (failedAttempt [] true) sampleConnection
                                  eq_refl eq_refl).
  - apply (failure_classification (failedAttempt [] false) sampleConnection
                                  eq_refl eq_refl).
  - apply (failure_classification
             (failedAttempt [ServerReachableNotice] true) sampleConnection
             eq_refl eq_refl).
  - apply (failure_classification
             (failedAttempt [ServerReachableNotice; CodecSetBitsPerPixel 32;
                             MallocFrameBuffer sampleHeap] true)
             sampleConnection eq_refl eq_refl).
Defined.

(** * Further properties *)

(** ** The host parser on whole classes of input *)

Section WithoutCharacter.

Variable c : ascii.

Lemma mentions_cons (x : ascii) (s : list ascii) :
  mentions c (x :: s) = false -> Ascii.eqb x c = false /\ mentions c s = false.
Proof.
  unfold mentions. cbn [existsb]. intros H.
  apply orb_false_iff in H. destruct H as [H1 H2].
  rewrite Ascii.eqb_sym. auto.
Qed.

Lemma rep_failsWithout (a : Regex.atom) (g : bool) (k : Regex.cont) :
  failsWithout c k ->
  forall s lo hi pos cs,
    mentions c s = false -> Regex.rep a lo hi g pos s cs k = None.
Proof.
  intros Hk. induction s as [|x s IH]; intros lo hi pos cs Hs.
  - cbn [Regex.rep]. rewrite (Hk pos [] cs Hs).
    destruct lo, hi as [[|n]|], g; reflexivity.
  - destruct (mentions_cons x s Hs) as [_ Hs'].
    cbn [Regex.rep]. rewrite (Hk pos (x :: s) cs Hs).
    rewrite (IH (Nat.pred lo) (option_map Nat.pred hi) (S pos) cs Hs').
    destruct lo, hi as [[|n]|], g, (Regex.amatch a x); reflexivity.
Qed.

Lemma rmatch_failsWithout (r : Regex.regex) :
  forall k, failsWithout c k ->
  forall pos s cs, mentions c s = false -> Regex.rmatch r pos s cs k = None.
Proof.
  induction r as [| |a|r1 IH1 r2 IH2|a lo hi g|n r1 IH1];
    intros k Hk pos s cs Hs; cbn [Regex.rmatch].
  - destruct (Nat.eqb pos 0); [now apply Hk|reflexivity].
  - destruct (Regex.at_end s); [now apply Hk|reflexivity].
  - destruct s as [|x s]; [reflexivity|].
    destruct (mentions_cons x s Hs) as [_ Hs'].
    destruct (Regex.amatch a x); [now apply Hk|reflexivity].
  - apply IH1; [|exact Hs].
    intros p' s' cs' Hs'. now apply IH2.
  - now apply rep_failsWithout.
  - apply IH1; [|exact Hs].
    intros p' s' cs' Hs'. now apply Hk.
Qed.

(** A pattern that requires [c] matches no input free of [c], whatever
    follows the pattern. *)
Lemma rmatch_requiresChar (r : Regex.regex) :
  requiresChar c r = true ->
  forall k pos s cs,
    mentions c s = false -> Regex.rmatch r pos s cs k = None.
Proof.
  induction r as [| |a|r1 IH1 r2 IH2|a lo hi g|n r1 IH1];
    cbn [requiresChar]; intros Hr k pos s cs Hs; try discriminate.
  - destruct a; try discriminate. cbn [Regex.rmatch].
    destruct s as [|x s]; [reflexivity|].
    destruct (mentions_cons x s Hs) as [Hx _].
    apply Ascii.eqb_eq in Hr. subst c0.
    cbn [Regex.amatch]. now rewrite Hx.
  - cbn [Regex.rmatch]. apply orb_true_iff in Hr. destruct Hr as [Hr|Hr].
    + now apply IH1.
    + apply rmatch_failsWithout; [|exact Hs].
      intros p' s' cs' Hs'. now apply IH2.
  - destruct a; try discriminate. destruct lo as [|lo]; [discriminate|].
    apply Ascii.eqb_eq in Hr. subst c0.
    cbn [Regex.rmatch]. destruct s as [|x s]; cbn [Regex.rep].
    + now destruct hi as [[|n]|].
    + destruct (mentions_cons x s Hs) as [Hx _].
      cbn [Regex.amatch]. rewrite Hx. now destruct hi as [[|n]|].
  - cbn [Regex.rmatch]. now apply IH1.
Qed.

Lemma search_requiresChar (r : Regex.regex) :
  requiresChar c r = true ->
  forall s pos, mentions c s = false -> Regex.search r pos s = None.
Proof.
  intros Hr. induction s as [|x s IH]; intros pos Hs; cbn [Regex.search];
    rewrite (rmatch_requiresChar r Hr) by exact Hs; [reflexivity|].
  destruct (mentions_cons x s Hs) as [_ Hs']. now apply IH.
Qed.

End WithoutCharacter.

Lemma firstMatch_requiresChar (c : ascii) (rs : list Regex.regex)
      (subject : string) :
  forallb (requiresChar c) rs = true ->
  mentions c (list_ascii_of_string subject) = false ->
  firstMatch rs subject = None.
Proof.
  induction rs as [|r rs IH]; cbn [forallb firstMatch]; intros Hr Hs;
    [reflexivity|].
  apply andb_true_iff in Hr. destruct Hr as [Hr Hrs].
  unfold Regex.qmatch. rewrite (search_requiresChar c r Hr) by exact Hs.
  now apply IH.
Qed.

(** X1.  A host string without a colon matches none of the six patterns:
    [setHost] stores it as it is and leaves the port and every other member
    alone. *)
Theorem setHost_without_colon (host : string) (k : VncConnection) :
  mentions colon (list_ascii_of_string host) = false ->
  setHost host k = set_m_host host k
  /\ m_host (setHost host k) = host
  /\ m_port (setHost host k) = m_port k.
Proof.
  intros Hs.
  assert (Hh : m_host (set_m_host host k) = host) by (destruct k; reflexivity).
  assert (E : setHost host k = set_m_host host k).
  { unfold setHost. rewrite Hh.
    rewrite (firstMatch_requiresChar colon HostPatterns.all host);
      [reflexivity|reflexivity|exact Hs]. }
  rewrite E. split; [reflexivity|]. split; [exact Hh|].
  destruct k; reflexivity.
Qed.

Lemma setHost_without_colon_witness :
  setHost "pc-17.classroom.example" sampleConnection
  = set_m_host "pc-17.classroom.example" sampleConnection.
Proof.
  apply (setHost_without_colon "pc-17.classroom.example" sampleConnection).
  reflexivity.
Defined.

Lemma search_anchored_later (r : Regex.regex) (s : list ascii) (p : nat) :
  Regex.search (Regex.Cat Regex.Bol r) (S p) s = None.
Proof.
  revert p. induction s as [|x s IH]; intros p; cbn; [reflexivity|apply IH].
Qed.

(** A pattern anchored with [^] is tried at the start of the subject
    only. *)
Lemma search_anchored (r : Regex.regex) (s : list ascii) :
  Regex.search (Regex.Cat Regex.Bol r) 0 s
  = Regex.rmatch r 0 s [] (fun _ _ cs => Some cs).
Proof.
  destruct s as [|x s]; cbn [Regex.search Regex.rmatch Nat.eqb].
  - now destruct (Regex.rmatch r 0 [] [] _).
  - rewrite search_anchored_later.
    now destruct (Regex.rmatch r 0 (x :: s) [] _).
Qed.

Lemma rmatch_first_char (ch : ascii) (r : Regex.regex) (s : list ascii)
      (pos : nat) (cs : Regex.captures) (k : Regex.cont) :
  startsWith ch s = false ->
  Regex.rmatch (Regex.Cat (Regex.lit ch) r) pos s cs k = None.
Proof.
  intros H. cbn [Regex.rmatch Regex.lit].
  destruct s as [|x s]; [reflexivity|].
  cbn [startsWith] in H. cbn [Regex.amatch]. now rewrite H.
Qed.

Lemma in_range_single (x ch : ascii) :
  Regex.in_range x (ch, ch) = Ascii.eqb x ch.
Proof.
  unfold Regex.in_range. cbn [fst snd].
  destruct (Ascii.eqb_spec x ch) as [E|E].
  - subst. now rewrite Nat.leb_refl.
  - apply andb_false_iff.
    destruct (Nat.leb_spec (nat_of_ascii ch) (nat_of_ascii x)) as [H1|H1];
      [|now left].
    destruct (Nat.leb_spec (nat_of_ascii x) (nat_of_ascii ch)) as [H2|H2];
      [|now right].
    exfalso. apply E.
    rewrite <- (ascii_nat_embedding x), <- (ascii_nat_embedding ch).
    f_equal. lia.
Qed.

(** The lazy run of hexadecimal digits and colons of the fifth pattern
    cannot get past a character that is neither, when no colon comes
    before it. *)
Lemma lazy_hex_blocked (k : Regex.cont) :
  (forall p s cs, startsWith colon s = false -> k p s cs = None) ->
  forall hs rest lo pos cs,
    mentions colon hs = false -> hasNonHex hs = true ->
    Regex.rep HostPatterns.hexColon lo None false pos (hs ++ rest) cs k
    = None.
Proof.
  intros Hk. induction hs as [|x hs IH]; intros rest lo pos cs Hc Hn;
    [discriminate|].
  destruct (mentions_cons colon x hs Hc) as [Hx Hc'].
  assert (Hkx : k pos ((x :: hs) ++ rest) cs = None)
    by (apply Hk; exact Hx).
  cbn [app] in *. cbn [Regex.rep option_map]. rewrite Hkx.
  unfold hasNonHex in Hn. cbn [existsb] in Hn.
  destruct (Regex.amatch HostPatterns.hexColon x) eqn:Ea.
  - cbn [negb orb] in Hn.
    rewrite (IH rest (Nat.pred lo) (S pos) cs Hc' Hn).
    now destruct lo.
  - now destruct lo.
Qed.

(** A greedy run takes all the characters it accepts when the pattern
    can go on from there. *)
Lemma rep_greedy_run (a : Regex.atom) (k : Regex.cont) (res : Regex.captures)
      (rest : list ascii) (cs : Regex.captures) :
  match rest with
  | [] => true
  | y :: _ => negb (Regex.amatch a y)
  end = true ->
  forall taken lo pos,
    forallb (Regex.amatch a) taken = true ->
    (lo <= List.length taken)%nat ->
    k (pos + List.length taken)%nat rest cs = Some res ->
    Regex.rep a lo None true pos (taken ++ rest) cs k = Some res.
Proof.
  intros Hrest. induction taken as [|x taken IH]; intros lo pos Hall Hlo Hk.
  - cbn [List.length] in *. rewrite Nat.add_0_r in Hk.
    assert (lo = 0%nat) by lia. subst lo. cbn [app].
    destruct rest as [|y rest]; cbn [Regex.rep]; [now rewrite Hk|].
    apply negb_true_iff in Hrest. now rewrite Hrest, Hk.
  - cbn [forallb] in Hall. apply andb_true_iff in Hall.
    destruct Hall as [Hx Hall]. cbn [List.length] in *.
    cbn [app Regex.rep option_map]. rewrite Hx.
    rewrite (IH (Nat.pred lo) (S pos) Hall) by (try lia;
      now rewrite Nat.add_succ_comm).
    now destruct lo.
Qed.

Lemma firstn_exact (A : Type) (l r : list A) :
  firstn (List.length l) (l ++ r) = l.
Proof.
  induction l as [|x l IH]; cbn; [now destruct r|now rewrite IH].
Qed.

Lemma list_ascii_of_string_append (a b : string) :
  list_ascii_of_string (a ++ b)%string
  = list_ascii_of_string a ++ list_ascii_of_string b.
Proof. induction a as [|x a IH]; cbn; [reflexivity|now rewrite IH]. Qed.

Lemma startsWith_app (ch : ascii) (s rest : list ascii) :
  s <> [] -> startsWith ch (s ++ rest) = startsWith ch s.
Proof. destruct s; [congruence|reflexivity]. Qed.

Lemma hasNonHex_nonempty (s : list ascii) : hasNonHex s = true -> s <> [].
Proof. destruct s; [discriminate|discriminate]. Qed.

Lemma notColon_run (s : list ascii) :
  mentions colon s = false ->
  forallb (Regex.amatch HostPatterns.notColon) s = true.
Proof.
  induction s as [|x s IH]; intros H; [reflexivity|].
  destruct (mentions_cons colon x s H) as [Hx Hs].
  cbn [forallb]. rewrite (IH Hs), andb_true_r.
  unfold HostPatterns.notColon. cbn [Regex.amatch existsb].
  rewrite in_range_single. fold colon. now rewrite Hx.
Qed.

(** The six patterns on a subject [host:digits] whose host part has no
    colon, does not begin with a bracket, and has a character that is not
    a hexadecimal digit: the first five fail, the last one captures the two
    parts. *)
Lemma firstMatch_host_port (subject : string) (hs ds : list ascii) :
  list_ascii_of_string subject = hs ++ colon :: ds ->
  mentions colon hs = false ->
  startsWith "["%char hs = false ->
  hasNonHex hs = true ->
  ds <> [] -> allDigits ds = true ->
  firstMatch HostPatterns.all subject = Some [(2%nat, ds); (1%nat, hs)].
Proof.
  intros Hsub Hc Hb Hn Hd Hdig.
  pose proof (hasNonHex_nonempty hs Hn) as Hne.
  assert (Hs1 : startsWith colon (hs ++ colon :: ds) = false).
  { rewrite startsWith_app by exact Hne.
    destruct hs as [|x hs]; [reflexivity|].
    now destruct (mentions_cons colon x hs Hc). }
  assert (Hs2 : startsWith "["%char (hs ++ colon :: ds) = false)
    by now rewrite startsWith_app.
  unfold HostPatterns.all. cbn [firstMatch]. unfold Regex.qmatch.
  rewrite Hsub.
  (* the three patterns of mapped addresses and the bracketed one *)
  unfold HostPatterns.mappedV4, HostPatterns.mappedV4Port,
    HostPatterns.bracketedMappedV4Port, HostPatterns.bracketedV6Port,
    HostPatterns.irregularV6Port, HostPatterns.hostPort,
    HostPatterns.mappedPrefix.
  cbn [Regex.cat_all app].
  rewrite !search_anchored.
  rewrite !(rmatch_first_char colon) by exact Hs1.
  rewrite !(rmatch_first_char "["%char) by exact Hs2.
  (* the irregular IPv6 pattern *)
  unfold Regex.plus, Regex.lit. cbn [Regex.rmatch].
  rewrite lazy_hex_blocked; [|intros p s cs H|exact Hc|exact Hn].
  2:{ destruct s as [|x s]; [reflexivity|].
      cbn [startsWith] in H. cbn [Regex.amatch]. fold colon.
      now rewrite H. }
  (* host and port *)
  erewrite rep_greedy_run;
    [reflexivity|reflexivity|now apply notColon_run|
     destruct hs; [congruence|cbn; lia]|].
  cbn [Nat.add]. rewrite Nat.sub_0_r, firstn_exact.
  cbn [Regex.amatch]. fold colon. rewrite Ascii.eqb_refl.
  rewrite <- (app_nil_r ds) at 1.
  erewrite rep_greedy_run;
    [reflexivity|reflexivity|exact Hdig|
     destruct ds; [congruence|cbn; lia]|].
  cbn [Regex.at_end].
  replace (S (List.length hs) + List.length ds - S (List.length hs))%nat
    with (List.length ds) by lia.
  now rewrite firstn_all.
Qed.

Lemma isEmptyString_list (s : string) :
  list_ascii_of_string s <> [] -> isEmptyString s = false.
Proof. destruct s; intros H; [now elim H|reflexivity]. Qed.

(** X2.  For an input [host:digits] whose host part has no colon, does not
    begin with "[" and contains a character that is not a hexadecimal
    digit (a dotted IPv4 address, a usual host name), and whose port part
    is a non-empty run of decimal digits: [setHost] stores the host part,
    and stores the number as the port when it is positive and fits an
    [int]; otherwise the port keeps its value.  Nothing else changes. *)
Theorem setHost_host_port (h d : string) (k : VncConnection) :
  mentions colon (list_ascii_of_string h) = false ->
  startsWith "["%char (list_ascii_of_string h) = false ->
  hasNonHex (list_ascii_of_string h) = true ->
  list_ascii_of_string d <> [] ->
  allDigits (list_ascii_of_string d) = true ->
  setHost (h ++ ":" ++ d)%string k
  = if 0 <? toInt d
    then set_m_port (toInt d) (set_m_host h k)
    else set_m_host h k.
Proof.
  intros Hc Hb Hn Hd Hdig.
  assert (Hsub : list_ascii_of_string (h ++ ":" ++ d)%string
                 = list_ascii_of_string h ++ colon :: list_ascii_of_string d).
  { now rewrite !list_ascii_of_string_append. }
  pose proof (firstMatch_host_port _ _ _ Hsub Hc Hb Hn Hd Hdig) as Hm.
  unfold setHost.
  replace (m_host (set_m_host (h ++ ":" ++ d)%string k))
    with (h ++ ":" ++ d)%string by (destruct k; reflexivity).
  rewrite Hm. unfold Regex.captured. cbn [Regex.lookup_cap Nat.eqb].
  rewrite !string_of_list_ascii_of_string.
  rewrite (isEmptyString_list h (hasNonHex_nonempty _ Hn)).
  destruct (0 <? toInt d); destruct k; reflexivity.
Qed.

Lemma setHost_host_port_witness :
  setHost "192.168.10.21:11100" sampleConnection
  = set_m_port 11100 (set_m_host "192.168.10.21" sampleConnection)
  /\ m_port (setHost "teacher-pc:99999999999" sampleConnection) = -1.
Proof.
  split.
  - apply (setHost_host_port "192.168.10.21" "11100" sampleConnection);
      reflexivity || discriminate.
  - change "teacher-pc:99999999999"
      with ("teacher-pc" ++ ":" ++ "99999999999")%string.
    rewrite (setHost_host_port "teacher-pc" "99999999999" sampleConnection);
      reflexivity || discriminate.
Defined.

Lemma digits_value_lower (s : list ascii) (acc : Z) (v : Z) :
  0 <= acc -> digits_value acc s = Some v -> 0 <= v.
Proof.
  revert acc. induction s as [|x s IH]; intros acc Ha H;
    cbn [digits_value] in H.
  - now injection H as <-.
  - destruct (Regex.is_digit x) eqn:E; [|discriminate].
    apply (IH (10 * acc + (Z.of_nat (nat_of_ascii x) - 48))); [|exact H].
    unfold Regex.is_digit, Regex.in_range in E. cbn [fst snd] in E.
    apply andb_true_iff in E. destruct E as [E _].
    apply Nat.leb_le in E. change (nat_of_ascii "0") with 48%nat in E.
    lia.
Qed.

Lemma toInt_range (s : string) : 0 <= toInt s <= INT_MAX.
Proof.
  unfold toInt. destruct (list_ascii_of_string s) as [|x l];
    [unfold INT_MAX; lia|].
  destruct (digits_value 0 (x :: l)) as [v|] eqn:E;
    [|unfold INT_MAX; lia].
  destruct (Z.leb_spec v INT_MAX); [|unfold INT_MAX; lia].
  split; [|assumption].
  now apply (digits_value_lower (x :: l) 0 v).
Qed.

(** X3.  The two writers of the port never store a value that is not a
    port: after [setHost] the port is the old one or a number between 1
    and [INT_MAX], after [setPort] it is the old one or a number that is
    not negative.  So a port that is not negative stays so: once set, the
    default port cannot be selected again. *)
Theorem port_never_reverts (host : string) (p : Z) (k : VncConnection) :
  (m_port (setHost host k) = m_port k
   \/ 0 < m_port (setHost host k) <= INT_MAX)
  /\ (m_port (setPort p k) = m_port k
      \/ (0 <= p /\ m_port (setPort p k) = p))
  /\ (0 <= m_port k ->
      0 <= m_port (setHost host k) /\ 0 <= m_port (setPort p k)).
Proof.
  assert (H1 : m_port (setHost host k) = m_port k
               \/ 0 < m_port (setHost host k) <= INT_MAX).
  { unfold setHost. destruct (firstMatch _ _) as [m|];
      [|left; destruct k; reflexivity].
    pose proof (toInt_range (Regex.captured m 2)) as Hr.
    destruct (Z.ltb_spec 0 (toInt (Regex.captured m 2))) as [Hp|Hp].
    - right.
      replace (m_port (set_m_port _ _)) with (toInt (Regex.captured m 2));
        [lia|].
      destruct (isEmptyString _); destruct k; reflexivity.
    - left. destruct (isEmptyString _); destruct k; reflexivity. }
  assert (H2 : m_port (setPort p k) = m_port k
               \/ (0 <= p /\ m_port (setPort p k) = p)).
  { unfold setPort. destruct (Z.leb_spec 0 p) as [Hp|Hp]; [|now left].
    right. split; [exact Hp|]. destruct k; reflexivity. }
  split; [exact H1|]. split; [exact H2|].
  intros Hk. split.
  - destruct H1 as [E|E]; lia.
  - destruct H2 as [E|[Hp E]]; lia.
Qed.

Lemma port_never_reverts_witness :
  0 <= m_port (setHost "lab-3:0" (setPort 5900 sampleConnection))
  /\ 0 <= m_port (setPort (-1) (setPort 5900 sampleConnection)).
Proof.
  apply (port_never_reverts "lab-3:0" (-1) (setPort 5900 sampleConnection)).
  vm_compute. discriminate.
Defined.

(** ** The event queue *)

Lemma drainQueue_all (q : list VncEvent) :
  forall a b c d e f g h i j l m n o p r s,
    drainQueue q (mkConn a b c d e f g h i j l m n o q p r s)
    = mkConn a b c d e f g h i j l m n o [] p r
             (s ++ if negb (Z.land c (flagValue TerminateThread) =? 0)
                   then [] else map Fire q).
Proof.
  induction q as [|ev q IH]; intros; cbn [drainQueue].
  - destruct (negb _); now rewrite app_nil_r.
  - cbn [set_m_eventQueue]. unfold isControlFlagSet.
    cbn [m_controlFlags record set_trace trace].
    destruct (negb (Z.land c (flagValue TerminateThread) =? 0)) eqn:E.
    + rewrite IH, E. reflexivity.
    + rewrite IH, E. cbn [map]. now rewrite <- app_assoc.
Qed.

(** X4.  [sendEvents] empties the queue.  While the thread is not asked to
    terminate it fires every queued event once, oldest first; once it is,
    the events are dropped unsent.  No other member changes. *)
Theorem sendEvents_drains (k : VncConnection) :
  sendEvents k
  = set_trace (trace k ++ if isControlFlagSet TerminateThread k
                          then [] else map Fire (m_eventQueue k))
              (set_m_eventQueue [] k).
Proof.
  unfold sendEvents. destruct k. cbn [m_eventQueue].
  rewrite drainQueue_all. reflexivity.
Qed.

(** ** The scaled image over time *)

(** X5.  [rescaleFramebuffer] is idempotent: a second call changes
    nothing, so [scaledFramebuffer()] called twice in a row returns the
    same image and rescales at most once. *)
Theorem rescaleFramebuffer_idempotent (k : VncConnection) :
  rescaleFramebuffer (rescaleFramebuffer k) = rescaleFramebuffer k
  /\ snd (scaledFramebuffer (fst (scaledFramebuffer k)))
     = snd (scaledFramebuffer k).
Proof.
  assert (H : rescaleFramebuffer (rescaleFramebuffer k)
              = rescaleFramebuffer k).
  { destruct (rescaleFramebuffer_cases k) as [Hnull Hlive].
    destruct (hasValidFramebuffer k) eqn:Ev.
    - destruct (QSize_isNull (m_scaledSize k)) eqn:En.
      + rewrite Hnull by now right.
        destruct (rescaleFramebuffer_cases
                    (set_m_scaledFramebuffer ImgNull k)) as [Hnull' _].
        rewrite Hnull' by (right; destruct k; exact En).
        destruct k; reflexivity.
      + destruct (Hlive eq_refl eq_refl) as [Hclean Hdirty].
        destruct (isControlFlagSet ScaledFramebufferNeedsUpdate k) eqn:Ed.
        * destruct (Hdirty eq_refl) as (Hk & _ & Hd' & _).
          destruct (rescaleFramebuffer_cases (rescaleFramebuffer k))
            as [_ Hlive'].
          apply Hlive'; [| |exact Hd']; rewrite Hk;
            destruct k; assumption.
        * rewrite (Hclean eq_refl). exact (Hclean eq_refl).
    - rewrite Hnull by now left.
      destruct (rescaleFramebuffer_cases
                  (set_m_scaledFramebuffer ImgNull k)) as [Hnull' _].
      rewrite Hnull' by (left; destruct k; exact Ev).
      destruct k; reflexivity. }
  split; [exact H|]. unfold scaledFramebuffer. cbn [fst snd]. now rewrite H.
Qed.

(** X6.  After a completed framebuffer update the next call of
    [scaledFramebuffer()] does not return what was stored before.  For a
    null target size it returns the null image and the request for
    recomputation stays set; for any other target size it returns the
    rescaling of the current pixel image to the target size and clears the
    request for recomputation. *)
Theorem scaledFramebuffer_after_update (k : VncConnection) :
  let r := scaledFramebuffer (finishFrameBufferUpdate k) in
  snd r = (if QSize_isNull (m_scaledSize k) then ImgNull
           else QImage_scaled (m_image k) (m_scaledSize k))
  /\ isControlFlagSet ScaledFramebufferNeedsUpdate (fst r)
     = QSize_isNull (m_scaledSize k).
Proof.
  intros r. subst r. unfold scaledFramebuffer. cbn [fst snd].
  set (k1 := finishFrameBufferUpdate k).
  assert (Hv : hasValidFramebuffer k1 = true) by (destruct k; reflexivity).
  assert (Hs : m_scaledSize k1 = m_scaledSize k) by (destruct k; reflexivity).
  assert (Hi : m_image k1 = m_image k) by (destruct k; reflexivity).
  assert (Hd : isControlFlagSet ScaledFramebufferNeedsUpdate k1 = true).
  { unfold k1, finishFrameBufferUpdate, emit.
    now rewrite isControlFlagSet_record, isControlFlagSet_setControlFlag. }
  destruct (rescaleFramebuffer_cases k1) as [Hnull Hlive].
  rewrite Hs in *.
  destruct (QSize_isNull (m_scaledSize k)) eqn:En.
  - rewrite Hnull by now right. split.
    + destruct k1; reflexivity.
    + rewrite <- Hd. destruct k1; reflexivity.
  - destruct (Hlive Hv eq_refl) as [_ Hdirty].
    destruct (Hdirty Hd) as (_ & Hr & Hc & _).
    rewrite Hi in Hr. split; [exact Hr|exact Hc].
Qed.

Lemma scaledFramebuffer_after_update_witness :
  (QImage_size
     (snd (scaledFramebuffer (finishFrameBufferUpdate viewedSample)))
   = mkQSize 2 2
   /\ isControlFlagSet ScaledFramebufferNeedsUpdate
        (fst (scaledFramebuffer (finishFrameBufferUpdate viewedSample)))
      = false)
  /\ (snd (scaledFramebuffer (finishFrameBufferUpdate unscaledSample))
      = ImgNull
      /\ isControlFlagSet ScaledFramebufferNeedsUpdate
           (fst (scaledFramebuffer (finishFrameBufferUpdate unscaledSample)))
         = true).
Proof.
  destruct (scaledFramebuffer_after_update viewedSample) as [H1 H2].
  destruct (scaledFramebuffer_after_update unscaledSample) as [H3 H4].
  split; split.
  - now rewrite H1.
  - exact H2.
  - exact H3.
  - exact H4.
Defined.

(** X7.  When the framebuffer is allocated anew (first contact, or a new
    size announced by the server) the scaled image is withheld: until the
    next completed update [scaledFramebuffer()] returns the null image,
    whatever was stored and whatever size is configured. *)
Theorem scaledFramebuffer_after_init (heap : nat -> Z) (k : VncConnection) :
  snd (initFrameBuffer heap k) = true ->
  hasValidFramebuffer (fst (initFrameBuffer heap k)) = false
  /\ snd (scaledFramebuffer (fst (initFrameBuffer heap k))) = ImgNull.
Proof.
  intros Hok.
  pose proof (hasValidFramebuffer_initFrameBuffer heap k Hok) as Hv.
  split; [exact Hv|].
  unfold scaledFramebuffer. cbn [snd].
  destruct (rescaleFramebuffer_cases (fst (initFrameBuffer heap k)))
    as [Hnull _].
  rewrite Hnull by now left.
  destruct (fst (initFrameBuffer heap k)); reflexivity.
Qed.

Lemma scaledFramebuffer_after_init_witness :
  snd (scaledFramebuffer
         (fst (initFrameBuffer sampleHeap
                 (setScaledSize (mkQSize 2 2) streamingSample))))
  = ImgNull.
Proof.
  apply (scaledFramebuffer_after_init
           sampleHeap (setScaledSize (mkQSize 2 2) streamingSample)).
  reflexivity.
Defined.

(** ** What the driver and the codec leave alone *)

Ltac by_fields :=
  match goal with
  | |- context [?f ?k] =>
    is_var k;
    match type of k with VncConnection => destruct k end
  end; repeat split; reflexivity.

Lemma static_record (e : Effect) (k : VncConnection) :
  m_state (record e k) = m_state k
  /\ settingsView (record e k) = settingsView k.
Proof. by_fields. Qed.

Lemma static_advance (dt : N) (k : VncConnection) :
  m_state (advance dt k) = m_state k
  /\ settingsView (advance dt k) = settingsView k.
Proof. by_fields. Qed.

Lemma static_set_m_client (c : option rfbClient) (k : VncConnection) :
  m_state (set_m_client c k) = m_state k
  /\ settingsView (set_m_client c k) = settingsView k.
Proof. by_fields. Qed.

Lemma static_setControlFlag (f : ControlFlag) (on : bool)
      (k : VncConnection) :
  m_state (setControlFlag f on k) = m_state k
  /\ settingsView (setControlFlag f on k) = settingsView k.
Proof. destruct on; by_fields. Qed.

Lemma static_onClient (f : rfbClient -> rfbClient) (k : VncConnection) :
  m_state (onClient f k) = m_state k
  /\ settingsView (onClient f k) = settingsView k.
Proof.
  unfold onClient. destruct (m_client k); [apply static_set_m_client|auto].
Qed.

Lemma static_initFrameBuffer (heap : nat -> Z) (k : VncConnection) :
  m_state (fst (initFrameBuffer heap k)) = m_state k
  /\ settingsView (fst (initFrameBuffer heap k)) = settingsView k.
Proof.
  unfold initFrameBuffer. destruct (m_client k) as [c|]; [|auto].
  destruct (negb _); [auto|]. cbn [fst].
  unfold updateEncodingSettingsFromQuality. by_fields.
Qed.

Lemma static_finishFrameBufferUpdate (k : VncConnection) :
  m_state (finishFrameBufferUpdate k) = m_state k
  /\ settingsView (finishFrameBufferUpdate k) = settingsView k.
Proof. by_fields. Qed.

Lemma static_codecStep (a : CodecAction) (k : VncConnection) :
  m_state (codecStep a k) = m_state k
  /\ settingsView (codecStep a k) = settingsView k.
Proof.
  destruct a; cbn [codecStep]; try apply static_onClient.
  - unfold hookInitFrameBuffer.
    destruct (_ && _)%bool; [apply static_initFrameBuffer|auto].
  - unfold hookUpdateFB. destruct (clientData _); [apply static_record|auto].
  - unfold hookFinishFrameBufferUpdate.
    destruct (clientData _); [apply static_finishFrameBufferUpdate|auto].
  - unfold hookHandleCursorPos. cbn [fst].
    destruct (clientData _); [apply static_record|auto].
  - destruct (m_client k); [|auto].
    unfold hookCursorShape. destruct (negb _); [auto|].
    destruct (clientData _); [apply static_record|auto].
  - unfold hookCutText.
    destruct (_ && _)%bool; [apply static_record|auto].
  - apply static_setControlFlag.
Qed.

Lemma static_runCodec (acts : list CodecAction) (k : VncConnection) :
  m_state (runCodec acts k) = m_state k
  /\ settingsView (runCodec acts k) = settingsView k.
Proof.
  unfold runCodec. revert k.
  induction acts as [|a acts IH]; intros k; cbn [fold_left]; [auto|].
  destruct (IH (codecStep a k)) as [H1 H2].
  destruct (static_codecStep a k) as [H3 H4]. split; congruence.
Qed.

Lemma static_attemptInit (a : ConnectAttempt) (k : VncConnection) :
  m_state (attemptInit a k) = m_state k
  /\ settingsView (attemptInit a k) = settingsView k.
Proof.
  unfold attemptInit.
  set (k0 := set_m_client _ k).
  assert (H0 : m_state k0 = m_state k /\ settingsView k0 = settingsView k)
    by apply static_set_m_client.
  set (k1 := setClientData true k0).
  assert (H1 : m_state k1 = m_state k0 /\ settingsView k1 = settingsView k0).
  { unfold k1, setClientData.
    destruct (m_client k0); [apply static_set_m_client|auto]. }
  set (k2 := emit connectionPrepared k1).
  pose proof (static_record (Emit connectionPrepared) k1) as H2.
  fold (emit connectionPrepared k1) in H2. fold k2 in H2.
  set (k3 := onClient _ k2).
  pose proof (static_onClient
                (fun c' => set_serverHost (m_host k2)
                             (set_serverPort
                                (if m_port k2 <? 0 then m_defaultPort k2
                                 else m_port k2) c')) k2) as H3.
  fold k3 in H3.
  pose proof (static_setControlFlag ServerReachable false k3) as H4.
  pose proof (static_runCodec (initActions a)
                (setControlFlag ServerReachable false k3)) as H5.
  pose proof (static_advance (initTime a)
                (runCodec (initActions a)
                   (setControlFlag ServerReachable false k3))) as H6.
  assert (H7 : m_state (advance (initTime a)
                          (runCodec (initActions a)
                             (setControlFlag ServerReachable false k3)))
               = m_state k
               /\ settingsView
                    (advance (initTime a)
                       (runCodec (initActions a)
                          (setControlFlag ServerReachable false k3)))
                  = settingsView k)
    by (split; intuition congruence).
  destruct (clientInitialized a); [exact H7|].
  destruct (static_set_m_client
              None (advance (initTime a)
                      (runCodec (initActions a)
                         (setControlFlag ServerReachable false k3))))
    as [H8 H9].
  split; intuition congruence.
Qed.

Lemma settingsView_setState (s : State) (k : VncConnection) :
  settingsView (setState s k) = settingsView k.
Proof. unfold setState. destruct (State_eqb _ _); by_fields. Qed.

Lemma settingsView_connectAttempt (a : ConnectAttempt) (k : VncConnection) :
  settingsView (fst (connectAttempt a k)) = settingsView k.
Proof.
  destruct (static_attemptInit a k) as [_ H6].
  unfold connectAttempt. set (k6 := attemptInit a k) in *.
  destruct (isControlFlagSet TerminateThread k6); [exact H6|].
  destruct (clientInitialized a); cbn [fst].
  - rewrite settingsView_setState.
    rewrite (proj2 (static_record _ _)). rewrite <- H6.
    unfold restartWatchdog. by_fields.
  - rewrite (proj2 (static_advance _ _)), (proj2 (static_record _ _)).
    rewrite <- H6.
    destruct (negb _);
      [destruct (_ || _)%bool|destruct (FramebufferState_eqb _ _)];
      apply settingsView_setState.
Qed.

Lemma settingsView_establishLoop (attempts : list ConnectAttempt)
      (k : VncConnection) :
  settingsView (establishLoop attempts k) = settingsView k.
Proof.
  revert k. induction attempts as [|a rest IH]; intros k;
    cbn [establishLoop]; [reflexivity|].
  destruct (_ && _)%bool; [|reflexivity].
  pose proof (settingsView_connectAttempt a k) as H.
  destruct (connectAttempt a k) as [k1 again]. cbn [fst] in H.
  destruct again; [now rewrite IH|exact H].
Qed.

Lemma settingsView_closeConnection (k : VncConnection) :
  settingsView (closeConnection k) = settingsView k.
Proof.
  unfold closeConnection. rewrite settingsView_setState.
  destruct (m_client k); [|reflexivity].
  now rewrite (proj2 (static_set_m_client _ _)), (proj2 (static_record _ _)).
Qed.

Lemma settingsView_establishPrologue (k : VncConnection) :
  settingsView (establishPrologue k) = settingsView k.
Proof.
  unfold establishPrologue.
  rewrite <- (settingsView_setState Connecting k).
  rewrite <- (proj2 (static_setControlFlag RestartConnection false
                                           (setState Connecting k))).
  destruct (setControlFlag RestartConnection false (setState Connecting k)).
  reflexivity.
Qed.

(** X8.  Closing a connection and establishing the next one, with
    whatever the codec does meanwhile, changes none of the configured
    settings: quality, host, port, cursor preference, scaled size and
    stored scaled image, update interval and tunables are as before.  The
    same holds for the event queue: events that are still queued when a
    connection ends are kept and go to the next connection. *)
Theorem reconnect_keeps_settings (attempts : list ConnectAttempt)
        (acts : list CodecAction) (k : VncConnection) :
  settingsView (runCodec acts k) = settingsView k
  /\ settingsView (closeConnection k) = settingsView k
  /\ settingsView (establishConnection attempts k) = settingsView k
  /\ m_eventQueue (establishConnection attempts (closeConnection k))
     = m_eventQueue k.
Proof.
  assert (He : forall k0, settingsView (establishConnection attempts k0)
                          = settingsView k0).
  { intros k0. unfold establishConnection.
    now rewrite settingsView_establishLoop, settingsView_establishPrologue. }
  split; [apply static_runCodec|].
  split; [apply settingsView_closeConnection|].
  split; [apply He|].
  pose proof (He (closeConnection k)) as H.
  rewrite settingsView_closeConnection in H.
  unfold settingsView in H. now injection H.
Qed.

(** ** Closing, stopping and restarting *)

Lemma setState_same (s : State) (k : VncConnection) :
  m_state k = s -> setState s k = k.
Proof.
  intros H. unfold setState. rewrite H.
  destruct k; cbn in H; subst. now destruct s.
Qed.

Lemma m_client_setState (s : State) (k : VncConnection) :
  m_client (setState s k) = m_client k.
Proof. unfold setState. destruct (State_eqb _ _); destruct k; reflexivity. Qed.

Lemma closeConnection_released (k : VncConnection) :
  m_client (closeConnection k) = None
  /\ m_state (closeConnection k) = Disconnected.
Proof.
  split; [|apply m_state_setState].
  unfold closeConnection. rewrite m_client_setState.
  destruct (m_client k) eqn:E; [destruct k; reflexivity|exact E].
Qed.

(** X9.  [closeConnection] always ends without a client and in the state
    Disconnected, and closing twice is the same as closing once: the second
    call releases nothing and emits nothing. *)
Theorem closeConnection_idempotent (k : VncConnection) :
  m_client (closeConnection k) = None
  /\ m_state (closeConnection k) = Disconnected
  /\ closeConnection (closeConnection k) = closeConnection k.
Proof.
  destruct (closeConnection_released k) as [Hc Hs].
  split; [exact Hc|]. split; [exact Hs|].
  set (k' := closeConnection k) in *.
  unfold closeConnection at 1. rewrite Hc. now apply setState_same.
Qed.

Lemma m_controlFlags_setState (s : State) (k : VncConnection) :
  m_controlFlags (setState s k) = m_controlFlags k.
Proof. unfold setState. destruct (State_eqb _ _); destruct k; reflexivity. Qed.

Lemma m_controlFlags_enqueueEvent (e : VncEvent) (k : VncConnection) :
  m_controlFlags (enqueueEvent e k) = m_controlFlags k.
Proof. unfold enqueueEvent. destruct (negb _); destruct k; reflexivity. Qed.

Lemma isControlFlagSet_stop (k : VncConnection) :
  isControlFlagSet TerminateThread (stop k) = true.
Proof.
  unfold stop, wakeAll.
  now rewrite isControlFlagSet_record, isControlFlagSet_setControlFlag.
Qed.

Lemma terminate_kept_by_other_flag (g : ControlFlag) (on : bool)
      (k : VncConnection) :
  g <> TerminateThread ->
  isControlFlagSet TerminateThread k = true ->
  isControlFlagSet TerminateThread (setControlFlag g on k) = true.
Proof.
  intros Hg Ht. rewrite isControlFlagSet_setControlFlag.
  rewrite ControlFlag_eqb_neq by congruence. exact Ht.
Qed.

(** X10.  The request to terminate is never taken back: no call of the
    public interface and no step of the driver thread clears
    TerminateThread once it is set. *)
Theorem terminate_is_monotone (k k' : VncConnection) :
  transition k k' ->
  isControlFlagSet TerminateThread k = true ->
  isControlFlagSet TerminateThread k' = true.
Proof.
  intros Htr Ht. destruct Htr as [k k' Hstep|k];
    [|apply isControlFlagSet_stop].
  destruct Hstep.
  - rewrite <- Ht. apply isControlFlagSet_ext. unfold setHost.
    destruct (firstMatch _ _); [|destruct k; reflexivity].
    destruct (0 <? _), (isEmptyString _); destruct k; reflexivity.
  - rewrite <- Ht. apply isControlFlagSet_ext. unfold setPort.
    destruct (0 <=? p); [destruct k|]; reflexivity.
  - rewrite <- Ht. apply isControlFlagSet_ext. unfold setQuality.
    destruct (m_client _) eqn:E; [|destruct k; reflexivity].
    rewrite m_controlFlags_enqueueEvent.
    unfold updateEncodingSettingsFromQuality. rewrite E.
    destruct k; reflexivity.
  - rewrite <- Ht. apply isControlFlagSet_ext. unfold setUseRemoteCursor.
    destruct (m_client _); [|destruct k; reflexivity].
    rewrite m_controlFlags_enqueueEvent. destruct k; reflexivity.
  - apply terminate_kept_by_other_flag; [discriminate|exact Ht].
  - apply terminate_kept_by_other_flag; [discriminate|exact Ht].
  - unfold setScaledSize. destruct (negb _); [|exact Ht].
    apply terminate_kept_by_other_flag; [discriminate|].
    rewrite <- Ht. apply isControlFlagSet_ext. destruct k; reflexivity.
  - unfold scaledFramebuffer. cbn [fst]. unfold rescaleFramebuffer.
    destruct (_ || _)%bool;
      [rewrite <- Ht; apply isControlFlagSet_ext; destruct k; reflexivity|].
    destruct (negb _); [exact Ht|]. destruct (negb _); [exact Ht|].
    apply terminate_kept_by_other_flag; [discriminate|].
    rewrite <- Ht. apply isControlFlagSet_ext. destruct k; reflexivity.
  - unfold setFramebufferUpdateInterval, wakeAll.
    rewrite isControlFlagSet_record.
    destruct (_ <=? 0).
    + apply terminate_kept_by_other_flag; [discriminate|].
      rewrite <- Ht. apply isControlFlagSet_ext. destruct k; reflexivity.
    + rewrite <- Ht. apply isControlFlagSet_ext. destruct k; reflexivity.
  - rewrite <- Ht. apply isControlFlagSet_ext, m_controlFlags_enqueueEvent.
  - unfold establishPrologue.
    replace (isControlFlagSet TerminateThread (set_m_framebufferState _ _))
      with (isControlFlagSet TerminateThread
              (setControlFlag RestartConnection false
                              (setState Connecting k)))
      by (apply isControlFlagSet_ext;
          destruct (setControlFlag _ _ _); reflexivity).
    apply terminate_kept_by_other_flag; [discriminate|].
    rewrite <- Ht. apply isControlFlagSet_ext, m_controlFlags_setState.
  - assert (H6 : isControlFlagSet TerminateThread (attemptInit a k) = true)
      by (rewrite isControlFlagSet_attemptInit by discriminate; exact Ht).
    unfold connectAttempt. rewrite H6. exact H6.
  - unfold pumpIteration.
    set (k1 := advance _ _).
    assert (H1 : isControlFlagSet TerminateThread k1 = true).
    { rewrite <- Ht. apply isControlFlagSet_ext. destruct k; reflexivity. }
    rewrite H1. exact H1.
  - rewrite <- Ht. apply isControlFlagSet_ext. unfold closeConnection.
    rewrite m_controlFlags_setState.
    destruct (m_client k); [destruct k|]; reflexivity.
Qed.

Lemma terminate_is_monotone_witness :
  isControlFlagSet TerminateThread
    (fst (connectAttempt sampleAttempt (stop sampleConnection))) = true.
Proof.
  apply (terminate_is_monotone (stop sampleConnection)).
  - apply transition_step, step_connectAttempt.
  - reflexivity.
Defined.

(** X11.  Once the thread is asked to terminate the driver does nothing
    more at its loop tests: [handleConnection] runs no iteration and the
    loop of [establishConnection] makes no attempt.  An iteration of the
    pump that finds the request when its wait returns breaks out at once:
    beyond the wait it has no effect, so nothing is sent to the server. *)
Theorem driver_stops_on_terminate (inputs : list PumpInput)
        (attempts : list ConnectAttempt) (inp : PumpInput)
        (k : VncConnection) :
  isControlFlagSet TerminateThread k = true ->
  handleConnection inputs k = k
  /\ establishLoop attempts k = k
  /\ snd (pumpIteration inp k) = false
  /\ (exists usecs,
         effectsSince k (fst (pumpIteration inp k)) = [WaitForMessage usecs])
  /\ m_eventQueue (fst (pumpIteration inp k)) = m_eventQueue k.
Proof.
  intros Ht. split; [|split].
  - destruct inputs as [|i rest]; cbn [handleConnection]; [reflexivity|].
    unfold handleConnectionGuard. rewrite Ht.
    now rewrite andb_false_r.
  - destruct attempts as [|a rest]; cbn [establishLoop]; [reflexivity|].
    now rewrite Ht.
  - unfold pumpIteration.
    set (usecs := if 0 <? m_framebufferUpdateInterval k then _ else _).
    set (k1 := advance _ _).
    assert (H1 : isControlFlagSet TerminateThread k1 = true).
    { rewrite <- Ht. apply isControlFlagSet_ext. destruct k; reflexivity. }
    rewrite H1. cbn [orb fst snd]. split; [reflexivity|]. split.
    + exists usecs. apply effectsSince_app. destruct k; reflexivity.
    + destruct k; reflexivity.
Qed.

Lemma driver_stops_on_terminate_witness :
  handleConnection [silentInput] (stop connectedSample) = stop connectedSample
  /\ snd (pumpIteration silentInput (stop connectedSample)) = false.
Proof.
  destruct (driver_stops_on_terminate
              [silentInput] [] silentInput (stop connectedSample)
              (isControlFlagSet_stop connectedSample))
    as (H1 & _ & H2 & _).
  split; [exact H1|exact H2].
Defined.

(** ** The effects of a connection attempt *)

Lemma trace_setState (s : State) (k : VncConnection) :
  trace (setState s k)
  = trace k ++ if State_eqb (m_state k) s then [] else [Emit stateChanged].
Proof.
  unfold setState. destruct (State_eqb _ _); destruct k; cbn;
    [now rewrite app_nil_r|reflexivity].
Qed.

Lemma trace_onClient (f : rfbClient -> rfbClient) (k : VncConnection) :
  trace (onClient f k) = trace k.
Proof. unfold onClient. destruct (m_client k); destruct k; reflexivity. Qed.

Lemma trace_initFrameBuffer (heap : nat -> Z) (k : VncConnection) :
  exists l, trace (fst (initFrameBuffer heap k)) = trace k ++ l
            /\ forallb isHookSignal l = true.
Proof.
  unfold initFrameBuffer. destruct (m_client k) as [c|];
    [|exists []; now rewrite app_nil_r].
  destruct (negb _); [exists []; now rewrite app_nil_r|]. cbn [fst].
  eexists [_]. unfold updateEncodingSettingsFromQuality.
  destruct k; split; reflexivity.
Qed.

Ltac one_signal :=
  first [ eexists [_]; split; [apply trace_record|reflexivity]
        | exists []; split; [now rewrite app_nil_r|reflexivity] ].

Lemma trace_codecStep (a : CodecAction) (k : VncConnection) :
  exists l, trace (codecStep a k) = trace k ++ l
            /\ forallb isHookSignal l = true.
Proof.
  destruct a; cbn [codecStep];
    try (exists []; rewrite trace_onClient, app_nil_r; now split).
  - unfold hookInitFrameBuffer.
    destruct (_ && _)%bool; [apply trace_initFrameBuffer|one_signal].
  - unfold hookUpdateFB, emit. destruct (clientData _); one_signal.
  - unfold hookFinishFrameBufferUpdate.
    destruct (clientData _); [|one_signal].
    eexists [_]. destruct k; split; reflexivity.
  - unfold hookHandleCursorPos, emit. cbn [fst].
    destruct (clientData _); one_signal.
  - destruct (m_client k); [|one_signal].
    unfold hookCursorShape, emit. destruct (negb _); [one_signal|].
    destruct (clientData _); one_signal.
  - unfold hookCutText, emit. destruct (_ && _)%bool; one_signal.
  - exists []. unfold setServerReachable.
    rewrite trace_setControlFlag, app_nil_r. now split.
Qed.

Lemma trace_runCodec (acts : list CodecAction) (k : VncConnection) :
  exists l, trace (runCodec acts k) = trace k ++ l
            /\ forallb isHookSignal l = true.
Proof.
  unfold runCodec. revert k.
  induction acts as [|a acts IH]; intros k; cbn [fold_left].
  - exists []. now rewrite app_nil_r.
  - destruct (trace_codecStep a k) as (l1 & H1 & F1).
    destruct (IH (codecStep a k)) as (l2 & H2 & F2).
    exists (l1 ++ l2). rewrite H2, H1, <- app_assoc.
    split; [reflexivity|]. rewrite forallb_app. now rewrite F1, F2.
Qed.

(** What an attempt has done when [rfbInitClient] has returned: announced
    the new client, and emitted what the callbacks emitted. *)
Lemma trace_attemptInit (a : ConnectAttempt) (k : VncConnection) :
  exists l, trace (attemptInit a k)
            = trace k ++ Emit connectionPrepared :: l
            /\ forallb isHookSignal l = true.
Proof.
  unfold attemptInit.
  set (k4 := setControlFlag ServerReachable false _).
  assert (H4 : trace k4 = trace k ++ [Emit connectionPrepared]).
  { unfold k4. rewrite trace_setControlFlag, trace_onClient.
    unfold emit. rewrite trace_record. unfold setClientData.
    destruct (m_client (set_m_client _ k)); destruct k; reflexivity. }
  destruct (trace_runCodec (initActions a) k4) as (l & Hl & Fl).
  exists l. split; [|exact Fl].
  assert (H5 : trace (advance (initTime a) (runCodec (initActions a) k4))
               = trace k ++ Emit connectionPrepared :: l).
  { replace (trace (advance (initTime a) (runCodec (initActions a) k4)))
      with (trace (runCodec (initActions a) k4))
      by (destruct (runCodec (initActions a) k4); reflexivity).
    rewrite Hl, H4, <- app_assoc. reflexivity. }
  destruct (clientInitialized a); [exact H5|].
  rewrite <- H5.
  destruct (advance (initTime a) (runCodec (initActions a) k4)); reflexivity.
Qed.

Lemma hook_signals_no_stateChanged (l : list Effect) :
  forallb isHookSignal l = true -> filter isStateChanged l = [].
Proof.
  induction l as [|e l IH]; cbn [forallb filter]; intros H; [reflexivity|].
  apply andb_true_iff in H. destruct H as [He Hl].
  rewrite (IH Hl).
  destruct e as [s| | | | | | | | |]; try reflexivity.
  destruct s; try reflexivity; discriminate.
Qed.

(** The effects of a failed attempt, in order. *)
Lemma trace_failed_attempt (a : ConnectAttempt) (k : VncConnection) :
  clientInitialized a = false ->
  isControlFlagSet TerminateThread k = false ->
  exists l,
    forallb isHookSignal l = true
    /\ trace (fst (connectAttempt a k))
       = trace k
         ++ Emit connectionPrepared :: l
         ++ (if State_eqb (m_state k) (m_state (fst (connectAttempt a k)))
             then [] else [Emit stateChanged])
         ++ [SleeperWait (if 0 <? m_framebufferUpdateInterval k
                          then m_framebufferUpdateInterval k
                          else m_connectionRetryInterval (tunables k))].
Proof.
  intros Hinit Hterm.
  destruct (trace_attemptInit a k) as (l & Hl & Fl).
  destruct (static_attemptInit a k) as [Hst Hset].
  exists l. split; [exact Fl|].
  assert (Ht : isControlFlagSet TerminateThread (attemptInit a k) = false)
    by (rewrite isControlFlagSet_attemptInit by discriminate; exact Hterm).
  unfold connectAttempt. rewrite Ht, Hinit. cbn [fst].
  set (k6 := attemptInit a k) in *.
  set (k7 := if negb (isControlFlagSet ServerReachable k6) then _ else _).
  assert (H7 : exists s, k7 = setState s k6).
  { subst k7. destruct (negb _);
      [destruct (_ || _)%bool|destruct (FramebufferState_eqb _ _)];
      eexists; reflexivity. }
  destruct H7 as (s & H7). rewrite H7.
  rewrite m_state_wait, m_state_setState.
  assert (Hi : m_framebufferUpdateInterval (setState s k6)
               = m_framebufferUpdateInterval k).
  { pose proof (settingsView_setState s k6) as H. rewrite Hset in H.
    unfold settingsView in H. now injection H. }
  rewrite Hi.
  replace (trace (advance (retryTime a) (record _ (setState s k6))))
    with (trace (setState s k6)
          ++ [SleeperWait (if 0 <? m_framebufferUpdateInterval k
                           then m_framebufferUpdateInterval k
                           else m_connectionRetryInterval (tunables k))])
    by (destruct (setState s k6); reflexivity).
  rewrite trace_setState, Hl, Hst.
  rewrite <- !app_assoc. reflexivity.
Qed.

(** The signals of the callbacks are no waits on the sleeper. *)
Lemma hook_signals_no_wait (l : list Effect) :
  forallb isHookSignal l = true -> filter isSleeperWait l = [].
Proof.
  induction l as [|e l IH]; cbn [forallb filter]; intros H; [reflexivity|].
  apply andb_true_iff in H. destruct H as [He Hl].
  rewrite (IH Hl). destruct e; try reflexivity. discriminate.
Qed.

(** X12.  A failed attempt (thread not asked to terminate) waits on the
    sleeper exactly once, and the wait is the last thing the attempt does:
    what the attempt adds to the trace is a list without a wait followed
    by that one wait.  The wait lasts the update interval when that is
    positive and the connection-retry interval otherwise; so with a
    positive retry interval the driver never waits for a time that is not
    positive. *)
Theorem retry_wait_is_positive (a : ConnectAttempt) (k : VncConnection) :
  clientInitialized a = false ->
  isControlFlagSet TerminateThread k = false ->
  let k' := fst (connectAttempt a k) in
  let ms := if 0 <? m_framebufferUpdateInterval k
            then m_framebufferUpdateInterval k
            else m_connectionRetryInterval (tunables k) in
  trace k' = trace k ++ effectsSince k k'
  /\ (exists before,
         effectsSince k k' = before ++ [SleeperWait ms]
         /\ filter isSleeperWait before = [])
  /\ filter isSleeperWait (effectsSince k k') = [SleeperWait ms]
  /\ (0 < m_connectionRetryInterval (tunables k) -> 0 < ms).
Proof.
  intros Hinit Hterm k' ms. subst k'.
  destruct (trace_failed_attempt a k Hinit Hterm) as (l & Fl & Htr).
  fold ms in Htr.
  set (sc := if State_eqb (m_state k) (m_state (fst (connectAttempt a k)))
             then [] else [Emit stateChanged]) in Htr.
  assert (He : effectsSince k (fst (connectAttempt a k))
               = (Emit connectionPrepared :: l ++ sc) ++ [SleeperWait ms]).
  { apply effectsSince_app. rewrite Htr, <- app_comm_cons, <- app_assoc.
    reflexivity. }
  assert (Hf : filter isSleeperWait (Emit connectionPrepared :: l ++ sc)
               = []).
  { cbn [filter isSleeperWait].
    rewrite filter_app, (hook_signals_no_wait l Fl).
    subst sc. now destruct (State_eqb _ _). }
  split; [|split; [|split]].
  - rewrite He, Htr, <- app_comm_cons, <- app_assoc. reflexivity.
  - exists (Emit connectionPrepared :: l ++ sc). split; [exact He|exact Hf].
  - rewrite He, filter_app, Hf. reflexivity.
  - intros Hr. subst ms.
    destruct (Z.ltb_spec 0 (m_framebufferUpdateInterval k)); lia.
Qed.

Lemma retry_wait_is_positive_witness :
  exists ms,
    filter isSleeperWait
           (effectsSince
              (setFramebufferUpdateInterval (-5) sampleConnection)
              (fst (connectAttempt (failedAttempt [] true)
                                   (setFramebufferUpdateInterval
                                      (-5) sampleConnection))))
    = [SleeperWait ms]
    /\ 0 < ms.
Proof.
  destruct (retry_wait_is_positive
              (failedAttempt [] true)
              (setFramebufferUpdateInterval (-5) sampleConnection)
              eq_refl eq_refl) as (_ & _ & H3 & H4).
  eexists. split; [exact H3|]. apply H4. reflexivity.
Defined.

(** X13.  A failed attempt emits state-changed exactly when the failure
    state it ends in differs from the state before the attempt, and then
    once.  A retry that fails the same way as the attempt before it
    therefore emits no state-changed at all: the state does not pass
    through Connecting between retries. *)
Theorem stateChanged_only_on_change (a : ConnectAttempt)
        (k : VncConnection) :
  clientInitialized a = false ->
  isControlFlagSet TerminateThread k = false ->
  let k' := fst (connectAttempt a k) in
  filter isStateChanged (effectsSince k k')
  = (if State_eqb (m_state k) (m_state k') then [] else [Emit stateChanged])
  /\ (m_state k' = m_state k ->
      filter isStateChanged (effectsSince k k') = []).
Proof.
  intros Hinit Hterm k'. subst k'.
  destruct (trace_failed_attempt a k Hinit Hterm) as (l & Fl & Htr).
  assert (H : filter isStateChanged
                     (effectsSince k (fst (connectAttempt a k)))
              = if State_eqb (m_state k) (m_state (fst (connectAttempt a k)))
                then [] else [Emit stateChanged]).
  { rewrite (effectsSince_app _ _ _ Htr).
    cbn [filter isStateChanged]. rewrite !filter_app.
    rewrite (hook_signals_no_stateChanged l Fl).
    destruct (State_eqb _ _); reflexivity. }
  split; [exact H|].
  intros E. rewrite H, E.
  now destruct (m_state k).
Qed.

Lemma stateChanged_only_on_change_witness :
  let once := fst (connectAttempt (failedAttempt [] false) sampleConnection) in
  let twice := fst (connectAttempt (failedAttempt [] false) once) in
  filter isStateChanged (effectsSince sampleConnection once)
  = [Emit stateChanged]
  /\ filter isStateChanged (effectsSince once twice) = [].
Proof.
  intros once twice. split.
  - apply (stateChanged_only_on_change
             (failedAttempt [] false) sampleConnection eq_refl eq_refl).
  - apply (stateChanged_only_on_change
             (failedAttempt [] false) once eq_refl eq_refl).
    reflexivity.
Defined.

(** ** From a successful attempt into the pump *)

Lemma client_codecStep (a : CodecAction) (k : VncConnection)
      (c : rfbClient) :
  m_client k = Some c ->
  exists c', m_client (codecStep a k) = Some c'
             /\ clientId c' = clientId c /\ ownerSlot c' = ownerSlot c.
Proof.
  intros Hc.
  assert (Hsame : forall k', m_client k' = m_client k ->
                             exists c', m_client k' = Some c'
                                        /\ clientId c' = clientId c
                                        /\ ownerSlot c' = ownerSlot c).
  { intros k' E. exists c. rewrite E. auto. }
  destruct a; cbn [codecStep];
    try (unfold onClient; rewrite Hc; eexists;
         split; [destruct k; reflexivity|destruct c; split; reflexivity]).
  - unfold hookInitFrameBuffer. destruct (_ && _)%bool; [|now apply Hsame].
    unfold initFrameBuffer. rewrite Hc.
    destruct (negb _); [now apply Hsame|]. cbn [fst].
    unfold updateEncodingSettingsFromQuality.
    destruct k, c; cbn. eexists. repeat split.
  - apply Hsame. unfold hookUpdateFB.
    destruct (clientData _); destruct k; reflexivity.
  - apply Hsame. unfold hookFinishFrameBufferUpdate.
    destruct (clientData _); destruct k; reflexivity.
  - apply Hsame. unfold hookHandleCursorPos. cbn [fst].
    destruct (clientData _); destruct k; reflexivity.
  - apply Hsame. destruct (m_client k) eqn:E; [|discriminate].
    unfold hookCursorShape. destruct (negb _); [exact E|].
    destruct (clientData _); [|exact E].
    rewrite <- E. destruct k; reflexivity.
  - apply Hsame. unfold hookCutText.
    destruct (_ && _)%bool; destruct k; reflexivity.
  - apply Hsame. destruct k; reflexivity.
Qed.

Lemma client_runCodec (acts : list CodecAction) (k : VncConnection)
      (c : rfbClient) :
  m_client k = Some c ->
  exists c', m_client (runCodec acts k) = Some c'
             /\ clientId c' = clientId c /\ ownerSlot c' = ownerSlot c.
Proof.
  unfold runCodec. revert k c.
  induction acts as [|a acts IH]; intros k c Hc; cbn [fold_left].
  - exists c. auto.
  - destruct (client_codecStep a k c Hc) as (c1 & H1 & I1 & O1).
    destruct (IH _ c1 H1) as (c2 & H2 & I2 & O2).
    exists c2. repeat split; congruence.
Qed.

Lemma establishLoop_connected (attempts : list ConnectAttempt)
      (k : VncConnection) :
  m_state k = Connected -> establishLoop attempts k = k.
Proof.
  intros H. destruct attempts; cbn [establishLoop]; [reflexivity|].
  unfold state. rewrite H. now rewrite andb_false_r.
Qed.

Lemma isControlFlagSet_establishPrologue (f : ControlFlag)
      (k : VncConnection) :
  isControlFlagSet f (establishPrologue k)
  = if ControlFlag_eqb f RestartConnection then false
    else isControlFlagSet f k.
Proof.
  unfold establishPrologue.
  rewrite (isControlFlagSet_ext
             f (setControlFlag RestartConnection false
                               (setState Connecting k)))
    by (destruct (setControlFlag _ _ _); reflexivity).
  rewrite isControlFlagSet_setControlFlag.
  destruct (ControlFlag_eqb f RestartConnection); [reflexivity|].
  apply isControlFlagSet_ext, m_controlFlags_setState.
Qed.

Lemma m_state_establishPrologue (k : VncConnection) :
  m_state (establishPrologue k) = Connecting.
Proof.
  unfold establishPrologue.
  replace (m_state (set_m_framebufferState Invalid
                      (setControlFlag RestartConnection false
                                      (setState Connecting k))))
    with (m_state (setState Connecting k));
    [apply m_state_setState|].
  destruct (setState Connecting k); reflexivity.
Qed.

Lemma m_client_setControlFlag (f : ControlFlag) (on : bool)
      (k : VncConnection) :
  m_client (setControlFlag f on k) = m_client k.
Proof. destruct on, k; reflexivity. Qed.

Lemma m_client_onClient (f : rfbClient -> rfbClient) (k : VncConnection) :
  m_client (onClient f k) = option_map f (m_client k).
Proof.
  unfold onClient. destruct (m_client k) eqn:E; [destruct k; reflexivity|].
  exact E.
Qed.

Lemma m_client_record (e : Effect) (k : VncConnection) :
  m_client (record e k) = m_client k.
Proof. destruct k; reflexivity. Qed.

Lemma m_client_set_m_client (c : option rfbClient) (k : VncConnection) :
  m_client (set_m_client c k) = c.
Proof. destruct k; reflexivity. Qed.

Lemma client_attemptInit (a : ConnectAttempt) (k : VncConnection) :
  clientInitialized a = true ->
  exists c, m_client (attemptInit a k) = Some c
            /\ clientId c = clientId (freshClient a)
            /\ ownerSlot c = true.
Proof.
  intros Hinit. unfold attemptInit. rewrite Hinit.
  set (k4 := setControlFlag ServerReachable false _).
  assert (H4 : exists c, m_client k4 = Some c
                         /\ clientId c = clientId (freshClient a)
                         /\ ownerSlot c = true).
  { unfold k4, emit, setClientData.
    rewrite m_client_setControlFlag, m_client_onClient, m_client_record.
    rewrite !m_client_set_m_client. cbn [option_map].
    eexists. split; [reflexivity|].
    destruct (freshClient a); split; reflexivity. }
  destruct H4 as (c & Hc & Hi & Ho).
  destruct (client_runCodec (initActions a) k4 c Hc) as (c' & Hc' & Hi' & Ho').
  exists c'. split; [|split; congruence].
  rewrite <- Hc'. destruct (runCodec (initActions a) k4); reflexivity.
Qed.

(** X14.  When the first attempt of [establishConnection] succeeds and
    the thread is not asked to terminate, the connection comes out ready
    for the pump: the state is Connected, the loop test of
    [handleConnection] holds (a restart requested earlier is forgotten),
    the connection holds the client of that attempt with itself
    registered as the owner, and the watchdog has just been restarted.
    Further attempts are not made. *)
Theorem successful_attempt_enters_pump (a : ConnectAttempt)
        (rest : list ConnectAttempt) (k : VncConnection) :
  clientInitialized a = true ->
  isControlFlagSet TerminateThread k = false ->
  let k' := establishConnection (a :: rest) k in
  m_state k' = Connected
  /\ handleConnectionGuard k' = true
  /\ (exists c, m_client k' = Some c
                /\ clientId c = clientId (freshClient a)
                /\ ownerSlot c = true)
  /\ watchdogElapsed k' = 0.
Proof.
  intros Hinit Hterm k'. subst k'. unfold establishConnection.
  set (kp := establishPrologue k).
  assert (Tp : isControlFlagSet TerminateThread kp = false)
    by (unfold kp; rewrite isControlFlagSet_establishPrologue; exact Hterm).
  assert (Rp : isControlFlagSet RestartConnection kp = false)
    by (unfold kp; now rewrite isControlFlagSet_establishPrologue).
  assert (Sp : m_state kp = Connecting) by apply m_state_establishPrologue.
  cbn [establishLoop]. unfold state. rewrite Tp, Sp. cbn [negb andb State_eqb].
  assert (T6 : isControlFlagSet TerminateThread (attemptInit a kp) = false)
    by (rewrite isControlFlagSet_attemptInit by discriminate; exact Tp).
  assert (R6 : isControlFlagSet RestartConnection (attemptInit a kp) = false)
    by (rewrite isControlFlagSet_attemptInit by discriminate; exact Rp).
  destruct (client_attemptInit a kp Hinit) as (c & Hc & Hi & Ho).
  unfold connectAttempt. rewrite T6, Hinit.
  set (k6 := attemptInit a kp) in *.
  set (k8 := record _ (restartWatchdog k6)).
  rewrite establishLoop_connected by apply m_state_setState.
  assert (F8 : m_controlFlags (setState Connected k8) = m_controlFlags k6).
  { rewrite m_controlFlags_setState. destruct k6; reflexivity. }
  split; [apply m_state_setState|]. split; [|split].
  - unfold handleConnectionGuard, state. rewrite m_state_setState.
    rewrite (isControlFlagSet_ext TerminateThread _ _ F8), T6.
    rewrite (isControlFlagSet_ext RestartConnection _ _ F8), R6.
    reflexivity.
  - exists c. rewrite m_client_setState. split; [|auto].
    rewrite <- Hc. destruct k6; reflexivity.
  - unfold watchdogElapsed, setState.
    destruct (State_eqb _ _); destruct k6; cbn; lia.
Qed.

Lemma successful_attempt_enters_pump_witness :
  m_state connectedSample = Connected
  /\ handleConnectionGuard connectedSample = true.
Proof.
  destruct (successful_attempt_enters_pump
              sampleAttempt [] sampleConnection eq_refl eq_refl)
    as (H1 & H2 & _).
  split; [exact H1|exact H2].
Defined.

(** ** The queue across an iteration of the pump *)

Lemma settingsView_handleMessages (m : ServerMessage)
      (more : list ServerMessage) (k : VncConnection) :
  settingsView (fst (handleMessages m more k)) = settingsView k.
Proof.
  revert m k. induction more as [|m' more IH]; intros m k;
    cbn [handleMessages HandleRFBServerMessage];
    destruct (sm_ok m); cbn [fst];
      rewrite ?IH, ?(proj2 (static_record _ _)),
        ?(proj2 (static_advance _ _));
      apply static_runCodec.
Qed.

Lemma m_eventQueue_pumpTail (loopStart : Z) (slept : N) (k : VncConnection) :
  m_eventQueue (pumpTail loopStart slept k) = [].
Proof.
  unfold pumpTail, sendEvents.
  match goal with
  | |- m_eventQueue (drainQueue (m_eventQueue ?x) ?x) = _ => destruct x
  end.
  cbn [m_eventQueue]. now rewrite drainQueue_all.
Qed.

(** X15.  An iteration of the pump that goes on to the next one has sent
    or dropped every queued event and leaves the queue empty; an iteration
    that breaks out of the loop (request to terminate, failed wait, failed
    message) leaves the queue exactly as it was. *)
Theorem pump_queue_after_iteration (inp : PumpInput) (k : VncConnection) :
  m_eventQueue (fst (pumpIteration inp k))
  = if snd (pumpIteration inp k) then [] else m_eventQueue k.
Proof.
  unfold pumpIteration.
  set (k1 := advance _ _).
  assert (H1 : m_eventQueue k1 = m_eventQueue k) by (destruct k; reflexivity).
  destruct (_ || _)%bool; [exact H1|].
  destruct (negb _).
  - pose proof (settingsView_handleMessages
                  (firstMessage inp) (moreMessages inp) k1) as H2.
    destruct (handleMessages _ _ k1) as [k2 ok]. cbn [fst] in H2.
    destruct ok; cbn [fst snd]; [apply m_eventQueue_pumpTail|].
    rewrite <- H1. unfold settingsView in H2. now injection H2.
  - cbn [fst snd]. apply m_eventQueue_pumpTail.
Qed.

(** ** Waiting inside the pump *)











(** ** The thread function *)

Lemma run_closed (rounds : list (list ConnectAttempt * list PumpInput))
      (k : VncConnection) :
  m_state k = Disconnected -> m_client k = None ->
  m_state (run rounds k) = Disconnected /\ m_client (run rounds k) = None.
Proof.
  revert k. induction rounds as [|[attempts inputs] rest IH];
    intros k Hs Hc; cbn [run].
  - destruct (isControlFlagSet TerminateThread k); [|auto].
    destruct (isControlFlagSet DeleteAfterFinished k);
      [destruct k; auto|auto].
  - destruct (isControlFlagSet TerminateThread k).
    + destruct (isControlFlagSet DeleteAfterFinished k);
        [destruct k; auto|auto].
    + apply IH; apply closeConnection_released.
Qed.

(** X17.  When the thread function has gone through at least one round
    of establish, handle and close, it leaves the connection released:
    without a client and in the state Disconnected, whatever happened in
    the rounds. *)
Theorem run_ends_released
        (rounds : list (list ConnectAttempt * list PumpInput))
        (k : VncConnection) :
  rounds <> [] ->
  isControlFlagSet TerminateThread k = false ->
  m_state (run rounds k) = Disconnected /\ m_client (run rounds k) = None.
Proof.
  intros Hr Ht. destruct rounds as [|[attempts inputs] rest];
    [now elim Hr|].
  cbn [run]. rewrite Ht.
  apply run_closed; apply closeConnection_released.
Qed.

Lemma run_ends_released_witness :
  m_state (run [([sampleAttempt], [silentInput])] sampleConnection)
  = Disconnected
  /\ m_client (run [([sampleAttempt], [silentInput])] sampleConnection)
     = None.
Proof.
  apply (run_ends_released [([sampleAttempt], [silentInput])]
                           sampleConnection).
  - discriminate.
  - reflexivity.
Defined.
